(** * binance-bot: the webhook order translator of [server.py]

    A shallow embedding of [server.py] and the properties of its
    close-then-open order translation.

    - Python values are the decoded JSON values the handler receives
      ([pyval]); Python [float] is IEEE binary64, carried by the kernel's
      primitive floats, and Python [int] is [Z].  Strings are ASCII text:
      [upper] and [float] are modelled on the ASCII letters, digits and
      white space; text with other characters, on which Python's
      [str.upper] and [float] follow Unicode, is outside the model.
    - The Binance client is a remote collaborator: a function from the
      history of calls already issued and the call being made to either a
      JSON reply or a raised exception.  Every call is appended to the
      state's [calls], so that orderings of calls can be stated.
    - [symbol_info_cache] is the module-level dictionary of the source, a
      finite map that lives in the state across requests.
    - [logging] calls append to the state's [log].
    - A [try] is run by [attempt], which hands what the body returned or
      raised to the [except] clauses. *)

From stdpp Require Import base option list gmap strings.
From Stdlib Require Import ZArith List String Ascii Bool Lia.
From Stdlib Require Import PrimFloat SpecFloat FloatOps.
Import ListNotations.

#[local] Set Warnings "-register-all".
Open Scope Z_scope.

(** ** Python run-time values and exceptions *)

(** What a [ValueError] of this program can say. *)
Inductive value_error :=
| CouldNotConvertToFloat (text : string)   (* float("abc") *)
| MathDomainError                          (* math.log(x) with x <= 0 *)
| CannotConvertNaNToInteger                (* int(nan), math.floor(nan) *)
| NoSymbolInfo (symbol : string).          (* raised by webhook itself *)

Inductive exn :=
| KeyError (key : string)
| ValueError (why : value_error)
| TypeError
| AttributeError
| OverflowError
| ZeroDivisionError
| StopIteration
| BinanceAPIException (code : Z) (message : string)
| OtherException (name : string).

Inductive result (A : Type) :=
| Ok (a : A)
| Raise (e : exn).
Arguments Ok {A} a.
Arguments Raise {A} e.

Inductive pyval :=
| PNone
| PBool (b : bool)
| PInt (n : Z)
| PFloat (f : float)
| PStr (s : string)
| PList (items : list pyval)
| PDict (items : list (string * pyval)).

(** [d[k]] on a dictionary given by its items. *)
Fixpoint dict_get (k : string) (items : list (string * pyval)) : option pyval :=
  match items with
  | [] => None
  | (k', v) :: rest => if String.eqb k' k then Some v else dict_get k rest
  end.

(** [v[k]] for a string key [k]: only a dict can be subscripted by a string. *)
Definition getitem (v : pyval) (k : string) : result pyval :=
  match v with
  | PDict items =>
      match dict_get k items with
      | Some x => Ok x
      | None => Raise (KeyError k)
      end
  | _ => Raise TypeError
  end.

(** [iter(v)]: a list yields its items, a dict its keys, a string its
    characters; nothing else is iterable. *)
Definition py_iter (v : pyval) : result (list pyval) :=
  match v with
  | PList items => Ok items
  | PDict items => Ok (List.map (fun kv => PStr (fst kv)) items)
  | PStr s => Ok (List.map (fun c => PStr (String c EmptyString)) (list_ascii_of_string s))
  | _ => Raise TypeError
  end.

(** [v == s] for a string [s]. *)
Definition eq_str (v : pyval) (s : string) : bool :=
  match v with
  | PStr s' => String.eqb s' s
  | _ => false
  end.

(** Truth value of an object, as [if not position] takes it. *)
Definition truthy (v : pyval) : bool :=
  match v with
  | PNone => false
  | PBool b => b
  | PInt n => negb (n =? 0)
  | PFloat f => negb (PrimFloat.eqb f 0)
  | PStr s => negb (String.eqb s EmptyString)
  | PList items => match items with [] => false | _ => true end
  | PDict items => match items with [] => false | _ => true end
  end.

(** [s.upper()], on ASCII letters. *)
Definition upper_ascii (c : ascii) : ascii :=
  let n := N_of_ascii c in
  if ((97 <=? n) && (n <=? 122))%N then ascii_of_N (n - 32) else c.

Definition upper (s : string) : string :=
  string_of_list_ascii (List.map upper_ascii (list_ascii_of_string s)).

(** [v.upper()]: only [str] has the method. *)
Definition py_upper (v : pyval) : result string :=
  match v with
  | PStr s => Ok (upper s)
  | _ => Raise AttributeError
  end.

(** ** Python floats: binary64 *)

Module Float.

(** The binary64 value nearest to [n / d] (ties to even), with sign [neg]. *)
Definition of_ratio (neg : bool) (n d : positive) : spec_float :=
  let '(q, e, l) := SFdiv_core_binary prec emax (Zpos n) 0 (Zpos d) 0 in
  binary_round_aux prec emax neg q e l.

(** The binary64 value nearest to [m * 10^e]. *)
Definition of_decimal (neg : bool) (m : Z) (e : Z) : spec_float :=
  match m with
  | Zpos p =>
      match e with
      | Zneg k => of_ratio neg p (Z.to_pos (10 ^ Zpos k))
      | _ => binary_normalize prec emax (cond_Zopp neg (Zpos p * 10 ^ e)) 0 neg
      end
  | _ => S754_zero neg
  end.

(** [float(n)] for an [int]: the nearest binary64 value; an [int] beyond
    the range of binary64 raises [OverflowError]. *)
Definition of_int (n : Z) : result float :=
  match binary_normalize prec emax n 0 false with
  | S754_infinity _ => Raise OverflowError
  | x => Ok (SF2Prim x)
  end.

(** [math.floor(f)]. *)
Definition floor (f : float) : result Z :=
  match Prim2SF f with
  | S754_zero _ => Ok 0
  | S754_finite s m e => Ok (Z.shiftl (cond_Zopp s (Zpos m)) e)
  | S754_infinity _ => Raise OverflowError
  | S754_nan => Raise (ValueError CannotConvertNaNToInteger)
  end.

(** [int(f)]: truncation towards zero. *)
Definition to_int (f : float) : result Z :=
  match Prim2SF f with
  | S754_zero _ => Ok 0
  | S754_finite s m e => Ok (cond_Zopp s (Z.shiftl (Zpos m) e))
  | S754_infinity _ => Raise OverflowError
  | S754_nan => Raise (ValueError CannotConvertNaNToInteger)
  end.

(** [a / b] on two [int]s: the correctly rounded quotient. *)
Definition int_truediv (a b : Z) : result float :=
  match b with
  | Z0 => Raise ZeroDivisionError
  | _ =>
      match a with
      | Z0 => Ok zero
      | _ =>
          match of_ratio (xorb (a <? 0) (b <? 0)) (Z.to_pos (Z.abs a)) (Z.to_pos (Z.abs b)) with
          | S754_infinity _ => Raise OverflowError
          | x => Ok (SF2Prim x)
          end
      end
  end.

(** [a / b] on two [float]s: Python raises where IEEE returns an
    infinity or a NaN for a zero divisor. *)
Definition truediv (a b : float) : result float :=
  if PrimFloat.eqb b 0 then Raise ZeroDivisionError else Ok (a / b)%float.

(** *** [float(s)] for a string

    After surrounding white space is dropped: an optional sign, then
    [inf], [infinity] or [nan] in any case, or a decimal numeral with an
    optional fraction and exponent; one underscore may stand between two
    digits.  Strings are read as ASCII. *)

(** The white space that [float] drops: tab to carriage return, and the
    space. *)
Definition is_space (c : ascii) : bool :=
  let n := N_of_ascii c in
  (((9 <=? n) && (n <=? 13)) || (n =? 32))%N.

Fixpoint lstrip (l : list ascii) : list ascii :=
  match l with
  | c :: l' => if is_space c then lstrip l' else l
  | [] => []
  end.

Definition strip (l : list ascii) : list ascii :=
  List.rev (lstrip (List.rev (lstrip l))).

Definition digit_of (c : ascii) : option Z :=
  let n := N_of_ascii c in
  if ((48 <=? n) && (n <=? 57))%N then Some (Z.of_N (n - 48)) else None.

Definition lower_ascii (c : ascii) : ascii :=
  let n := N_of_ascii c in
  if ((65 <=? n) && (n <=? 90))%N then ascii_of_N (n + 32) else c.

(** The rest of a digit part: [(acc, count, rest)] after reading
    [(["_"] digit)*]. *)
Fixpoint digits_tail (acc count : Z) (l : list ascii) : Z * Z * list ascii :=
  match l with
  | c :: l' =>
      match digit_of c with
      | Some d => digits_tail (10 * acc + d) (count + 1) l'
      | None =>
          if Ascii.eqb c "_" then
            match l' with
            | c2 :: l'' =>
                match digit_of c2 with
                | Some d => digits_tail (10 * acc + d) (count + 1) l''
                | None => (acc, count, l)
                end
            | [] => (acc, count, l)
            end
          else (acc, count, l)
      end
  | [] => (acc, count, l)
  end.

(** A digit part: [digit (["_"] digit)*], continuing the value [acc]. *)
Definition digitpart (acc : Z) (l : list ascii) : option (Z * Z * list ascii) :=
  match l with
  | c :: l' =>
      match digit_of c with
      | Some d => Some (digits_tail (10 * acc + d) 1 l')
      | None => None
      end
  | [] => None
  end.

Definition sign_of (l : list ascii) : bool * list ascii :=
  match l with
  | c :: l' =>
      if Ascii.eqb c "-" then (true, l')
      else if Ascii.eqb c "+" then (false, l')
      else (false, l)
  | [] => (false, l)
  end.

(** The exponent part, if any: [(exponent, rest)]. *)
Definition exponent (l : list ascii) : option (Z * list ascii) :=
  match l with
  | c :: l' =>
      if Ascii.eqb (lower_ascii c) "e" then
        let '(neg, l'') := sign_of l' in
        match digitpart 0 l'' with
        | Some (e, _, rest) => Some (cond_Zopp neg e, rest)
        | None => None
        end
      else Some (0, l)
  | [] => Some (0, l)
  end.

(** Mantissa and decimal exponent of [digits [. [digits]]] or [. digits],
    followed by an optional exponent; nothing may follow. *)
Definition decimal (l : list ascii) : option (Z * Z) :=
  let after_fraction (m frac : Z) (l : list ascii) :=
    match exponent l with
    | Some (e, []) => Some (m, e - frac)
    | _ => None
    end in
  match digitpart 0 l with
  | Some (m, _, "."%char :: l') =>
      match digitpart m l' with
      | Some (m', frac, l'') => after_fraction m' frac l''
      | None => after_fraction m 0 l'
      end
  | Some (m, _, l') => after_fraction m 0 l'
  | None =>
      match l with
      | "."%char :: l' =>
          match digitpart 0 l' with
          | Some (m, frac, l'') => after_fraction m frac l''
          | None => None
          end
      | _ => None
      end
  end.

Definition of_string (s : string) : result float :=
  let '(neg, l) := sign_of (strip (list_ascii_of_string s)) in
  let word := string_of_list_ascii (List.map lower_ascii l) in
  if String.eqb word "inf" || String.eqb word "infinity" then
    Ok (if neg then neg_infinity else infinity)
  else if String.eqb word "nan" then Ok nan
  else
    match decimal l with
    | Some (m, e) => Ok (SF2Prim (of_decimal neg m e))
    | None => Raise (ValueError (CouldNotConvertToFloat s))
    end.

(** [float(v)]. *)
Definition of_pyval (v : pyval) : result float :=
  match v with
  | PFloat f => Ok f
  | PInt n => of_int n
  | PBool b => Ok (if b then one else zero)
  | PStr s => of_string s
  | _ => Raise TypeError
  end.

(** [10 ** p] for a negative [int] [p] is a [float]. *)
Definition pow10_neg (k : positive) : float :=
  SF2Prim (of_ratio false 1 (Z.to_pos (10 ^ Zpos k))).

(** *** [int(round(-math.log(x, 10), 0))]

    The logarithm is taken exactly: for a finite [x = m * 2^e > 0] the
    result is the integer [p] nearest to [-log10 x], the least [p] with
    [x^2 * 10^(2p+1) > 1].  ([-log10 x] is never half-way between two
    integers, as [10^(p+1/2)] is irrational; the rounding error of the C
    library's [log], which can only matter for an [x] within a few units
    in the last place of such a point, is not modelled.) *)

(** [x^2 * 10^(2p+1) > 1] for [x = m * 2^e]. *)
Definition above_half (m : positive) (e : Z) (p : Z) : bool :=
  let sq := Zpos m * Zpos m in
  let t := 2 * p + 1 in
  let num := sq * (if 0 <=? e then 2 ^ (2 * e) else 1) * (if 0 <=? t then 10 ^ t else 1) in
  let den := (if 0 <=? e then 1 else 2 ^ (- (2 * e))) * (if 0 <=? t then 1 else 10 ^ (- t)) in
  den <? num.

(** The least [p] above [lo] and up to [hi] with [above_half m e p], by
    bisection: [above_half m e] is monotone, and it is to be false at [lo]
    and true at [hi]. *)
Fixpoint bisect (m : positive) (e : Z) (fuel : nat) (lo hi : Z) : Z :=
  match fuel with
  | O => hi
  | S fuel' =>
      if hi - lo <=? 1 then hi
      else
        let mid := (lo + hi) / 2 in
        if above_half m e mid then bisect m e fuel' lo mid
        else bisect m e fuel' mid hi
  end.

(** Every finite binary64 value lies between [10^-326] and [10^310]. *)
Definition neg_log10_round (x : float) : result Z :=
  match Prim2SF x with
  | S754_finite false m e => Ok (bisect m e 12 (-311) 326)
  | S754_infinity false => Raise OverflowError
  | S754_nan => Raise (ValueError CannotConvertNaNToInteger)
  | _ => Raise (ValueError MathDomainError)
  end.

End Float.

(** Sequencing of fallible pure steps. *)
Definition and_then {A B} (r : result A) (k : A -> result B) : result B :=
  match r with
  | Ok a => k a
  | Raise e => Raise e
  end.

Notation "x <~ r ; k" := (and_then r (fun x => k))
  (at level 100, r at next level, right associativity).

(** ** The exchange client, the log, and the state of the process *)

Inductive side := BUY | SELL.
Inductive order_type := MARKET | TRAILING_STOP_MARKET.

(** The methods of [binance.client.Client] that [server.py] calls, with
    their keyword arguments. *)
Inductive call :=
| futures_exchange_info
| futures_position_information (symbol : string)
| futures_cancel_all_open_orders (symbol : string)
| futures_change_leverage (symbol : string) (leverage : Z)
| futures_mark_price (symbol : string)
| futures_create_order (symbol : string) (sd : side) (type : order_type)
    (quantity : float) (callbackRate : option float) (workingType : option string).

(** The client answers a call, given the calls issued before it, with a
    decoded JSON reply or by raising. *)
Definition binance_client := list call -> call -> result pyval.

Record symbol_info := {
  tickSize : float;
  stepSize : float;
  minQty : float
}.

(** The second component of what [close_position_for_symbol] returns. *)
Inductive close_detail :=
| NoPositionToClose                 (* "No position to close." *)
| ClosedBy (orderId : pyval)        (* close_order['orderId'] *)
| LikelyAlreadyClosed               (* "Position likely already closed." *)
| ErrorText (e : exn).              (* str(e) *)

Inductive level := INFO | WARNING | ERROR.

(** One constructor per [logging] call of the source, in source order. *)
Inductive log_message :=
| FetchingFilters (symbol : string)
| FiltersError (symbol : string) (e : exn)
| QuantityBelowMinimum (formatted_quantity min_qty : float)
| NoOpenPosition (symbol : string)
| CancelledOpenOrders (symbol : string)
| ClosingPosition (symbol : string) (side_to_close : side) (quantity_to_close : float)
| PositionClosed (symbol : string) (orderId : pyval)
| CloseLikelyAlreadyClosed (symbol : string) (e : exn)
| CloseApiError (symbol : string) (e : exn)
| CloseUnexpectedError (symbol : string) (e : exn)
| WebhookReceived (data : pyval)
| UnauthorizedAccess
| CloseBeforeOpenFailed (symbol : string)
| QuantityTooSmallLogged (quantity_unformatted : float)
| OpeningOrder (sd : side) (quantity : float) (symbol : string)
| MarketOrderSent (orderId : pyval)
| TrailingStopPlaced (tsl_percent : float) (orderId : pyval)
| OpenApiError (e : exn)
| OpenUnexpectedError (e : exn).

Record state := {
  calls : list call;
  symbol_info_cache : gmap string symbol_info;
  log : list (level * log_message)
}.

(** ** Computations: state passing with exceptions *)

Definition M (A : Type) : Type := state -> result A * state.

Definition ret {A} (a : A) : M A := fun s => (Ok a, s).

Definition raise {A} (e : exn) : M A := fun s => (Raise e, s).

Definition lift {A} (r : result A) : M A := fun s => (r, s).

Definition bind {A B} (m : M A) (k : A -> M B) : M B :=
  fun s =>
    match m s with
    | (Ok a, s') => k a s'
    | (Raise e, s') => (Raise e, s')
    end.

(** Running the body of a [try]: what it returned or raised is handed to
    the [except] clauses as a value. *)
Definition attempt {A} (m : M A) : M (result A) :=
  fun s => let '(r, s') := m s in (Ok r, s').

Notation "x <- m ;; k" := (bind m (fun x => k))
  (at level 100, m at next level, right associativity).
Notation "m ;; k" := (bind m (fun _ => k))
  (at level 100, right associativity).

Definition logging (l : level) (msg : log_message) : M unit :=
  fun s =>
    (Ok tt, {| calls := calls s;
               symbol_info_cache := symbol_info_cache s;
               log := log s ++ [(l, msg)] |}).

Definition cache_has (symbol : string) : M bool :=
  fun s => (Ok (bool_decide (is_Some (symbol_info_cache s !! symbol))), s).

Definition cache_store (symbol : string) (info : symbol_info) : M unit :=
  fun s =>
    (Ok tt, {| calls := calls s;
               symbol_info_cache := <[symbol := info]> (symbol_info_cache s);
               log := log s |}).

(** [symbol_info_cache[symbol]]. *)
Definition cache_read (symbol : string) : M symbol_info :=
  fun s =>
    match symbol_info_cache s !! symbol with
    | Some info => (Ok info, s)
    | None => (Raise (KeyError symbol), s)
    end.

(** ** HTTP responses of the webhook *)

Inductive message :=
| MalformedJson                       (* "JSON malformado o vacío" *)
| Unauthorized                        (* "No autorizado" *)
| MissingRequired (e : exn)           (* f"Dato requerido faltante: {e}" *)
| CloseDetail (d : close_detail)      (* the message of a failed CLOSE *)
| CouldNotCloseBeforeOpen
| InvalidOpenData (e : exn)           (* f"Datos incompletos o inválidos para abrir orden: {e}" *)
| QuantityTooSmall (quantity_unformatted : float)
| ExceptionText (e : exn)             (* str(e) *)
| UnknownAction (action : string).

Inductive body :=
| Error (msg : message)                                  (* status "error" *)
| CloseProcessed (symbol : string) (details : close_detail)  (* status "success" *)
| OperationCompleted (orderId : pyval).                  (* status "success" *)

Record response := {
  payload : body;
  status_code : Z
}.

Definition in_list (s : string) (l : list string) : bool :=
  existsb (String.eqb s) l.

(** [10 ** precision]: an [int] for a precision that is not negative, a
    [float] otherwise. *)
Inductive number :=
| Int (n : Z)
| Flt (f : float).

Definition pow10 (precision : Z) : number :=
  match precision with
  | Zneg k => Flt (Float.pow10_neg k)
  | _ => Int (10 ^ precision)
  end.

(** [x * y] for a [float] [x]. *)
Definition float_mul (x : float) (y : number) : result float :=
  match y with
  | Int n => f <~ Float.of_int n; Ok (x * f)%float
  | Flt f => Ok (x * f)%float
  end.

(** [n / y] for an [int] [n]. *)
Definition int_div (n : Z) (y : number) : result float :=
  match y with
  | Int d => Float.int_truediv n d
  | Flt f => nf <~ Float.of_int n; Float.truediv nf f
  end.

(** [next(f[field] for f in filters if f['filterType'] == kind)] *)
Fixpoint next_filter (kind field : string) (filters : list pyval) : result pyval :=
  match filters with
  | [] => Raise StopIteration
  | f :: rest =>
      t <~ getitem f "filterType";
      if eq_str t kind then getitem f field else next_filter kind field rest
  end.

(** [float(next(f[field] for f in s['filters'] if f['filterType'] == kind))] *)
Definition filter_value (s : pyval) (kind field : string) : result float :=
  filters <~ getitem s "filters";
  items <~ py_iter filters;
  v <~ next_filter kind field items;
  Float.of_pyval v.

(** [next((p for p in positions if p['symbol'] == symbol
           and float(p['positionAmt']) != 0), None)] *)
Fixpoint next_position (symbol : string) (positions : list pyval) : result pyval :=
  match positions with
  | [] => Ok PNone
  | p :: rest =>
      name <~ getitem p "symbol";
      if eq_str name symbol then
        amt <~ getitem p "positionAmt";
        f <~ Float.of_pyval amt;
        if negb (PrimFloat.eqb f 0) then Ok p else next_position symbol rest
      else next_position symbol rest
  end.

Definition opposite (sd : side) : side :=
  match sd with
  | BUY => SELL
  | SELL => BUY
  end.

(** [data.get("secret") == WEBHOOK_SECRET] *)
Definition authorized (secret : string) (items : list (string * pyval)) : bool :=
  eq_str (default PNone (dict_get "secret" items)) secret.

(** [0.1 <= tsl_percent <= 5] *)
Definition tsl_in_range (tsl_percent : float) : bool :=
  (0x1.999999999999ap-4 <=? tsl_percent)%float && (tsl_percent <=? 5)%float.

Section Server.

Variable client : binance_client.
Variable WEBHOOK_SECRET : string.

(** A method call on [client]: the call is recorded, the client answers. *)
Definition invoke (c : call) : M pyval :=
  fun s =>
    (client (calls s) c,
     {| calls := calls s ++ [c];
        symbol_info_cache := symbol_info_cache s;
        log := log s |}).

(** The loop of [get_symbol_info] over [exchange_info['symbols']]. *)
Fixpoint find_symbol (symbol : string) (symbols : list pyval) : M unit :=
  match symbols with
  | [] => ret tt
  | s :: rest =>
      name <- lift (getitem s "symbol");;
      if eq_str name symbol then
        tick <- lift (filter_value s "PRICE_FILTER" "tickSize");;
        step <- lift (filter_value s "LOT_SIZE" "stepSize");;
        minq <- lift (filter_value s "LOT_SIZE" "minQty");;
        cache_store symbol {| tickSize := tick; stepSize := step; minQty := minq |}
      else find_symbol symbol rest
  end.

(** [None] is Python's [None]; a symbol that the instrument list does not
    have falls through to [symbol_info_cache[symbol]]. *)
Definition get_symbol_info (symbol : string) : M (option symbol_info) :=
  cached <- cache_has symbol;;
  fetched <-
    (if cached then ret (Ok tt)
     else attempt (
       logging INFO (FetchingFilters symbol);;
       exchange_info <- invoke futures_exchange_info;;
       symbols <- lift (v <~ getitem exchange_info "symbols"; py_iter v);;
       find_symbol symbol symbols));;
  match fetched with
  | Raise (BinanceAPIException code msg) =>
      logging ERROR (FiltersError symbol (BinanceAPIException code msg));;
      ret None
  | Raise e => raise e
  | Ok _ =>
      info <- cache_read symbol;;
      ret (Some info)
  end.

Definition adjust_quantity (quantity step_size min_qty : float) : M float :=
  precision <- lift (Float.neg_log10_round step_size);;
  formatted_quantity <- lift (
    scaled <~ float_mul quantity (pow10 precision);
    n <~ Float.floor scaled;
    int_div n (pow10 precision));;
  if (formatted_quantity <? min_qty)%float then
    logging ERROR (QuantityBelowMinimum formatted_quantity min_qty);;
    ret 0%float
  else ret formatted_quantity.

(** The [except] clauses of [close_position_for_symbol] (lines 84 to 92). *)
Definition close_handlers (symbol : string) (outcome : result (bool * close_detail))
  : M (bool * close_detail) :=
  match outcome with
  | Ok returned => ret returned
  | Raise (BinanceAPIException code msg) =>
      let e := BinanceAPIException code msg in
      if code =? -2022 then
        logging WARNING (CloseLikelyAlreadyClosed symbol e);;
        ret (true, LikelyAlreadyClosed)
      else
        logging ERROR (CloseApiError symbol e);;
        ret (false, ErrorText e)
  | Raise e =>
      logging ERROR (CloseUnexpectedError symbol e);;
      ret (false, ErrorText e)
  end.

Definition close_position_for_symbol (symbol : string) : M (bool * close_detail) :=
  outcome <- attempt (
    positions <- invoke (futures_position_information symbol);;
    position <- lift (items <~ py_iter positions; next_position symbol items);;
    if negb (truthy position) then
      logging INFO (NoOpenPosition symbol);;
      ret (true, NoPositionToClose)
    else
      position_amount <- lift (amt <~ getitem position "positionAmt"; Float.of_pyval amt);;
      let side_to_close := if (0 <? position_amount)%float then SELL else BUY in
      let quantity_to_close := abs position_amount in
      invoke (futures_cancel_all_open_orders symbol);;
      logging INFO (CancelledOpenOrders symbol);;
      logging INFO (ClosingPosition symbol side_to_close quantity_to_close);;
      close_order <- invoke (futures_create_order symbol side_to_close MARKET
                               quantity_to_close None None);;
      logged_id <- lift (getitem close_order "orderId");;
      logging INFO (PositionClosed symbol logged_id);;
      orderId <- lift (getitem close_order "orderId");;
      ret (true, ClosedBy orderId));;
  close_handlers symbol outcome.

Definition respond (b : body) (code : Z) : M response :=
  ret {| payload := b; status_code := code |}.

(** Lines 126 and 127: the symbol and the action, in upper case. *)
Definition required_fields (data : pyval) : result (string * string) :=
  symbol <~ (v <~ getitem data "symbol"; py_upper v);
  action <~ (v <~ getitem data "side"; py_upper v);
  Ok (symbol, action).

(** Line 147: [int(float(data['lev']))]. *)
Definition leverage_of (items : list (string * pyval)) : result Z :=
  v <~ getitem (PDict items) "lev"; f <~ Float.of_pyval v; Float.to_int f.

(** Line 148: [float(data['usdt'])]. *)
Definition usdt_amount_of (items : list (string * pyval)) : result float :=
  v <~ getitem (PDict items) "usdt"; Float.of_pyval v.

(** Lines 147 to 149: [leverage], [usdt_amount] and [tsl_percent]. *)
Definition open_fields (items : list (string * pyval)) : result (Z * float * float) :=
  leverage <~ leverage_of items;
  usdt_amount <~ usdt_amount_of items;
  tsl_percent <~ Float.of_pyval (default (PInt 0) (dict_get "tsl" items));
  Ok (leverage, usdt_amount, tsl_percent).

(** Lines 146 to 163 of the [try] of a directional request: the side, the
    quantity and the trailing-stop percent of the order to submit, or the
    response returned at line 163 for a quantity that is too small. *)
Definition prepare_order (items : list (string * pyval)) (symbol action : string)
  : M (response + side * float * float) :=
  let sd := if in_list action ["LONG"; "BUY"]%string then BUY else SELL in
  fields <- lift (open_fields items);;
  let '(leverage, usdt_amount, tsl_percent) := fields in
  found <- get_symbol_info symbol;;
  match found with
  | None => raise (ValueError (NoSymbolInfo symbol))
  | Some info =>
      invoke (futures_change_leverage symbol leverage);;
      mark <- invoke (futures_mark_price symbol);;
      mark_price <- lift (v <~ getitem mark "markPrice"; Float.of_pyval v);;
      quantity_unformatted <- lift (
        lev <~ Float.of_int leverage;
        Float.truediv (usdt_amount * lev)%float mark_price);;
      quantity <- adjust_quantity quantity_unformatted (stepSize info) (minQty info);;
      if (quantity <=? 0)%float then
        logging ERROR (QuantityTooSmallLogged quantity_unformatted);;
        r <- respond (Error (QuantityTooSmall quantity_unformatted)) 400;;
        ret (inl r)
      else ret (inr (sd, quantity, tsl_percent))
  end.

(** The entry order and the trailing-stop order of lines 166 and 171. *)
Definition entry_order (symbol : string) (sd : side) (quantity : float) : call :=
  futures_create_order symbol sd MARKET quantity None None.

Definition trailing_stop_order (symbol : string) (sd : side)
    (quantity tsl_percent : float) : call :=
  futures_create_order symbol (opposite sd) TRAILING_STOP_MARKET quantity
    (Some tsl_percent) (Some "MARK_PRICE"%string).

(** Lines 165 to 177: the entry order, the trailing stop, the answer. *)
Definition submit_order (symbol : string) (sd : side) (quantity tsl_percent : float)
  : M response :=
  logging INFO (OpeningOrder sd quantity symbol);;
  order <- invoke (entry_order symbol sd quantity);;
  logged_id <- lift (getitem order "orderId");;
  logging INFO (MarketOrderSent logged_id);;
  (if tsl_in_range tsl_percent then
     tsl_order <- invoke (trailing_stop_order symbol sd quantity tsl_percent);;
     tsl_id <- lift (getitem tsl_order "orderId");;
     logging INFO (TrailingStopPlaced tsl_percent tsl_id)
   else ret tt);;
  orderId <- lift (getitem order "orderId");;
  respond (OperationCompleted orderId) 200.

(** The body of the [try] of a directional request (lines 146 to 177). *)
Definition open_position (items : list (string * pyval)) (symbol action : string)
  : M response :=
  prepared <- prepare_order items symbol action;;
  match prepared with
  | inl r => ret r
  | inr (sd, quantity, tsl_percent) => submit_order symbol sd quantity tsl_percent
  end.

(** The [except] clauses of that [try] (lines 179 to 186). *)
Definition open_handlers (opened : result response) : M response :=
  match opened with
  | Ok r => ret r
  | Raise (KeyError k) =>
      respond (Error (InvalidOpenData (KeyError k))) 400
  | Raise (ValueError why) =>
      respond (Error (InvalidOpenData (ValueError why))) 400
  | Raise (BinanceAPIException code msg) =>
      logging ERROR (OpenApiError (BinanceAPIException code msg));;
      respond (Error (ExceptionText (BinanceAPIException code msg))) 500
  | Raise e =>
      logging ERROR (OpenUnexpectedError e);;
      respond (Error (ExceptionText e)) 500
  end.

(** A directional request, once read (lines 140 to 186). *)
Definition directional_branch (items : list (string * pyval)) (symbol action : string)
  : M response :=
  closed <- close_position_for_symbol symbol;;
  let '(close_success, _) := closed in
  if negb close_success then
    logging ERROR (CloseBeforeOpenFailed symbol);;
    respond (Error CouldNotCloseBeforeOpen) 500
  else
    opened <- attempt (open_position items symbol action);;
    open_handlers opened.

(** [webhook()], on the value [request.get_json(force=True, silent=True)]
    returned ([PNone] for a body that is not JSON).  An exception that
    leaves the handler ([Raise]) is answered by Flask with a status 500. *)
Definition webhook (data : pyval) : M response :=
  match data with
  | PDict items =>
      logging INFO (WebhookReceived data);;
      if negb (authorized WEBHOOK_SECRET items) then
        logging WARNING UnauthorizedAccess;;
        respond (Error Unauthorized) 401
      else
        fields <- attempt (lift (required_fields data));;
        match fields with
        | Raise (KeyError k) => respond (Error (MissingRequired (KeyError k))) 400
        | Raise e => raise e
        | Ok (symbol, action) =>
            if String.eqb action "CLOSE" then
              closed <- close_position_for_symbol symbol;;
              let '(success, detail) := closed in
              if success : bool then respond (CloseProcessed symbol detail) 200
              else respond (Error (CloseDetail detail)) 500
            else if in_list action ["LONG"; "BUY"; "SHORT"; "SELL"]%string then
              directional_branch items symbol action
            else respond (Error (UnknownAction action)) 400
        end
  | _ => respond (Error MalformedJson) 400
  end.

End Server.

(** ** Requests *)

Definition directions : list string := ["LONG"; "BUY"; "SHORT"; "SELL"]%string.

(** A directional request: an authorized JSON object whose symbol is
    [symbol] and whose side is one of LONG, BUY, SHORT and SELL, both in
    upper case. *)
Definition directional (secret : string) (items : list (string * pyval))
    (symbol action : string) : Prop :=
  authorized secret items = true /\
  required_fields (PDict items) = Ok (symbol, action) /\
  in_list action directions = true.

(** The state in which the handler dispatches: the request has been logged. *)
Definition received (items : list (string * pyval)) (s : state) : state :=
  snd (logging INFO (WebhookReceived (PDict items)) s).

(** A field of the request that is missing, or a string that is not a
    number, with the exception that reading it as a number raises. *)
Definition unusable (items : list (string * pyval)) (field : string) (e : exn) : Prop :=
  (dict_get field items = None /\ e = KeyError field) \/
  (exists text,
     dict_get field items = Some (PStr text) /\
     Float.of_string text = Raise e /\
     e = ValueError (CouldNotConvertToFloat text)).

(** An entry of the instrument list that is about another symbol. *)
Definition other_symbol (symbol : string) (entry : pyval) : Prop :=
  exists name, getitem entry "symbol" = Ok name /\ eq_str name symbol = false.

Definition is_order (c : call) : bool :=
  match c with
  | futures_create_order _ _ _ _ _ _ => true
  | _ => false
  end.

(** [issues P m]: running [m] only appends calls, each satisfying [P]. *)
Definition issues {A} (P : call -> Prop) (m : M A) : Prop :=
  forall s, exists new, calls (snd (m s)) = calls s ++ new /\ Forall P new.

(** [keeps_cache m]: running [m] leaves the cache of filters as it is. *)
Definition keeps_cache {A} (m : M A) : Prop :=
  forall s, symbol_info_cache (snd (m s)) = symbol_info_cache s.

(** [about symbol c]: the call [c] names no symbol other than [symbol]. *)
Definition about (symbol : string) (c : call) : Prop :=
  match c with
  | futures_exchange_info => True
  | futures_position_information s => s = symbol
  | futures_cancel_all_open_orders s => s = symbol
  | futures_change_leverage s _ => s = symbol
  | futures_mark_price s => s = symbol
  | futures_create_order s _ _ _ _ _ => s = symbol
  end.

(** [answers Q m]: what [m] returns, when it returns, satisfies [Q]. *)
Definition answers {A} (Q : A -> Prop) (m : M A) : Prop :=
  forall s a, fst (m s) = Ok a -> Q a.

(** [keeps_entries m]: running [m] keeps every entry of the cache. *)
Definition keeps_entries {A} (m : M A) : Prop :=
  forall s k info,
    symbol_info_cache s !! k = Some info ->
    symbol_info_cache (snd (m s)) !! k = Some info.

(** [touches symbol m]: running [m] leaves the cache as it is for every
    symbol but [symbol]. *)
Definition touches {A} (symbol : string) (m : M A) : Prop :=
  forall s k, k <> symbol -> symbol_info_cache (snd (m s)) !! k = symbol_info_cache s !! k.

(** A response whose status goes with its body, and whose body goes with
    what it reports: 200 for the two bodies of a success, and for an error
    the status that the source pairs with the message. *)
Definition accounted (r : response) : Prop :=
  match payload r with
  | Error MalformedJson => status_code r = 400
  | Error Unauthorized => status_code r = 401
  | Error (MissingRequired e) => status_code r = 400 /\ exists k, e = KeyError k
  | Error (CloseDetail d) => status_code r = 500 /\ exists e, d = ErrorText e
  | Error CouldNotCloseBeforeOpen => status_code r = 500
  | Error (InvalidOpenData e) =>
      status_code r = 400 /\ ((exists k, e = KeyError k) \/ (exists why, e = ValueError why))
  | Error (QuantityTooSmall _) => status_code r = 400
  | Error (ExceptionText e) =>
      status_code r = 500 /\ (forall k, e <> KeyError k) /\ (forall why, e <> ValueError why)
  | Error (UnknownAction action) =>
      status_code r = 400 /\ action <> "CLOSE"%string /\ in_list action directions = false
  | CloseProcessed _ d => status_code r = 200 /\ forall e, d <> ErrorText e
  | OperationCompleted _ => status_code r = 200
  end.

(** The verdict of the close step goes with its detail: a failure carries
    the text of an exception, a success never does. *)
Definition verdict (closed : bool * close_detail) : Prop :=
  match closed with
  | (true, ErrorText _) => False
  | (true, _) => True
  | (false, ErrorText _) => True
  | (false, _) => False
  end.

(** A filter of the instrument list that is of another type than [kind]. *)
Definition other_filter (kind : string) (f : pyval) : Prop :=
  exists t, getitem f "filterType" = Ok t /\ eq_str t kind = false.

(** The orders that a request with the fields [items] may send: a market
    order carries neither a callback rate nor a working type; a
    trailing-stop order carries the request's [tsl] as callback rate, which
    lies in [0.1, 5], and works on the mark price. *)
Definition permitted (items : list (string * pyval)) (c : call) : Prop :=
  match c with
  | futures_create_order _ _ MARKET _ rate working => rate = None /\ working = None
  | futures_create_order _ _ TRAILING_STOP_MARKET _ rate working =>
      exists tsl,
        Float.of_pyval (default (PInt 0) (dict_get "tsl" items)) = Ok tsl /\
        tsl_in_range tsl = true /\
        rate = Some tsl /\ working = Some "MARK_PRICE"%string
  | _ => True
  end.

Definition is_trailing_stop (c : call) : bool :=
  match c with
  | futures_create_order _ _ TRAILING_STOP_MARKET _ _ _ => true
  | _ => false
  end.

(** The calls of the opening of a position, in the order of the source:
    the instrument list when the symbol is not cached, the leverage, the
    mark price, the entry order, the trailing stop. *)
Definition opening_script (cached : bool) (symbol : string) (leverage : Z) (sd : side)
    (quantity tsl_percent : float) : list call :=
  (if cached then [] else [futures_exchange_info])
  ++ [futures_change_leverage symbol leverage; futures_mark_price symbol;
      entry_order symbol sd quantity;
      trailing_stop_order symbol sd quantity tsl_percent].

(** [logs m]: running [m] only appends to the log. *)
Definition logs {A} (m : M A) : Prop :=
  forall s, exists new, log (snd (m s)) = log s ++ new.

(** ** A scripted exchange, for running the handler on examples *)

Module Example.

#[local] Open Scope string_scope.

Record scenario := {
  positions : result pyval;      (* the answer to the position query *)
  cancellation : result pyval;   (* the answer to the cancellation of open orders *)
  instruments : result pyval;    (* the answer to the instrument list *)
  mark_price : string;           (* the mark price *)
  trailing_stop : result pyval   (* the answer to a trailing-stop order *)
}.

(** A market order is answered with an order whose id is the number of
    calls made before it. *)
Definition exchange (sc : scenario) : binance_client :=
  fun history c =>
    match c with
    | futures_exchange_info => instruments sc
    | futures_position_information _ => positions sc
    | futures_cancel_all_open_orders _ => cancellation sc
    | futures_change_leverage _ leverage => Ok (PDict [("leverage", PInt leverage)])
    | futures_mark_price _ => Ok (PDict [("markPrice", PStr (mark_price sc))])
    | futures_create_order _ _ MARKET _ _ _ =>
        Ok (PDict [("orderId", PInt (Z.of_nat (List.length history)))])
    | futures_create_order _ _ TRAILING_STOP_MARKET _ _ _ => trailing_stop sc
    end.

Definition position (amount : string) : pyval :=
  PList [PDict [("symbol", PStr "BTCUSDT"); ("positionAmt", PStr amount)]].

Definition lot (step min : string) : pyval :=
  PDict [("symbols", PList [
    PDict [("symbol", PStr "ETHUSDT"); ("filters", PList [])];
    PDict [("symbol", PStr "BTCUSDT"); ("filters", PList [
      PDict [("filterType", PStr "PRICE_FILTER"); ("tickSize", PStr "0.10")];
      PDict [("filterType", PStr "LOT_SIZE"); ("stepSize", PStr step);
             ("minQty", PStr min)]])]])].

Definition rejected (code : Z) : result pyval :=
  Raise (BinanceAPIException code "rejected").

(** No position, every call answered. *)
Definition flat : scenario :=
  {| positions := Ok (position "0");
     cancellation := Ok (PDict []);
     instruments := Ok (lot "0.001" "0.001");
     mark_price := "50000";
     trailing_stop := Ok (PDict [("orderId", PInt 77)]) |}.

(** A long position of 1.5, every call answered. *)
Definition long : scenario :=
  {| positions := Ok (position "1.5");
     cancellation := Ok (PDict []);
     instruments := Ok (lot "0.001" "0.001");
     mark_price := "50000";
     trailing_stop := Ok (PDict [("orderId", PInt 77)]) |}.

(** A short position of 2.0, every call answered. *)
Definition short : scenario :=
  {| positions := Ok (position "-2.0");
     cancellation := Ok (PDict []);
     instruments := Ok (lot "0.001" "0.001");
     mark_price := "50000";
     trailing_stop := Ok (PDict [("orderId", PInt 77)]) |}.

(** The position query fails. *)
Definition unreachable : scenario :=
  {| positions := Raise (OtherException "ConnectionError");
     cancellation := Ok (PDict []);
     instruments := Ok (lot "0.001" "0.001");
     mark_price := "50000";
     trailing_stop := Ok (PDict [("orderId", PInt 77)]) |}.

(** A long position of 1.5; the cancellation of open orders is rejected. *)
Definition cancel_rejected : scenario :=
  {| positions := Ok (position "1.5");
     cancellation := rejected (-1000);
     instruments := Ok (lot "0.001" "0.001");
     mark_price := "50000";
     trailing_stop := Ok (PDict [("orderId", PInt 77)]) |}.

(** No position; trailing-stop orders are rejected. *)
Definition stop_rejected : scenario :=
  {| positions := Ok (position "0");
     cancellation := Ok (PDict []);
     instruments := Ok (lot "0.001" "0.001");
     mark_price := "50000";
     trailing_stop := rejected (-2021) |}.

(** No position; the instrument list is refused. *)
Definition no_instruments : scenario :=
  {| positions := Ok (position "0");
     cancellation := Ok (PDict []);
     instruments := rejected (-1003);
     mark_price := "50000";
     trailing_stop := Ok (PDict [("orderId", PInt 77)]) |}.

(** No position; a lot step and a minimum of 0.01, a mark price of 1.5. *)
Definition coarse : scenario :=
  {| positions := Ok (position "0");
     cancellation := Ok (PDict []);
     instruments := Ok (lot "0.01" "0.01");
     mark_price := "1.5";
     trailing_stop := Ok (PDict [("orderId", PInt 77)]) |}.

Definition secret : string := "s3cret".

Definition signal (side : string) (fields : list (string * pyval))
  : list (string * pyval) :=
  ([("secret", PStr secret); ("symbol", PStr "btcusdt"); ("side", PStr side)]
   ++ fields)%list.

(** LONG with 100 USDT at leverage 10 and a trailing stop of 1.5 percent. *)
Definition long_signal : list (string * pyval) :=
  signal "long" [("lev", PInt 10); ("usdt", PStr "100"); ("tsl", PFloat 1.5)].

(** The same with a trailing stop of 0.05 percent. *)
Definition long_signal_narrow_stop : list (string * pyval) :=
  signal "long" [("lev", PInt 10); ("usdt", PStr "100");
                 ("tsl", PFloat 0x1.999999999999ap-5)].

Definition long_signal_without_lev : list (string * pyval) :=
  signal "long" [("usdt", PStr "100")].

Definition long_signal_null_lev : list (string * pyval) :=
  signal "long" [("lev", PNone); ("usdt", PStr "100")].

Definition long_signal_zero_lev : list (string * pyval) :=
  signal "long" [("lev", PInt 0); ("usdt", PStr "100")].

Definition long_signal_text_tsl : list (string * pyval) :=
  signal "long" [("lev", PInt 10); ("usdt", PStr "100"); ("tsl", PStr "tight")].

Definition long_signal_null_tsl : list (string * pyval) :=
  signal "long" [("lev", PInt 10); ("usdt", PStr "100"); ("tsl", PNone)].

(** LONG with 1.2 USDT at leverage 1, without trailing stop. *)
Definition small_long_signal : list (string * pyval) :=
  signal "long" [("lev", PInt 1); ("usdt", PFloat 0x1.3333333333333p+0)].

(** A request for a symbol that the instrument list does not have. *)
Definition unlisted_signal : list (string * pyval) :=
  [("secret", PStr secret); ("symbol", PStr "xrpusdt"); ("side", PStr "sell");
   ("lev", PInt 1); ("usdt", PInt 100)].

(** A process that has served no request yet. *)
Definition fresh : state :=
  {| calls := []; symbol_info_cache := ∅; log := [] |}.

(** The state after the close step of a request for BTCUSDT, and what
    [prepare_order] then returns. *)
Definition after_close (sc : scenario) (items : list (string * pyval)) : state :=
  snd (close_position_for_symbol (exchange sc) "BTCUSDT" (received items fresh)).

Definition prepared (sc : scenario) (items : list (string * pyval)) (action : string)
  : result (response + side * float * float) * state :=
  prepare_order (exchange sc) items "BTCUSDT" action (after_close sc items).

Definition run (sc : scenario) (items : list (string * pyval)) : result response * state :=
  webhook (exchange sc) secret (PDict items) fresh.


(** *** More requests and answers *)

Definition price_filter : pyval :=
  PDict [("filterType", PStr "PRICE_FILTER"); ("tickSize", PStr "0.10")].

Definition lot_size : pyval :=
  PDict [("filterType", PStr "LOT_SIZE"); ("stepSize", PStr "0.001");
         ("minQty", PStr "0.001")].

Definition eth_entry : pyval :=
  PDict [("symbol", PStr "ETHUSDT"); ("filters", PList [])].

(** The entry of BTCUSDT in [lot "0.001" "0.001"]. *)
Definition btc_entry : pyval :=
  PDict [("symbol", PStr "BTCUSDT"); ("filters", PList [price_filter; lot_size])].

(** An entry of BTCUSDT that has a price filter only. *)
Definition btc_entry_without_lot : pyval :=
  PDict [("symbol", PStr "BTCUSDT"); ("filters", PList [price_filter])].

(** No position; the entry of BTCUSDT has no LOT_SIZE filter. *)
Definition no_lot_size : scenario :=
  {| positions := Ok (position "0");
     cancellation := Ok (PDict []);
     instruments := Ok (PDict [("symbols", PList [eth_entry; btc_entry_without_lot])]);
     mark_price := "50000";
     trailing_stop := Ok (PDict [("orderId", PInt 77)]) |}.

(** No position; the mark price is zero. *)
Definition zero_price : scenario :=
  {| positions := Ok (position "0");
     cancellation := Ok (PDict []);
     instruments := Ok (lot "0.001" "0.001");
     mark_price := "0";
     trailing_stop := Ok (PDict [("orderId", PInt 77)]) |}.

(** A long position of 1.5; every market order is refused with [code]. *)
Definition refusing (code : Z) : binance_client :=
  fun history c =>
    match c with
    | futures_create_order _ _ MARKET _ _ _ => rejected code
    | _ => exchange long history c
    end.

Definition close_signal : list (string * pyval) := signal "close" [].

(** A request whose symbol is a number. *)
Definition numeric_symbol_signal : list (string * pyval) :=
  [("secret", PStr secret); ("symbol", PInt 5); ("side", PStr "long")].

(** The filters of BTCUSDT in [lot "0.001" "0.001"]: 0.1, 0.001 and 0.001. *)
Definition btc_filters : symbol_info :=
  {| tickSize := 0x1.999999999999ap-4;
     stepSize := 0x1.0624dd2f1a9fcp-10;
     minQty := 0x1.0624dd2f1a9fcp-10 |}.

(** A process that has served [long_signal]: BTCUSDT is cached. *)
Definition warm : state := snd (run flat long_signal).

End Example.

(** ** Python's numbers on examples *)

(** [float("0.1")], [float(" -1_0.5e-3 ")], [float("1e400")], [float("abc")]. *)
Example float_of_text :
  Float.of_string "0.1" = Ok 0x1.999999999999ap-4%float /\
  Float.of_string " -1_0.5e-3 " = Ok (-0x1.5810624dd2f1bp-7)%float /\
  Float.of_string "1e400" = Ok infinity /\
  Float.of_string "abc" = Raise (ValueError (CouldNotConvertToFloat "abc")).
Proof. vm_compute. repeat split. Qed.

(** [float(10**23)] is rounded; [math.floor(-0.5)] is -1 and [int(-0.5)]
    is 0; [-1/3] and [20/1000] are correctly rounded. *)
Example numbers_of_python :
  Float.of_int (10 ^ 23) = Ok 0x1.52d02c7e14af6p+76%float /\
  Float.floor (-0.5) = Ok (-1) /\
  Float.to_int (-0.5) = Ok 0 /\
  Float.int_truediv (-1) 3 = Ok (-0x1.5555555555555p-2)%float /\
  Float.int_truediv 20 1000 = Ok 0x1.47ae147ae147bp-6%float.
Proof. vm_compute. repeat split. Qed.

(** [int(round(-math.log(step, 10), 0))] for the steps 0.001, 0.01, 0.1, 1,
    0.5 and 10. *)
Example precisions :
  List.map Float.neg_log10_round
    [0x1.0624dd2f1a9fcp-10; 0x1.47ae147ae147bp-7; 0x1.999999999999ap-4; 1; 0.5; 10]%float
  = [Ok 3; Ok 2; Ok 1; Ok 0; Ok 0; Ok (-1)].
Proof. vm_compute. reflexivity. Qed.

(** [adjust_quantity(0.02, 0.001, 0.001)] is 0.02, [adjust_quantity(0.0209,
    0.001, 0.001)] is 0.02, and [adjust_quantity(0.0009, 0.001, 0.001)] is
    0.0. *)
Example adjust_quantity_examples :
  fst (adjust_quantity 0x1.47ae147ae147bp-6 0x1.0624dd2f1a9fcp-10 0x1.0624dd2f1a9fcp-10
         {| calls := []; symbol_info_cache := ∅; log := [] |})
  = Ok 0x1.47ae147ae147bp-6%float /\
  fst (adjust_quantity 0x1.566cf41f212d7p-6 0x1.0624dd2f1a9fcp-10 0x1.0624dd2f1a9fcp-10
         {| calls := []; symbol_info_cache := ∅; log := [] |})
  = Ok 0x1.47ae147ae147bp-6%float /\
  fst (adjust_quantity 0x1.d7dbf487fcb92p-11 0x1.0624dd2f1a9fcp-10 0x1.0624dd2f1a9fcp-10
         {| calls := []; symbol_info_cache := ∅; log := [] |})
  = Ok 0%float.
Proof. vm_compute. repeat split. Qed.

(** ** How computations run *)

Lemma bind_ok {A B} (m : M A) (k : A -> M B) s a s' :
  m s = (Ok a, s') -> bind m k s = k a s'.
Proof. intros H. unfold bind. now rewrite H. Qed.

Lemma bind_raise {A B} (m : M A) (k : A -> M B) s e s' :
  m s = (Raise e, s') -> bind m k s = (Raise e, s').
Proof. intros H. unfold bind. now rewrite H. Qed.

Lemma attempt_run {A} (m : M A) s :
  attempt m s = (Ok (fst (m s)), snd (m s)).
Proof. unfold attempt. now destruct (m s). Qed.

Lemma bind_attempt {A B} (m : M A) (k : result A -> M B) s :
  bind (attempt m) k s = k (fst (m s)) (snd (m s)).
Proof. unfold bind. now rewrite attempt_run. Qed.

Section Issues.

Variable P : call -> Prop.

Lemma issues_ret {A} (a : A) : issues P (ret a).
Proof. intros s. exists []. simpl. now rewrite app_nil_r. Qed.

Lemma issues_raise {A} e : issues P (@raise A e).
Proof. intros s. exists []. simpl. now rewrite app_nil_r. Qed.

Lemma issues_lift {A} (r : result A) : issues P (lift r).
Proof. intros s. exists []. simpl. now rewrite app_nil_r. Qed.

Lemma issues_logging l msg : issues P (logging l msg).
Proof. intros s. exists []. simpl. now rewrite app_nil_r. Qed.

Lemma issues_cache_has symbol : issues P (cache_has symbol).
Proof. intros s. exists []. simpl. now rewrite app_nil_r. Qed.

Lemma issues_cache_store symbol info : issues P (cache_store symbol info).
Proof. intros s. exists []. simpl. now rewrite app_nil_r. Qed.

Lemma issues_cache_read symbol : issues P (cache_read symbol).
Proof.
  intros s. exists []. unfold cache_read.
  destruct (symbol_info_cache s !! symbol); simpl; now rewrite app_nil_r.
Qed.

Lemma issues_invoke client c : P c -> issues P (invoke client c).
Proof. intros Hc s. exists [c]. simpl. split; [reflexivity | now constructor]. Qed.

Lemma issues_bind {A B} (m : M A) (k : A -> M B) :
  issues P m -> (forall a, issues P (k a)) -> issues P (bind m k).
Proof.
  intros Hm Hk s. unfold bind.
  destruct (Hm s) as (new1 & E1 & F1).
  destruct (m s) as [[a | e] s1]; simpl in E1.
  - destruct (Hk a s1) as (new2 & E2 & F2).
    exists (new1 ++ new2). split.
    + now rewrite E2, E1, app_assoc.
    + now apply Forall_app.
  - exists new1. now split.
Qed.

Lemma issues_attempt {A} (m : M A) : issues P m -> issues P (attempt m).
Proof.
  intros Hm s. rewrite attempt_run. simpl. apply Hm.
Qed.

End Issues.

Lemma issues_weaken {A} (P Q : call -> Prop) (m : M A) :
  (forall c, P c -> Q c) -> issues P m -> issues Q m.
Proof.
  intros HPQ Hm s. destruct (Hm s) as (new & E & F).
  exists new. split; [assumption |]. eapply Forall_impl; eauto.
Qed.

Ltac issues_step :=
  match goal with
  | |- issues _ (ret _) => apply issues_ret
  | |- issues _ (respond _ _) => apply issues_ret
  | |- issues _ (raise _) => apply issues_raise
  | |- issues _ (lift _) => apply issues_lift
  | |- issues _ (logging _ _) => apply issues_logging
  | |- issues _ (cache_has _) => apply issues_cache_has
  | |- issues _ (cache_store _ _) => apply issues_cache_store
  | |- issues _ (cache_read _) => apply issues_cache_read
  | |- issues _ (attempt _) => apply issues_attempt
  | |- issues _ (bind _ _) => apply issues_bind; [ | intros ? ]
  | |- issues _ (invoke _ _) => apply issues_invoke
  | |- issues _ (match ?x with _ => _ end) => destruct x
  | |- issues _ (let '(_, _) := ?x in _) => destruct x
  end.

Section Calls.

Variable client : binance_client.
Variable WEBHOOK_SECRET : string.

Lemma find_symbol_issues P symbol symbols : issues P (find_symbol symbol symbols).
Proof.
  induction symbols as [| entry rest IH]; simpl.
  - apply issues_ret.
  - repeat issues_step. exact IH.
Qed.

Lemma get_symbol_info_issues (P : call -> Prop) symbol :
  P futures_exchange_info -> issues P (get_symbol_info client symbol).
Proof.
  intros HP. unfold get_symbol_info.
  repeat first [ apply find_symbol_issues | exact HP | issues_step ].
Qed.

Lemma adjust_quantity_issues P quantity step_size min_qty :
  issues P (adjust_quantity quantity step_size min_qty).
Proof. unfold adjust_quantity. repeat issues_step. Qed.

Lemma close_position_issues symbol :
  issues (fun _ => True) (close_position_for_symbol client symbol).
Proof.
  unfold close_position_for_symbol, close_handlers.
  repeat first [ exact I | issues_step ].
Qed.

Lemma prepare_order_issues items symbol action :
  issues (fun c => is_order c = false) (prepare_order client items symbol action).
Proof.
  unfold prepare_order.
  repeat first
    [ apply get_symbol_info_issues | apply adjust_quantity_issues
    | reflexivity | issues_step ].
Qed.

Lemma submit_order_issues symbol sd quantity tsl_percent :
  issues (fun _ => True) (submit_order client symbol sd quantity tsl_percent).
Proof. unfold submit_order. repeat first [ exact I | issues_step ]. Qed.

Lemma open_position_issues items symbol action :
  issues (fun _ => True) (open_position client items symbol action).
Proof.
  unfold open_position. apply issues_bind.
  - eapply issues_weaken; [ | apply prepare_order_issues ]. trivial.
  - intros [r | [[sd quantity] tsl]]; [ apply issues_ret | apply submit_order_issues ].
Qed.

Lemma open_handlers_issues P opened : issues P (open_handlers opened).
Proof. unfold open_handlers. repeat issues_step. Qed.

(** The close step always returns; it never raises. *)
Lemma close_position_returns symbol s :
  exists closed, fst (close_position_for_symbol client symbol s) = Ok closed.
Proof.
  unfold close_position_for_symbol, close_handlers. rewrite bind_attempt. cbv beta.
  destruct (bind _ _ s) as [[returned | e] s1]; simpl.
  - eauto.
  - destruct e as [ | | | | | | | code msg | ]; simpl; eauto.
    destruct (code =? -2022); simpl; eauto.
Qed.

(** A [try] that starts with a call issues that call first. *)
Lemma first_call {A B} c (k : pyval -> M A) (h : result A -> M B) s :
  (forall v, issues (fun _ => True) (k v)) ->
  (forall r, issues (fun _ => True) (h r)) ->
  exists more,
    calls (snd (bind (attempt (bind (invoke client c) k)) h s)) = calls s ++ c :: more.
Proof.
  intros Hk Hh. rewrite bind_attempt. unfold bind, invoke.
  destruct (client (calls s) c) as [v | e].
  - match goal with |- context [k v ?s1] => set (s' := s1) end.
    destruct (Hk v s') as (new1 & E1 & _).
    destruct (Hh (fst (k v s')) (snd (k v s'))) as (new2 & E2 & _).
    exists (new1 ++ new2). rewrite E2, E1. subst s'. simpl.
    now rewrite <- !app_assoc.
  - simpl.
    match goal with |- context [h _ ?s1] => set (s' := s1) end.
    destruct (Hh (Raise e) s') as (new & E & _).
    exists new. rewrite E. subst s'. simpl. now rewrite <- app_assoc.
Qed.

(** The first call of the close step is the position query. *)
Lemma close_position_first_call symbol s :
  exists more,
    calls (snd (close_position_for_symbol client symbol s))
    = calls s ++ futures_position_information symbol :: more.
Proof.
  unfold close_position_for_symbol. apply first_call.
  - intros v. repeat first [ exact I | issues_step ].
  - intros r. unfold close_handlers. repeat first [ exact I | issues_step ].
Qed.

End Calls.

Lemma directions_not_close action :
  in_list action directions = true -> String.eqb action "CLOSE" = false.
Proof.
  unfold in_list, directions. simpl. intros H.
  repeat (apply orb_prop in H; destruct H as [H | H]);
    try discriminate H; apply String.eqb_eq in H; now subst action.
Qed.

Section Dispatch.

Variable client : binance_client.
Variable WEBHOOK_SECRET : string.

Lemma webhook_directional items symbol action s :
  directional WEBHOOK_SECRET items symbol action ->
  webhook client WEBHOOK_SECRET (PDict items) s
  = directional_branch client items symbol action (received items s).
Proof.
  intros (Hauth & Hfields & Hdir).
  unfold webhook. erewrite bind_ok by reflexivity.
  cbv beta. rewrite Hauth. change (negb true) with false. cbv iota.
  rewrite bind_attempt. unfold lift. cbn [fst snd].
  rewrite Hfields. cbv iota beta.
  rewrite (directions_not_close _ Hdir). fold directions. rewrite Hdir.
  reflexivity.
Qed.

Lemma directional_close_failed items symbol action s0 detail s1 :
  close_position_for_symbol client symbol s0 = (Ok (false, detail), s1) ->
  directional_branch client items symbol action s0
  = (Ok {| payload := Error CouldNotCloseBeforeOpen; status_code := 500 |},
     snd (logging ERROR (CloseBeforeOpenFailed symbol) s1)).
Proof.
  intros H. unfold directional_branch. rewrite (bind_ok _ _ _ _ _ H). reflexivity.
Qed.

Lemma directional_close_succeeded items symbol action s0 detail s1 :
  close_position_for_symbol client symbol s0 = (Ok (true, detail), s1) ->
  directional_branch client items symbol action s0
  = open_handlers (fst (open_position client items symbol action s1))
      (snd (open_position client items symbol action s1)).
Proof.
  intros H. unfold directional_branch. rewrite (bind_ok _ _ _ _ _ H).
  cbn [negb]. now rewrite bind_attempt.
Qed.

(** The answer to an opening that raised or returned leaves the calls as
    they are. *)
Lemma open_handlers_calls opened s :
  calls (snd (open_handlers opened s)) = calls s.
Proof.
  destruct (open_handlers_issues (fun _ => False) opened s) as (new & E & F).
  destruct new as [| c new]; [ now rewrite E, app_nil_r | now inversion F ].
Qed.

(** C1. For every directional request the handler runs the close step
    first: the position query is the first call of the request and every
    other call of the request follows the close step.  If the close step
    reports failure the answer is the status 500 and no call follows the
    close step: no leverage change, no mark price query, no order. *)
Theorem close_precedes_open items symbol action s :
  directional WEBHOOK_SECRET items symbol action ->
  exists closed s1 rest,
    close_position_for_symbol client symbol (received items s) = (Ok closed, s1) /\
    (exists more, calls s1 = calls s ++ futures_position_information symbol :: more) /\
    calls (snd (webhook client WEBHOOK_SECRET (PDict items) s)) = calls s1 ++ rest /\
    (fst closed = false ->
       rest = [] /\
       fst (webhook client WEBHOOK_SECRET (PDict items) s)
       = Ok {| payload := Error CouldNotCloseBeforeOpen; status_code := 500 |}).
Proof.
  intros Hdir. rewrite (webhook_directional _ _ _ _ Hdir).
  destruct (close_position_returns client symbol (received items s)) as [closed Hret].
  destruct (close_position_first_call client symbol (received items s)) as [more Hfirst].
  destruct (close_position_for_symbol client symbol (received items s))
    as [r s1] eqn:Hclose.
  simpl in Hret, Hfirst. subst r.
  destruct closed as [[|] detail].
  - rewrite (directional_close_succeeded _ _ _ _ _ _ Hclose).
    destruct (open_position_issues client items symbol action s1) as (rest & E & _).
    exists (true, detail), s1, rest. repeat split.
    + now exists more.
    + now rewrite open_handlers_calls.
    + discriminate.
    + discriminate.
  - rewrite (directional_close_failed _ _ _ _ _ _ Hclose).
    exists (false, detail), s1, []. repeat split.
    + now exists more.
    + simpl. now rewrite app_nil_r.
Qed.

End Dispatch.

Lemma bind_inv {A B} (m : M A) (k : A -> M B) s r s' :
  bind m k s = (r, s') ->
  (exists a s1, m s = (Ok a, s1) /\ k a s1 = (r, s')) \/
  (exists e, m s = (Raise e, s') /\ r = Raise e).
Proof.
  unfold bind. destruct (m s) as [[a | e] s1]; intros H.
  - left. eauto.
  - right. inversion H. eauto.
Qed.

Lemma lift_inv {A} (x : result A) s r s' :
  lift x s = (r, s') -> r = x /\ s' = s.
Proof. unfold lift. intros H. now inversion H. Qed.

Section Opening.

Variable client : binance_client.
Variable WEBHOOK_SECRET : string.

Lemma open_position_prepared items symbol action s1 sd quantity tsl s2 :
  prepare_order client items symbol action s1 = (Ok (inr (sd, quantity, tsl)), s2) ->
  open_position client items symbol action s1
  = submit_order client symbol sd quantity tsl s2.
Proof. intros H. unfold open_position. now rewrite (bind_ok _ _ _ _ _ H). Qed.

Lemma open_position_rejected items symbol action s1 r s2 :
  prepare_order client items symbol action s1 = (Ok (inl r), s2) ->
  open_position client items symbol action s1 = (Ok r, s2).
Proof. intros H. unfold open_position. now rewrite (bind_ok _ _ _ _ _ H). Qed.

Lemma open_position_raised items symbol action s1 e s2 :
  prepare_order client items symbol action s1 = (Raise e, s2) ->
  open_position client items symbol action s1 = (Raise e, s2).
Proof. intros H. unfold open_position. now rewrite (bind_raise _ _ _ _ _ H). Qed.

(** What [prepare_order] hands over for submission. *)
Lemma prepare_order_submits items symbol action s1 sd quantity tsl s2 :
  prepare_order client items symbol action s1 = (Ok (inr (sd, quantity, tsl)), s2) ->
  sd = (if in_list action ["LONG"; "BUY"]%string then BUY else SELL) /\
  (exists leverage usdt_amount, open_fields items = Ok (leverage, usdt_amount, tsl)) /\
  (quantity <=? 0)%float = false.
Proof.
  unfold prepare_order. intros H.
  apply bind_inv in H as [(fields & sa & Hf & H) | (e & _ & [=])].
  apply lift_inv in Hf as [Hf ->]. destruct fields as [[leverage usdt_amount] tsl'].
  apply bind_inv in H as [(found & sb & _ & H) | (e & _ & [=])].
  destruct found as [info |]; [ | discriminate H ].
  apply bind_inv in H as [(? & sc & _ & H) | (e & _ & [=])].
  apply bind_inv in H as [(mark & sd' & _ & H) | (e & _ & [=])].
  apply bind_inv in H as [(mark_price & se & _ & H) | (e & _ & [=])].
  apply bind_inv in H as [(unformatted & sf & _ & H) | (e & _ & [=])].
  apply bind_inv in H as [(q & sg & _ & H) | (e & _ & [=])].
  destruct (q <=? 0)%float eqn:Hq.
  - apply bind_inv in H as [(? & sh & _ & H) | (e & _ & [=])].
    apply bind_inv in H as [(? & si & _ & H) | (e & _ & [=])].
    discriminate H.
  - inversion H; subst. repeat split; eauto.
Qed.

(** The run of [submit_order] when the entry order is answered with an
    order that carries an [orderId] and no trailing stop is due. *)
Lemma submit_order_without_stop symbol sd quantity tsl s2 order oid :
  client (calls s2) (entry_order symbol sd quantity) = Ok order ->
  getitem order "orderId" = Ok oid ->
  tsl_in_range tsl = false ->
  submit_order client symbol sd quantity tsl s2
  = (Ok {| payload := OperationCompleted oid; status_code := 200 |},
     {| calls := calls s2 ++ [entry_order symbol sd quantity];
        symbol_info_cache := symbol_info_cache s2;
        log := (log s2 ++ [(INFO, OpeningOrder sd quantity symbol)])
               ++ [(INFO, MarketOrderSent oid)] |}).
Proof.
  intros Hentry Hoid Hrange.
  unfold submit_order, bind, invoke, logging, lift, ret, respond. simpl.
  rewrite Hentry, Hoid, Hrange. reflexivity.
Qed.

(** The same run when a trailing stop is due: what the client answers to
    the trailing-stop order decides. *)
Lemma submit_order_with_stop symbol sd quantity tsl s2 order oid :
  client (calls s2) (entry_order symbol sd quantity) = Ok order ->
  getitem order "orderId" = Ok oid ->
  tsl_in_range tsl = true ->
  let entered :=
    {| calls := calls s2 ++ [entry_order symbol sd quantity];
       symbol_info_cache := symbol_info_cache s2;
       log := (log s2 ++ [(INFO, OpeningOrder sd quantity symbol)])
              ++ [(INFO, MarketOrderSent oid)] |} in
  let stopped :=
    {| calls := calls entered ++ [trailing_stop_order symbol sd quantity tsl];
       symbol_info_cache := symbol_info_cache s2;
       log := log entered |} in
  submit_order client symbol sd quantity tsl s2
  = match client (calls entered) (trailing_stop_order symbol sd quantity tsl) with
    | Ok tsl_order =>
        match getitem tsl_order "orderId" with
        | Ok tsl_id =>
            (Ok {| payload := OperationCompleted oid; status_code := 200 |},
             {| calls := calls stopped;
                symbol_info_cache := symbol_info_cache s2;
                log := log entered ++ [(INFO, TrailingStopPlaced tsl tsl_id)] |})
        | Raise e => (Raise e, stopped)
        end
    | Raise e => (Raise e, stopped)
    end.
Proof.
  intros Hentry Hoid Hrange.
  unfold submit_order, bind, invoke, logging, lift, ret, respond. simpl.
  rewrite Hentry, Hoid, Hrange.
  destruct (client _ (trailing_stop_order _ _ _ _)) as [tsl_order | e]; [ | reflexivity ].
  destruct (getitem tsl_order "orderId"); reflexivity.
Qed.

(** C9. For every directional request whose entry order succeeds (the
    close step succeeded, the order was prepared, and the client answered
    the entry order with an order carrying an orderId), the calls after
    the entry order are exactly one trailing-stop order, on the opposing
    side (SELL after BUY, BUY after SELL), for the same quantity and with
    the request's percent as callback rate, when [0.1 <= tsl <= 5], and
    none otherwise; a percent outside the range is skipped and the answer
    is the status 200 with the entry's orderId, as it is for a percent in
    the range whose trailing-stop order the exchange accepts. *)
Theorem trailing_stop_iff_in_range items symbol action s detail s1 sd quantity tsl s2
    order oid :
  directional WEBHOOK_SECRET items symbol action ->
  close_position_for_symbol client symbol (received items s) = (Ok (true, detail), s1) ->
  prepare_order client items symbol action s1 = (Ok (inr (sd, quantity, tsl)), s2) ->
  client (calls s2) (futures_create_order symbol sd MARKET quantity None None) = Ok order ->
  getitem order "orderId" = Ok oid ->
  let in_range := ((0x1.999999999999ap-4 <=? tsl)%float && (tsl <=? 5)%float)%bool in
  let stop :=
    futures_create_order symbol (match sd with BUY => SELL | SELL => BUY end)
      TRAILING_STOP_MARKET quantity (Some tsl) (Some "MARK_PRICE"%string) in
  Float.of_pyval (default (PInt 0) (dict_get "tsl" items)) = Ok tsl /\
  sd = (if in_list action ["LONG"; "BUY"]%string then BUY else SELL) /\
  calls (snd (webhook client WEBHOOK_SECRET (PDict items) s))
  = calls s2 ++ futures_create_order symbol sd MARKET quantity None None
      :: (if in_range then [stop] else []) /\
  (in_range = false ->
   fst (webhook client WEBHOOK_SECRET (PDict items) s)
   = Ok {| payload := OperationCompleted oid; status_code := 200 |}) /\
  (forall tsl_order tsl_id,
     in_range = true ->
     client (calls s2 ++ [futures_create_order symbol sd MARKET quantity None None]) stop
     = Ok tsl_order ->
     getitem tsl_order "orderId" = Ok tsl_id ->
     fst (webhook client WEBHOOK_SECRET (PDict items) s)
     = Ok {| payload := OperationCompleted oid; status_code := 200 |}).
Proof.
  intros Hdir Hclose Hprep Hentry Hoid in_range stop.
  change in_range with (tsl_in_range tsl).
  change stop with (trailing_stop_order symbol sd quantity tsl).
  change (futures_create_order symbol sd MARKET quantity None None)
    with (entry_order symbol sd quantity) in *.
  clear in_range stop.
  destruct (prepare_order_submits _ _ _ _ _ _ _ _ Hprep)
    as (Hsd & (leverage & usdt_amount & Hfields) & _).
  split; [ | split; [ exact Hsd | ] ].
  { unfold open_fields in Hfields.
    destruct (leverage_of items) as [lv |]; [ | discriminate ].
    destruct (usdt_amount_of items) as [uv |]; [ | discriminate ].
    simpl in Hfields.
    destruct (Float.of_pyval (default (PInt 0) (dict_get "tsl" items)));
      simpl in Hfields; congruence. }
  rewrite (webhook_directional _ _ _ _ _ _ Hdir).
  rewrite (directional_close_succeeded _ _ _ _ _ _ _ Hclose).
  rewrite open_handlers_calls.
  rewrite (open_position_prepared _ _ _ _ _ _ _ _ Hprep).
  destruct (tsl_in_range tsl) eqn:Hrange.
  - rewrite (submit_order_with_stop _ _ _ _ _ _ _ Hentry Hoid Hrange). cbv zeta.
    cbn [calls].
    split; [ | split; [ discriminate | ] ].
    + destruct (client _ (trailing_stop_order _ _ _ _)) as [tsl_order | e].
      * destruct (getitem tsl_order "orderId"); simpl; now rewrite <- app_assoc.
      * simpl. now rewrite <- app_assoc.
    + intros tsl_order tsl_id _ Hstop Hid. rewrite Hstop, Hid. reflexivity.
  - rewrite (submit_order_without_stop _ _ _ _ _ _ _ Hentry Hoid Hrange).
    split; [ reflexivity | split; [ reflexivity | discriminate ] ].
Qed.

(** C2, as the code has it.  When the client raises a
    [BinanceAPIException] on the trailing-stop order of a directional
    request whose entry order succeeded, the exception is logged and the
    answer is the status 500 with the exception's text; the entry order
    stays submitted and nothing is called after the trailing-stop order. *)
Theorem trailing_stop_failure_is_fatal items symbol action s detail s1 sd quantity tsl s2
    order oid code msg :
  directional WEBHOOK_SECRET items symbol action ->
  close_position_for_symbol client symbol (received items s) = (Ok (true, detail), s1) ->
  prepare_order client items symbol action s1 = (Ok (inr (sd, quantity, tsl)), s2) ->
  client (calls s2) (entry_order symbol sd quantity) = Ok order ->
  getitem order "orderId" = Ok oid ->
  tsl_in_range tsl = true ->
  client (calls s2 ++ [entry_order symbol sd quantity])
    (trailing_stop_order symbol sd quantity tsl)
  = Raise (BinanceAPIException code msg) ->
  webhook client WEBHOOK_SECRET (PDict items) s
  = (Ok {| payload := Error (ExceptionText (BinanceAPIException code msg));
           status_code := 500 |},
     {| calls := calls s2 ++ [entry_order symbol sd quantity;
                              trailing_stop_order symbol sd quantity tsl];
        symbol_info_cache := symbol_info_cache s2;
        log := log s2 ++ [(INFO, OpeningOrder sd quantity symbol);
                          (INFO, MarketOrderSent oid);
                          (ERROR, OpenApiError (BinanceAPIException code msg))] |}).
Proof.
  intros Hdir Hclose Hprep Hentry Hoid Hrange Hstop.
  rewrite (webhook_directional _ _ _ _ _ _ Hdir).
  rewrite (directional_close_succeeded _ _ _ _ _ _ _ Hclose).
  rewrite (open_position_prepared _ _ _ _ _ _ _ _ Hprep).
  rewrite (submit_order_with_stop _ _ _ _ _ _ _ Hentry Hoid Hrange). cbv zeta.
  cbn [calls]. rewrite Hstop. cbn [fst snd].
  unfold open_handlers, bind, logging, respond, ret. cbn.
  now rewrite <- !app_assoc.
Qed.

End Opening.

(** [float(text)] raises nothing but the [ValueError] that names [text]. *)
Lemma of_string_raises text e :
  Float.of_string text = Raise e -> e = ValueError (CouldNotConvertToFloat text).
Proof.
  unfold Float.of_string.
  destruct (Float.sign_of _) as [neg l].
  destruct (_ || _); [ discriminate | ].
  destruct (String.eqb _ "nan"); [ discriminate | ].
  destruct (Float.decimal l) as [[m e10] |]; [ discriminate | congruence ].
Qed.

Section Rejections.

Variable client : binance_client.
Variable WEBHOOK_SECRET : string.

Lemma unusable_lev items e :
  unusable items "lev" e -> open_fields items = Raise e.
Proof.
  unfold open_fields, leverage_of, getitem.
  intros [(Hget & ->) | (text & Hget & Hparse & ->)]; rewrite Hget; simpl.
  - reflexivity.
  - now rewrite Hparse.
Qed.

Lemma unusable_usdt items leverage e :
  leverage_of items = Ok leverage ->
  unusable items "usdt" e -> open_fields items = Raise e.
Proof.
  unfold open_fields. intros ->. unfold usdt_amount_of, getitem. simpl.
  intros [(Hget & ->) | (text & Hget & Hparse & ->)]; rewrite Hget; simpl.
  - reflexivity.
  - now rewrite Hparse.
Qed.

Lemma prepare_order_bad_fields items symbol action s1 e :
  open_fields items = Raise e ->
  prepare_order client items symbol action s1 = (Raise e, s1).
Proof. intros H. unfold prepare_order. rewrite H. reflexivity. Qed.

Lemma directional_bad_fields items symbol action s detail s1 e :
  directional WEBHOOK_SECRET items symbol action ->
  close_position_for_symbol client symbol (received items s) = (Ok (true, detail), s1) ->
  open_fields items = Raise e ->
  webhook client WEBHOOK_SECRET (PDict items) s = open_handlers (Raise e) s1.
Proof.
  intros Hdir Hclose Hfields.
  rewrite (webhook_directional _ _ _ _ _ _ Hdir).
  rewrite (directional_close_succeeded _ _ _ _ _ _ _ Hclose).
  rewrite (open_position_raised _ _ _ _ _ _ _
             (prepare_order_bad_fields _ _ _ _ _ Hfields)).
  reflexivity.
Qed.

(** C10, as the code has it.  When the close step of a directional
    request has succeeded and [lev] and [usdt] are numbers, a [tsl] field
    whose conversion raises a [ValueError] (a string that is not a number)
    is answered with the status 400; the close step has run, its position
    query being the first call of the request, and no call follows it: no
    entry order is submitted. *)
Theorem unparseable_tsl_rejected_after_close items symbol action s detail s1
    leverage usdt_amount v why :
  directional WEBHOOK_SECRET items symbol action ->
  close_position_for_symbol client symbol (received items s) = (Ok (true, detail), s1) ->
  leverage_of items = Ok leverage ->
  usdt_amount_of items = Ok usdt_amount ->
  dict_get "tsl" items = Some v ->
  Float.of_pyval v = Raise (ValueError why) ->
  fst (webhook client WEBHOOK_SECRET (PDict items) s)
  = Ok {| payload := Error (InvalidOpenData (ValueError why)); status_code := 400 |} /\
  calls (snd (webhook client WEBHOOK_SECRET (PDict items) s)) = calls s1 /\
  exists more, calls s1 = calls s ++ futures_position_information symbol :: more.
Proof.
  intros Hdir Hclose Hlev Husdt Hget Hparse.
  assert (Hfields : open_fields items = Raise (ValueError why)).
  { unfold open_fields. rewrite Hlev, Husdt, Hget. simpl. now rewrite Hparse. }
  rewrite (directional_bad_fields _ _ _ _ _ _ _ Hdir Hclose Hfields).
  repeat split.
  destruct (close_position_first_call client symbol (received items s)) as [more Hfirst].
  rewrite Hclose in Hfirst. now exists more.
Qed.

End Rejections.

Section Filters.

Variable client : binance_client.
Variable WEBHOOK_SECRET : string.

Lemma keeps_cache_bind {A B} (m : M A) (k : A -> M B) :
  keeps_cache m -> (forall a, keeps_cache (k a)) -> keeps_cache (bind m k).
Proof.
  intros Hm Hk s. unfold bind. specialize (Hm s).
  destruct (m s) as [[a | e] s1]; simpl in Hm.
  - now rewrite Hk.
  - exact Hm.
Qed.

Lemma keeps_cache_attempt {A} (m : M A) : keeps_cache m -> keeps_cache (attempt m).
Proof. intros Hm s. rewrite attempt_run. apply Hm. Qed.

Ltac keeps_cache_step :=
  match goal with
  | |- keeps_cache (bind _ _) => apply keeps_cache_bind; [ | intros ? ]
  | |- keeps_cache (attempt _) => apply keeps_cache_attempt
  | |- keeps_cache (match ?x with _ => _ end) => destruct x
  | |- keeps_cache _ => intros ?; reflexivity
  end.

(** The close step leaves the cache of filters as it is. *)
Lemma close_position_cache symbol : keeps_cache (close_position_for_symbol client symbol).
Proof. unfold close_position_for_symbol, close_handlers. repeat keeps_cache_step. Qed.

Lemma find_symbol_absent symbol entries s :
  Forall (other_symbol symbol) entries ->
  find_symbol symbol entries s = (Ok tt, s).
Proof.
  induction 1 as [| entry entries (name & Hname & Hne) _ IH]; [ reflexivity | ].
  cbn [find_symbol]. unfold bind at 1, lift at 1. now rewrite Hname, Hne.
Qed.

Lemma get_symbol_info_api_failure symbol s1 code msg :
  symbol_info_cache s1 !! symbol = None ->
  client (calls s1) futures_exchange_info = Raise (BinanceAPIException code msg) ->
  get_symbol_info client symbol s1
  = (Ok None,
     {| calls := calls s1 ++ [futures_exchange_info];
        symbol_info_cache := symbol_info_cache s1;
        log := log s1 ++ [(INFO, FetchingFilters symbol);
                          (ERROR, FiltersError symbol (BinanceAPIException code msg))] |}).
Proof.
  intros Hcache Hfail.
  unfold get_symbol_info, bind, cache_has, attempt, invoke, logging, ret.
  rewrite Hcache. rewrite bool_decide_eq_false_2 by (intros [? [=]]).
  cbn. rewrite Hfail. cbn. now rewrite <- app_assoc.
Qed.

Lemma get_symbol_info_absent symbol s1 info entries :
  symbol_info_cache s1 !! symbol = None ->
  client (calls s1) futures_exchange_info = Ok info ->
  (v <~ getitem info "symbols"; py_iter v) = Ok entries ->
  Forall (other_symbol symbol) entries ->
  get_symbol_info client symbol s1
  = (Raise (KeyError symbol),
     {| calls := calls s1 ++ [futures_exchange_info];
        symbol_info_cache := symbol_info_cache s1;
        log := log s1 ++ [(INFO, FetchingFilters symbol)] |}).
Proof.
  intros Hcache Hinfo Hentries Habsent.
  unfold get_symbol_info, bind, cache_has, attempt, invoke, logging, lift, ret, cache_read.
  rewrite Hcache. rewrite bool_decide_eq_false_2 by (intros [? [=]]).
  cbn. rewrite Hinfo, Hentries. rewrite (find_symbol_absent _ _ _ Habsent).
  cbn. now rewrite Hcache.
Qed.

Lemma prepare_order_no_info items symbol action s1 fields s2 :
  open_fields items = Ok fields ->
  get_symbol_info client symbol s1 = (Ok None, s2) ->
  prepare_order client items symbol action s1
  = (Raise (ValueError (NoSymbolInfo symbol)), s2).
Proof.
  intros Hfields Hinfo. unfold prepare_order. rewrite Hfields.
  erewrite bind_ok by reflexivity. destruct fields as [[leverage usdt_amount] tsl].
  now rewrite (bind_ok _ _ _ _ _ Hinfo).
Qed.

Lemma prepare_order_info_raised items symbol action s1 fields e s2 :
  open_fields items = Ok fields ->
  get_symbol_info client symbol s1 = (Raise e, s2) ->
  prepare_order client items symbol action s1 = (Raise e, s2).
Proof.
  intros Hfields Hinfo. unfold prepare_order. rewrite Hfields.
  erewrite bind_ok by reflexivity. destruct fields as [[leverage usdt_amount] tsl].
  now rewrite (bind_raise _ _ _ _ _ Hinfo).
Qed.

(** C4, as the code has it.  In a directional request whose close step
    succeeded and whose fields are numbers, for a symbol that is not
    cached: when the instrument-list call raises a [BinanceAPIException],
    [get_symbol_info] returns [None]; when the symbol is absent from the
    instrument list, it raises [KeyError].  Either way the request is
    answered with the status 400, and the instrument-list call is the last
    call of the request: no leverage change, no mark price, no order. *)
Theorem symbol_info_not_found items symbol action s detail s1 leverage usdt_amount tsl :
  directional WEBHOOK_SECRET items symbol action ->
  close_position_for_symbol client symbol (received items s) = (Ok (true, detail), s1) ->
  open_fields items = Ok (leverage, usdt_amount, tsl) ->
  symbol_info_cache s !! symbol = None ->
  let answer := webhook client WEBHOOK_SECRET (PDict items) s in
  (forall code msg,
     client (calls s1) futures_exchange_info = Raise (BinanceAPIException code msg) ->
     fst (get_symbol_info client symbol s1) = Ok None /\
     fst answer
     = Ok {| payload := Error (InvalidOpenData (ValueError (NoSymbolInfo symbol)));
             status_code := 400 |} /\
     calls (snd answer) = calls s1 ++ [futures_exchange_info]) /\
  (forall info entries,
     client (calls s1) futures_exchange_info = Ok info ->
     (v <~ getitem info "symbols"; py_iter v) = Ok entries ->
     Forall (other_symbol symbol) entries ->
     fst (get_symbol_info client symbol s1) = Raise (KeyError symbol) /\
     fst answer
     = Ok {| payload := Error (InvalidOpenData (KeyError symbol)); status_code := 400 |} /\
     calls (snd answer) = calls s1 ++ [futures_exchange_info]).
Proof.
  intros Hdir Hclose Hfields Hcache answer. subst answer.
  assert (Hcache1 : symbol_info_cache s1 !! symbol = None).
  { pose proof (close_position_cache symbol (received items s)) as E.
    rewrite Hclose in E. simpl in E. now rewrite E. }
  rewrite (webhook_directional _ _ _ _ _ _ Hdir).
  rewrite (directional_close_succeeded _ _ _ _ _ _ _ Hclose).
  split.
  - intros code msg Hfail.
    pose proof (get_symbol_info_api_failure _ _ _ _ Hcache1 Hfail) as Hinfo.
    rewrite (open_position_raised _ _ _ _ _ _ _
               (prepare_order_no_info _ _ _ _ _ _ Hfields Hinfo)).
    rewrite Hinfo. repeat split.
  - intros info entries Hinfo Hentries Habsent.
    pose proof (get_symbol_info_absent _ _ _ _ Hcache1 Hinfo Hentries Habsent) as Hnone.
    rewrite (open_position_raised _ _ _ _ _ _ _
               (prepare_order_info_raised _ _ _ _ _ _ _ Hfields Hnone)).
    rewrite Hnone. repeat split.
Qed.

End Filters.

(** The position that [next_position] finds has an amount that is not zero;
    it is [None] only when no entry matches. *)
Lemma next_position_found symbol entries position :
  next_position symbol entries = Ok position ->
  position <> PNone ->
  truthy position = true /\
  exists amount,
    (amt <~ getitem position "positionAmt"; Float.of_pyval amt) = Ok amount /\
    (amount =? 0)%float = false.
Proof.
  induction entries as [| p rest IH]; simpl; intros H Hsome.
  - congruence.
  - destruct (getitem p "symbol") as [name |] eqn:Hname; simpl in H; [ | discriminate ].
    destruct (eq_str name symbol); [ | now apply IH ].
    destruct (getitem p "positionAmt") as [amt |] eqn:Hamt; simpl in H; [ | discriminate ].
    destruct (Float.of_pyval amt) as [f |] eqn:Hf; simpl in H; [ | discriminate ].
    destruct (f =? 0)%float eqn:Hz; simpl in H; [ now apply IH | ].
    inversion H; subst p. split.
    + destruct position as [ | | | | | | [| kv items]]; simpl in Hname; try discriminate.
      reflexivity.
    + exists f. rewrite Hamt. simpl. now rewrite Hf.
Qed.

Section Closing.

Variable client : binance_client.

Lemma close_position_flat symbol s positions entries :
  client (calls s) (futures_position_information symbol) = Ok positions ->
  py_iter positions = Ok entries ->
  next_position symbol entries = Ok PNone ->
  close_position_for_symbol client symbol s
  = (Ok (true, NoPositionToClose),
     {| calls := calls s ++ [futures_position_information symbol];
        symbol_info_cache := symbol_info_cache s;
        log := log s ++ [(INFO, NoOpenPosition symbol)] |}).
Proof.
  intros Hquery Hiter Hnext.
  unfold close_position_for_symbol, bind, attempt, invoke, lift, logging, ret. cbn.
  rewrite Hquery, Hiter. cbn. rewrite Hnext. reflexivity.
Qed.

(** The close step up to the answer to the cancellation. *)
Lemma close_position_open symbol s positions entries position amount :
  client (calls s) (futures_position_information symbol) = Ok positions ->
  py_iter positions = Ok entries ->
  next_position symbol entries = Ok position ->
  truthy position = true ->
  (amt <~ getitem position "positionAmt"; Float.of_pyval amt) = Ok amount ->
  let side_to_close := if (0 <? amount)%float then SELL else BUY in
  let queried :=
    {| calls := calls s ++ [futures_position_information symbol];
       symbol_info_cache := symbol_info_cache s;
       log := log s |} in
  close_position_for_symbol client symbol s
  = (outcome <- attempt (
       invoke client (futures_cancel_all_open_orders symbol);;
       logging INFO (CancelledOpenOrders symbol);;
       logging INFO (ClosingPosition symbol side_to_close (abs amount));;
       close_order <- invoke client (futures_create_order symbol side_to_close MARKET
                                       (abs amount) None None);;
       logged_id <- lift (getitem close_order "orderId");;
       logging INFO (PositionClosed symbol logged_id);;
       orderId <- lift (getitem close_order "orderId");;
       ret (true, ClosedBy orderId));;
     close_handlers symbol outcome) queried.
Proof.
  intros Hquery Hiter Hnext Htruthy Hamount.
  cbv zeta.
  unfold close_position_for_symbol, bind, attempt, invoke, lift. cbn [calls].
  rewrite Hquery, Hiter. cbn [and_then]. rewrite Hnext, Htruthy. cbn [negb].
  rewrite Hamount. reflexivity.
Qed.

Lemma close_handlers_issues P symbol outcome :
  issues P (close_handlers symbol outcome).
Proof. unfold close_handlers. repeat issues_step. Qed.

Lemma close_handlers_calls symbol outcome s :
  calls (snd (close_handlers symbol outcome s)) = calls s.
Proof.
  destruct (close_handlers_issues (fun _ => False) symbol outcome s) as (new & E & F).
  destruct new as [| c new]; [ now rewrite E, app_nil_r | now inversion F ].
Qed.

(** C8, as the code has it.  When the position query is answered and
    reports no position with an amount other than zero for the symbol,
    the close step returns success with "No position to close." and calls
    nothing else: no cancellation, no order.  When it reports a position,
    the amount is not zero and, if the cancellation of the open orders is
    answered, the close step submits one market order: SELL for a positive
    amount, BUY for a negative one, for the absolute value of the amount. *)
Theorem close_position_orders symbol s positions entries position :
  client (calls s) (futures_position_information symbol) = Ok positions ->
  py_iter positions = Ok entries ->
  next_position symbol entries = Ok position ->
  let query := futures_position_information symbol in
  let cancel := futures_cancel_all_open_orders symbol in
  let closing := close_position_for_symbol client symbol s in
  (position = PNone ->
   fst closing = Ok (true, NoPositionToClose) /\
   calls (snd closing) = calls s ++ [query]) /\
  (position <> PNone ->
   exists amount,
     (amt <~ getitem position "positionAmt"; Float.of_pyval amt) = Ok amount /\
     (amount =? 0)%float = false /\
     forall reply,
       client (calls s ++ [query]) cancel = Ok reply ->
       calls (snd closing)
       = calls s ++ [query; cancel;
                     futures_create_order symbol
                       (if (0 <? amount)%float then SELL else BUY) MARKET
                       (abs amount) None None]).
Proof.
  intros Hquery Hiter Hnext query cancel closing. subst query cancel closing. split.
  - intros ->. now rewrite (close_position_flat _ _ _ _ Hquery Hiter Hnext).
  - intros Hsome.
    destruct (next_position_found _ _ _ Hnext Hsome) as (Htruthy & amount & Hamount & Hnz).
    exists amount. split; [ exact Hamount | split; [ exact Hnz | ] ].
    intros reply Hcancel.
    rewrite (close_position_open _ _ _ _ _ _ Hquery Hiter Hnext Htruthy Hamount).
    cbv zeta. rewrite bind_attempt, close_handlers_calls.
    unfold bind, invoke, logging, lift, ret. cbn [calls]. rewrite Hcancel. cbn.
    destruct (client _ (futures_create_order _ _ _ _ _ _)) as [close_order | e]; cbn.
    + destruct (getitem close_order "orderId"); cbn; now rewrite <- !app_assoc.
    + now rewrite <- !app_assoc.
Qed.

(** C5, as the code has it.  When the close step has found a position
    and the cancellation of the open orders raises, the close is given up:
    the cancellation is the last call, no market order is submitted, the
    exception is logged, and the close step reports failure, unless the
    exception is a [BinanceAPIException] with the code -2022, which it
    reports as success. *)
Theorem cancel_failure_aborts_close symbol s positions entries position e :
  client (calls s) (futures_position_information symbol) = Ok positions ->
  py_iter positions = Ok entries ->
  next_position symbol entries = Ok position ->
  position <> PNone ->
  client (calls s ++ [futures_position_information symbol])
    (futures_cancel_all_open_orders symbol) = Raise e ->
  let closing := close_position_for_symbol client symbol s in
  calls (snd closing)
  = calls s ++ [futures_position_information symbol;
                futures_cancel_all_open_orders symbol] /\
  fst closing
  = Ok (match e with
        | BinanceAPIException code _ =>
            if code =? -2022 then (true, LikelyAlreadyClosed) else (false, ErrorText e)
        | _ => (false, ErrorText e)
        end) /\
  log (snd closing)
  = log s ++ [match e with
              | BinanceAPIException code _ =>
                  if code =? -2022 then (WARNING, CloseLikelyAlreadyClosed symbol e)
                  else (ERROR, CloseApiError symbol e)
              | _ => (ERROR, CloseUnexpectedError symbol e)
              end].
Proof.
  intros Hquery Hiter Hnext Hsome Hcancel closing. subst closing.
  destruct (next_position_found _ _ _ Hnext Hsome) as (Htruthy & amount & Hamount & _).
  rewrite (close_position_open _ _ _ _ _ _ Hquery Hiter Hnext Htruthy Hamount).
  cbv zeta. rewrite bind_attempt.
  match goal with
  | |- context [bind (invoke client ?c) ?k ?q] =>
      assert (Hrun : invoke client c q
                     = (Raise e, {| calls := calls q ++ [c];
                                    symbol_info_cache := symbol_info_cache q;
                                    log := log q |}))
        by (unfold invoke; cbn [calls]; now rewrite Hcancel);
      rewrite (bind_raise _ k _ _ _ Hrun)
  end.
  cbn [fst snd].
  destruct e as [ | | | | | | | code msg | ]; cbn;
    try (rewrite <- app_assoc; repeat split; reflexivity).
  destruct (code =? -2022); cbn; rewrite <- app_assoc; repeat split; reflexivity.
Qed.

End Closing.

Section Validation.

Variable client : binance_client.
Variable WEBHOOK_SECRET : string.

(** C3, as the code has it.  A request is answered without any call to
    the exchange when its body is not a JSON object (400), when its secret
    is wrong (401), when [symbol] or [side] is missing (400) or is not a
    string (the handler raises), and when the side is not a known action
    (400).  (The fields [lev], [usdt] and [tsl] of a directional request
    are read after the close step has called the exchange.) *)
Theorem validation_without_exchange data s :
  let answer := webhook client WEBHOOK_SECRET data s in
  ((forall items, data <> PDict items) ->
   fst answer = Ok {| payload := Error MalformedJson; status_code := 400 |} /\
   calls (snd answer) = calls s) /\
  (forall items,
     data = PDict items ->
     (authorized WEBHOOK_SECRET items = false ->
      fst answer = Ok {| payload := Error Unauthorized; status_code := 401 |} /\
      calls (snd answer) = calls s) /\
     (authorized WEBHOOK_SECRET items = true ->
      (forall e,
         required_fields data = Raise e ->
         fst answer
         = match e with
           | KeyError k =>
               Ok {| payload := Error (MissingRequired (KeyError k)); status_code := 400 |}
           | _ => Raise e
           end /\
         calls (snd answer) = calls s) /\
      (forall symbol action,
         required_fields data = Ok (symbol, action) ->
         String.eqb action "CLOSE" = false ->
         in_list action directions = false ->
         fst answer = Ok {| payload := Error (UnknownAction action); status_code := 400 |} /\
         calls (snd answer) = calls s))).
Proof.
  intros answer. subst answer. split.
  - intros Hnot. destruct data; try (split; reflexivity). now destruct (Hnot items).
  - intros items ->. unfold webhook. erewrite bind_ok by reflexivity. cbv beta.
    split; [ | split ].
    + intros ->. split; reflexivity.
    + intros e Hfields. rewrite H. cbn [negb]. rewrite bind_attempt.
      unfold lift. cbn [fst snd]. rewrite Hfields. destruct e; split; reflexivity.
    + intros symbol action Hfields Hclose Hdir. rewrite H. cbn [negb].
      rewrite bind_attempt. unfold lift. cbn [fst snd]. rewrite Hfields. cbv iota beta.
      rewrite Hclose. fold directions. rewrite Hdir. split; reflexivity.
Qed.

End Validation.

(** ** The quantity normalizer *)

(** [bisect] finds the least integer at which [above_half] holds. *)
Lemma bisect_least m e fuel lo hi :
  Float.above_half m e lo = false ->
  Float.above_half m e hi = true ->
  lo < hi ->
  hi - lo <= 2 ^ Z.of_nat fuel ->
  Float.above_half m e (Float.bisect m e fuel lo hi) = true /\
  Float.above_half m e (Float.bisect m e fuel lo hi - 1) = false.
Proof.
  revert lo hi. induction fuel as [| fuel IH]; intros lo hi Hlo Hhi Hlt Hwidth.
  - simpl in *. replace (hi - 1) with lo by lia. now split.
  - cbn [Float.bisect]. destruct (hi - lo <=? 1) eqn:Hnear.
    + apply Z.leb_le in Hnear. replace (hi - 1) with lo by lia. now split.
    + apply Z.leb_gt in Hnear.
      rewrite Nat2Z.inj_succ, Z.pow_succ_r in Hwidth by lia.
      assert (Hmid : lo < (lo + hi) / 2 < hi /\
                     (lo + hi) / 2 - lo <= 2 ^ Z.of_nat fuel /\
                     hi - (lo + hi) / 2 <= 2 ^ Z.of_nat fuel).
      { pose proof (Z.div_mod (lo + hi) 2 ltac:(lia)) as Hdiv.
        pose proof (Z.mod_pos_bound (lo + hi) 2 ltac:(lia)) as Hmod. lia. }
      destruct Hmid as ((Hl & Hh) & Hwl & Hwh).
      destruct (Float.above_half m e ((lo + hi) / 2)) eqn:Hmid.
      * now apply IH.
      * now apply IH.
Qed.

Lemma above_half_low m e :
  Zpos m < 2 ^ 53 -> e <= 971 -> Float.above_half m e (-311) = false.
Proof.
  intros Hm He. unfold Float.above_half.
  change (2 * -311 + 1) with (-621). change (0 <=? -621) with false. cbv iota.
  change (- -621) with 621.
  assert (Hsq : Zpos m * Zpos m < 2 ^ 106).
  { change (2 ^ 106) with (2 ^ 53 * 2 ^ 53). nia. }
  assert (Hbig : 2 ^ 106 * 2 ^ 1942 <= 10 ^ 621) by (apply Z.leb_le; vm_compute; reflexivity).
  assert (Hten : 0 < 10 ^ 621) by (apply Z.pow_pos_nonneg; lia).
  apply Z.ltb_ge. destruct (0 <=? e) eqn:Hsign.
  - apply Z.leb_le in Hsign.
    assert (Hpow : 0 < 2 ^ (2 * e) <= 2 ^ 1942).
    { split; [ apply Z.pow_pos_nonneg; lia | apply Z.pow_le_mono_r; lia ]. }
    rewrite Z.mul_1_r, Z.mul_1_l.
    transitivity (2 ^ 106 * 2 ^ 1942); [ | exact Hbig ].
    apply Z.mul_le_mono_nonneg; lia.
  - apply Z.leb_gt in Hsign.
    assert (Hpow : 1 <= 2 ^ (- (2 * e))).
    { change 1 with (2 ^ 0). apply Z.pow_le_mono_r; lia. }
    assert (H106 : 2 ^ 106 <= 10 ^ 621) by (apply Z.leb_le; vm_compute; reflexivity).
    rewrite !Z.mul_1_r. nia.
Qed.

Lemma above_half_high m e :
  -1074 <= e -> Float.above_half m e 326 = true.
Proof.
  intros He. unfold Float.above_half.
  change (2 * 326 + 1) with 653. change (0 <=? 653) with true. cbv iota.
  assert (Hten : 2 ^ 2148 < 10 ^ 653) by (apply Z.ltb_lt; vm_compute; reflexivity).
  apply Z.ltb_lt. destruct (0 <=? e) eqn:Hsign.
  - apply Z.leb_le in Hsign.
    assert (Hpow : 0 < 2 ^ (2 * e)) by (apply Z.pow_pos_nonneg; lia).
    assert (H1 : 1 < 10 ^ 653) by (apply Z.ltb_lt; vm_compute; reflexivity).
    rewrite Z.mul_1_l. nia.
  - apply Z.leb_gt in Hsign.
    assert (Hpow : 0 < 2 ^ (- (2 * e)) <= 2 ^ 2148).
    { split; [ apply Z.pow_pos_nonneg; lia | apply Z.pow_le_mono_r; lia ]. }
    rewrite Z.mul_1_r, Z.mul_1_r. nia.
Qed.

(** For a finite positive binary64 number [x = m * 2^e], the precision [p]
    that [neg_log10_round] returns is the integer nearest to [-log10 x]:
    [x^2 * 10^(2p-1) <= 1 < x^2 * 10^(2p+1)]. *)
Lemma neg_log10_round_nearest x m e p :
  Prim2SF x = S754_finite false m e ->
  Zpos m < 2 ^ 53 ->
  -1074 <= e <= 971 ->
  Float.neg_log10_round x = Ok p ->
  Float.above_half m e p = true /\ Float.above_half m e (p - 1) = false.
Proof.
  intros Hx Hm He. unfold Float.neg_log10_round. rewrite Hx. intros Hp.
  assert (Heq : p = Float.bisect m e 12 (-311) 326) by congruence.
  rewrite Heq. apply bisect_least.
  - apply above_half_low; lia.
  - apply above_half_high; lia.
  - lia.
  - apply Z.leb_le. vm_compute. reflexivity.
Qed.

(** The second half of the normalizer's contract: the result is zero when
    the formatted quantity is below the minimum, and the formatted quantity
    otherwise. *)
Lemma adjust_quantity_threshold quantity step_size min_qty precision formatted s :
  Float.neg_log10_round step_size = Ok precision ->
  (scaled <~ float_mul quantity (pow10 precision);
   n <~ Float.floor scaled;
   int_div n (pow10 precision)) = Ok formatted ->
  fst (adjust_quantity quantity step_size min_qty s)
  = Ok (if (formatted <? min_qty)%float then 0%float else formatted).
Proof.
  intros Hprecision Hformatted. unfold adjust_quantity, bind, lift.
  rewrite Hprecision, Hformatted. now destruct (formatted <? min_qty)%float.
Qed.

(** C6 fails on the code.  For 1.2 USDT at leverage 1 and a mark price of
    1.5 the raw quantity is the binary64 number 0.7999999999999999; with a
    step size and a minimum of 0.01 its truncation to two decimals is 0.79
    (the floor of a hundred times its exact value is 79), but
    [adjust_quantity] returns 0.8, which is greater than the raw quantity:
    the binary64 product of the raw quantity and 100 is 80.  The handler
    submits the entry order of that request for 0.8. *)
Theorem adjust_quantity_rounds_up :
  (0x1.3333333333333p+0 * 1 / 0x1.8p+0)%float = 0x1.9999999999999p-1%float /\
  Prim2SF 0x1.9999999999999p-1 = S754_finite false 7205759403792793 (-53) /\
  Z.shiftl (7205759403792793 * 100) (-53) = 79 /\
  (0x1.9999999999999p-1 * 100)%float = 80%float /\
  fst (adjust_quantity 0x1.9999999999999p-1 0x1.47ae147ae147bp-7 0x1.47ae147ae147bp-7
         Example.fresh)
  = Ok 0x1.999999999999ap-1%float /\
  (0x1.9999999999999p-1 <? 0x1.999999999999ap-1)%float = true /\
  calls (snd (Example.run Example.coarse Example.small_long_signal))
  = [futures_position_information "BTCUSDT"; futures_exchange_info;
     futures_change_leverage "BTCUSDT" 1; futures_mark_price "BTCUSDT";
     futures_create_order "BTCUSDT" BUY MARKET 0x1.999999999999ap-1 None None].
Proof. vm_compute. repeat split. Qed.

(** ** The theorems at work on the scripted exchange *)

Section Witnesses.

Import Example.

Lemma long_signal_directional fields :
  directional secret (signal "long" fields) "BTCUSDT" "LONG".
Proof. repeat split. Qed.

(** C1 at a request whose close step fails: the position query cannot
    reach the exchange. *)
Lemma close_precedes_open_witness :
  exists closed s1 rest,
    close_position_for_symbol (exchange unreachable) "BTCUSDT"
      (received long_signal fresh) = (Ok closed, s1) /\
    (exists more,
       calls s1 = calls fresh ++ futures_position_information "BTCUSDT" :: more) /\
    calls (snd (webhook (exchange unreachable) secret (PDict long_signal) fresh))
    = calls s1 ++ rest /\
    (fst closed = false ->
       rest = [] /\
       fst (webhook (exchange unreachable) secret (PDict long_signal) fresh)
       = Ok {| payload := Error CouldNotCloseBeforeOpen; status_code := 500 |}).
Proof.
  apply (close_precedes_open (exchange unreachable) secret long_signal "BTCUSDT" "LONG").
  apply long_signal_directional.
Defined.

(** Against C2: the entry order of this request succeeds (order 4), the
    exchange rejects the trailing stop, and the request is answered with
    the status 500, not with the status 200 and the entry's orderId. *)
Lemma trailing_stop_failure_counterexample :
  In (INFO, MarketOrderSent (PInt 4)) (log (snd (run stop_rejected long_signal))) /\
  last (calls (snd (run stop_rejected long_signal))) futures_exchange_info
  = trailing_stop_order "BTCUSDT" BUY 0x1.47ae147ae147bp-6 1.5 /\
  fst (run stop_rejected long_signal)
  = Ok {| payload := Error (ExceptionText (BinanceAPIException (-2021) "rejected"));
          status_code := 500 |} /\
  fst (run stop_rejected long_signal)
  <> Ok {| payload := OperationCompleted (PInt 4); status_code := 200 |}.
Proof.
  vm_compute. repeat split; [ tauto | discriminate ].
Qed.

(** C2, as the code has it, at the same request. *)
Lemma trailing_stop_failure_is_fatal_witness :
  webhook (exchange stop_rejected) secret (PDict long_signal) fresh
  = (Ok {| payload := Error (ExceptionText (BinanceAPIException (-2021) "rejected"));
           status_code := 500 |},
     {| calls := calls (snd (prepared stop_rejected long_signal "LONG"))
                 ++ [entry_order "BTCUSDT" BUY 0x1.47ae147ae147bp-6;
                     trailing_stop_order "BTCUSDT" BUY 0x1.47ae147ae147bp-6 1.5];
        symbol_info_cache := symbol_info_cache (snd (prepared stop_rejected long_signal "LONG"));
        log := log (snd (prepared stop_rejected long_signal "LONG"))
               ++ [(INFO, OpeningOrder BUY 0x1.47ae147ae147bp-6 "BTCUSDT");
                   (INFO, MarketOrderSent (PInt 4));
                   (ERROR, OpenApiError (BinanceAPIException (-2021) "rejected"))] |}).
Proof.
  apply (trailing_stop_failure_is_fatal (exchange stop_rejected) secret long_signal
           "BTCUSDT" "LONG" fresh NoPositionToClose (after_close stop_rejected long_signal)
           BUY 0x1.47ae147ae147bp-6 1.5 (snd (prepared stop_rejected long_signal "LONG"))
           (PDict [("orderId", PInt 4)]) (PInt 4) (-2021) "rejected").
  - apply long_signal_directional.
  - vm_compute. reflexivity.
  - vm_compute. reflexivity.
  - vm_compute. reflexivity.
  - reflexivity.
  - vm_compute. reflexivity.
  - vm_compute. reflexivity.
Defined.

(** Against C3: the [lev] field of this request is missing; the request
    is rejected with the status 400, after the position query has been
    sent to the exchange. *)
Lemma missing_leverage_counterexample :
  fst (run flat long_signal_without_lev)
  = Ok {| payload := Error (InvalidOpenData (KeyError "lev")); status_code := 400 |} /\
  calls (snd (run flat long_signal_without_lev))
  = [futures_position_information "BTCUSDT"] /\
  calls (snd (run flat long_signal_without_lev)) <> calls fresh.
Proof. vm_compute. repeat split. discriminate. Qed.

(** Against C4: the instrument list is refused, [get_symbol_info] returns
    [None], and the request is answered with the status 400, not 500; for
    a symbol that the list does not have, [get_symbol_info] raises
    [KeyError] and the answer is 400 as well. *)
Lemma symbol_info_not_found_counterexample :
  fst (get_symbol_info (exchange no_instruments) "BTCUSDT"
         (after_close no_instruments long_signal)) = Ok None /\
  fst (run no_instruments long_signal)
  = Ok {| payload := Error (InvalidOpenData (ValueError (NoSymbolInfo "BTCUSDT")));
          status_code := 400 |} /\
  fst (get_symbol_info (exchange flat) "XRPUSDT" fresh) = Raise (KeyError "XRPUSDT") /\
  fst (run flat unlisted_signal)
  = Ok {| payload := Error (InvalidOpenData (KeyError "XRPUSDT")); status_code := 400 |}.
Proof. vm_compute. repeat split. Qed.

(** C4, as the code has it, at the request of the example. *)
Lemma symbol_info_not_found_witness :
  (forall code msg,
     exchange no_instruments (calls (after_close no_instruments long_signal))
       futures_exchange_info = Raise (BinanceAPIException code msg) ->
     fst (get_symbol_info (exchange no_instruments) "BTCUSDT"
            (after_close no_instruments long_signal)) = Ok None /\
     fst (webhook (exchange no_instruments) secret (PDict long_signal) fresh)
     = Ok {| payload := Error (InvalidOpenData (ValueError (NoSymbolInfo "BTCUSDT")));
             status_code := 400 |} /\
     calls (snd (webhook (exchange no_instruments) secret (PDict long_signal) fresh))
     = calls (after_close no_instruments long_signal) ++ [futures_exchange_info]) /\
  (forall info entries,
     exchange no_instruments (calls (after_close no_instruments long_signal))
       futures_exchange_info = Ok info ->
     (v <~ getitem info "symbols"; py_iter v) = Ok entries ->
     Forall (other_symbol "BTCUSDT") entries ->
     fst (get_symbol_info (exchange no_instruments) "BTCUSDT"
            (after_close no_instruments long_signal)) = Raise (KeyError "BTCUSDT") /\
     fst (webhook (exchange no_instruments) secret (PDict long_signal) fresh)
     = Ok {| payload := Error (InvalidOpenData (KeyError "BTCUSDT")); status_code := 400 |} /\
     calls (snd (webhook (exchange no_instruments) secret (PDict long_signal) fresh))
     = calls (after_close no_instruments long_signal) ++ [futures_exchange_info]).
Proof.
  apply (symbol_info_not_found (exchange no_instruments) secret long_signal
           "BTCUSDT" "LONG" fresh NoPositionToClose
           (after_close no_instruments long_signal) 10 100 1.5).
  - apply long_signal_directional.
  - vm_compute. reflexivity.
  - vm_compute. reflexivity.
  - reflexivity.
Defined.

(** Against C5: a long position of 1.5 is open and the cancellation of the
    open orders is rejected; the close step stops there, reports failure
    and submits no order. *)
Lemma cancel_failure_counterexample :
  fst (close_position_for_symbol (exchange cancel_rejected) "BTCUSDT" fresh)
  = Ok (false, ErrorText (BinanceAPIException (-1000) "rejected")) /\
  calls (snd (close_position_for_symbol (exchange cancel_rejected) "BTCUSDT" fresh))
  = [futures_position_information "BTCUSDT"; futures_cancel_all_open_orders "BTCUSDT"] /\
  forallb (fun c => negb (is_order c))
    (calls (snd (close_position_for_symbol (exchange cancel_rejected) "BTCUSDT" fresh)))
  = true.
Proof. vm_compute. repeat split. Qed.

(** C5, as the code has it, at the same close. *)
Lemma cancel_failure_aborts_close_witness :
  calls (snd (close_position_for_symbol (exchange cancel_rejected) "BTCUSDT" fresh))
  = calls fresh ++ [futures_position_information "BTCUSDT";
                    futures_cancel_all_open_orders "BTCUSDT"] /\
  fst (close_position_for_symbol (exchange cancel_rejected) "BTCUSDT" fresh)
  = Ok (if -1000 =? -2022 then (true, LikelyAlreadyClosed)
        else (false, ErrorText (BinanceAPIException (-1000) "rejected"))) /\
  log (snd (close_position_for_symbol (exchange cancel_rejected) "BTCUSDT" fresh))
  = log fresh
    ++ [if -1000 =? -2022
        then (WARNING, CloseLikelyAlreadyClosed "BTCUSDT"
                         (BinanceAPIException (-1000) "rejected"))
        else (ERROR, CloseApiError "BTCUSDT" (BinanceAPIException (-1000) "rejected"))].
Proof.
  apply (cancel_failure_aborts_close (exchange cancel_rejected) "BTCUSDT" fresh
           (position "1.5")
           [PDict [("symbol", PStr "BTCUSDT"); ("positionAmt", PStr "1.5")]]
           (PDict [("symbol", PStr "BTCUSDT"); ("positionAmt", PStr "1.5")])
           (BinanceAPIException (-1000) "rejected")).
  - reflexivity.
  - reflexivity.
  - vm_compute. reflexivity.
  - discriminate.
  - reflexivity.
Defined.

(** Against C7: [lev] is null in this request, which is not a number; the
    answer is the status 500, not a rejection with the status 400. *)
Lemma null_leverage_counterexample :
  dict_get "lev" long_signal_null_lev = Some PNone /\
  fst (run flat long_signal_null_lev)
  = Ok {| payload := Error (ExceptionText TypeError); status_code := 500 |}.
Proof. vm_compute. repeat split. Qed.

(** The handler itself sets no lower bound on the leverage: a leverage of
    zero is sent to the exchange, and it is the quantity of zero that is
    rejected. *)
Example zero_leverage_is_sent :
  fst (run flat long_signal_zero_lev)
  = Ok {| payload := Error (QuantityTooSmall 0); status_code := 400 |} /\
  calls (snd (run flat long_signal_zero_lev))
  = [futures_position_information "BTCUSDT"; futures_exchange_info;
     futures_change_leverage "BTCUSDT" 0; futures_mark_price "BTCUSDT"].
Proof. vm_compute. repeat split. Qed.

(** A request without [lev]: the field is unusable, with a [KeyError]. *)
Example missing_leverage_is_unusable :
  unusable long_signal_without_lev "lev" (KeyError "lev").
Proof. left. split; reflexivity. Qed.

(** Against C8: the position amount is 1.5, the cancellation of the open
    orders is rejected, and no SELL order for 1.5 is issued. *)
Lemma close_position_orders_counterexample :
  exchange cancel_rejected [] (futures_position_information "BTCUSDT")
  = Ok (position "1.5") /\
  ~ In (futures_create_order "BTCUSDT" SELL MARKET 1.5 None None)
      (calls (snd (close_position_for_symbol (exchange cancel_rejected) "BTCUSDT" fresh))).
Proof.
  split; [ reflexivity | ]. vm_compute. intros [H | [H | []]]; discriminate H.
Qed.

(** C8, as the code has it, at a long position of 1.5: a SELL order for 1.5. *)
Lemma close_position_orders_witness :
  (PDict [("symbol", PStr "BTCUSDT"); ("positionAmt", PStr "1.5")] = PNone ->
   fst (close_position_for_symbol (exchange long) "BTCUSDT" fresh)
   = Ok (true, NoPositionToClose) /\
   calls (snd (close_position_for_symbol (exchange long) "BTCUSDT" fresh))
   = calls fresh ++ [futures_position_information "BTCUSDT"]) /\
  (PDict [("symbol", PStr "BTCUSDT"); ("positionAmt", PStr "1.5")] <> PNone ->
   exists amount,
     (amt <~ getitem (PDict [("symbol", PStr "BTCUSDT"); ("positionAmt", PStr "1.5")])
               "positionAmt";
      Float.of_pyval amt) = Ok amount /\
     (amount =? 0)%float = false /\
     forall reply,
       exchange long (calls fresh ++ [futures_position_information "BTCUSDT"])
         (futures_cancel_all_open_orders "BTCUSDT") = Ok reply ->
       calls (snd (close_position_for_symbol (exchange long) "BTCUSDT" fresh))
       = calls fresh ++ [futures_position_information "BTCUSDT";
                         futures_cancel_all_open_orders "BTCUSDT";
                         futures_create_order "BTCUSDT"
                           (if (0 <? amount)%float then SELL else BUY) MARKET
                           (abs amount) None None]).
Proof.
  apply (close_position_orders (exchange long) "BTCUSDT" fresh (position "1.5")
           [PDict [("symbol", PStr "BTCUSDT"); ("positionAmt", PStr "1.5")]]).
  - reflexivity.
  - reflexivity.
  - vm_compute. reflexivity.
Defined.

(** The examples of the close step: no position, a long position of 1.5
    (SELL 1.5) and a short position of 2.0 (BUY 2.0). *)
Example close_flat :
  close_position_for_symbol (exchange flat) "BTCUSDT" fresh
  = (Ok (true, NoPositionToClose),
     {| calls := [futures_position_information "BTCUSDT"];
        symbol_info_cache := ∅;
        log := [(INFO, NoOpenPosition "BTCUSDT")] |}).
Proof. vm_compute. reflexivity. Qed.

Example close_long :
  calls (snd (close_position_for_symbol (exchange long) "BTCUSDT" fresh))
  = [futures_position_information "BTCUSDT";
     futures_cancel_all_open_orders "BTCUSDT";
     futures_create_order "BTCUSDT" SELL MARKET 1.5 None None].
Proof. vm_compute. reflexivity. Qed.

Example close_short :
  calls (snd (close_position_for_symbol (exchange short) "BTCUSDT" fresh))
  = [futures_position_information "BTCUSDT";
     futures_cancel_all_open_orders "BTCUSDT";
     futures_create_order "BTCUSDT" BUY MARKET 2 None None].
Proof. vm_compute. reflexivity. Qed.

(** C9 at a request with a trailing stop of 1.5 percent: the entry order
    (BUY) is followed by the trailing stop (SELL) for the same quantity,
    and the answer is the status 200. *)
Lemma trailing_stop_iff_in_range_witness :
  Float.of_pyval (default (PInt 0) (dict_get "tsl" long_signal)) = Ok 1.5%float /\
  calls (snd (webhook (exchange flat) secret (PDict long_signal) fresh))
  = calls (snd (prepared flat long_signal "LONG"))
    ++ [futures_create_order "BTCUSDT" BUY MARKET 0x1.47ae147ae147bp-6 None None;
        futures_create_order "BTCUSDT" SELL TRAILING_STOP_MARKET 0x1.47ae147ae147bp-6
          (Some 1.5%float) (Some "MARK_PRICE"%string)] /\
  fst (webhook (exchange flat) secret (PDict long_signal) fresh)
  = Ok {| payload := OperationCompleted (PInt 4); status_code := 200 |}.
Proof.
  destruct (trailing_stop_iff_in_range (exchange flat) secret long_signal
              "BTCUSDT" "LONG" fresh NoPositionToClose (after_close flat long_signal)
              BUY 0x1.47ae147ae147bp-6 1.5 (snd (prepared flat long_signal "LONG"))
              (PDict [("orderId", PInt 4)]) (PInt 4))
    as (Htsl & _ & Hcalls & _ & Hanswer).
  - apply long_signal_directional.
  - vm_compute. reflexivity.
  - vm_compute. reflexivity.
  - vm_compute. reflexivity.
  - reflexivity.
  - split; [ exact Htsl | split; [ exact Hcalls | ] ].
    apply (Hanswer (PDict [("orderId", PInt 77)]) (PInt 77)).
    + reflexivity.
    + vm_compute. reflexivity.
    + reflexivity.
Defined.

(** The two sides of C9 on the scripted exchange: 0.05 percent places no
    trailing stop, 1.5 percent places one, on the opposing side. *)
Example narrow_stop_is_skipped :
  tsl_in_range 0x1.999999999999ap-5 = false /\
  fst (run flat long_signal_narrow_stop)
  = Ok {| payload := OperationCompleted (PInt 4); status_code := 200 |} /\
  calls (snd (run flat long_signal_narrow_stop))
  = [futures_position_information "BTCUSDT"; futures_exchange_info;
     futures_change_leverage "BTCUSDT" 10; futures_mark_price "BTCUSDT";
     futures_create_order "BTCUSDT" BUY MARKET 0x1.47ae147ae147bp-6 None None].
Proof. vm_compute. repeat split. Qed.

Example stop_is_placed :
  tsl_in_range 1.5 = true /\
  calls (snd (run flat long_signal))
  = [futures_position_information "BTCUSDT"; futures_exchange_info;
     futures_change_leverage "BTCUSDT" 10; futures_mark_price "BTCUSDT";
     futures_create_order "BTCUSDT" BUY MARKET 0x1.47ae147ae147bp-6 None None;
     futures_create_order "BTCUSDT" SELL TRAILING_STOP_MARKET 0x1.47ae147ae147bp-6
       (Some 1.5%float) (Some "MARK_PRICE"%string)].
Proof. vm_compute. repeat split. Qed.

(** Against C10: [tsl] is present and null, which is not a number; the
    answer is the status 500, not a rejection with the status 400. *)
Lemma null_tsl_counterexample :
  dict_get "tsl" long_signal_null_tsl = Some PNone /\
  Float.of_pyval PNone = Raise TypeError /\
  fst (run flat long_signal_null_tsl)
  = Ok {| payload := Error (ExceptionText TypeError); status_code := 500 |}.
Proof. vm_compute. repeat split. Qed.

(** C10, as the code has it, at a request whose [tsl] is not a number. *)
Lemma unparseable_tsl_rejected_after_close_witness :
  fst (webhook (exchange flat) secret (PDict long_signal_text_tsl) fresh)
  = Ok {| payload := Error (InvalidOpenData
                              (ValueError (CouldNotConvertToFloat "tight")));
          status_code := 400 |} /\
  calls (snd (webhook (exchange flat) secret (PDict long_signal_text_tsl) fresh))
  = calls (after_close flat long_signal_text_tsl) /\
  exists more,
    calls (after_close flat long_signal_text_tsl)
    = calls fresh ++ futures_position_information "BTCUSDT" :: more.
Proof.
  apply (unparseable_tsl_rejected_after_close (exchange flat) secret
           long_signal_text_tsl "BTCUSDT" "LONG" fresh NoPositionToClose
           (after_close flat long_signal_text_tsl) 10 100 (PStr "tight")
           (CouldNotConvertToFloat "tight")).
  - apply long_signal_directional.
  - vm_compute. reflexivity.
  - vm_compute. reflexivity.
  - vm_compute. reflexivity.
  - reflexivity.
  - vm_compute. reflexivity.
Defined.

End Witnesses.

(** ** More on the cache of filters *)

Section Cache.

Variable client : binance_client.
Variable WEBHOOK_SECRET : string.

Lemma invoke_keeps_entries c : keeps_entries (invoke client c).
Proof. intros s k info H. exact H. Qed.

Lemma keeps_entries_bind {A B} (m : M A) (k : A -> M B) :
  keeps_entries m -> (forall a, keeps_entries (k a)) -> keeps_entries (bind m k).
Proof.
  intros Hm Hk s key info H. unfold bind. specialize (Hm s key info H).
  destruct (m s) as [[a | e] s1]; simpl in Hm.
  - now apply Hk.
  - exact Hm.
Qed.

Lemma keeps_entries_attempt {A} (m : M A) : keeps_entries m -> keeps_entries (attempt m).
Proof. intros Hm s key info H. rewrite attempt_run. now apply Hm. Qed.

Lemma keeps_cache_entries {A} (m : M A) : keeps_cache m -> keeps_entries m.
Proof. intros Hm s key info H. now rewrite Hm. Qed.

Lemma touches_bind {A B} symbol (m : M A) (k : A -> M B) :
  touches symbol m -> (forall a, touches symbol (k a)) -> touches symbol (bind m k).
Proof.
  intros Hm Hk s key Hne. unfold bind. specialize (Hm s key Hne).
  destruct (m s) as [[a | e] s1]; simpl in Hm.
  - now rewrite Hk.
  - exact Hm.
Qed.

Lemma touches_attempt {A} symbol (m : M A) : touches symbol m -> touches symbol (attempt m).
Proof. intros Hm s key Hne. rewrite attempt_run. now apply Hm. Qed.

Lemma touches_cache_store symbol info : touches symbol (cache_store symbol info).
Proof. intros s key Hne. simpl. now rewrite lookup_insert_ne. Qed.

Ltac touches_step :=
  match goal with
  | |- touches _ (bind _ _) => apply touches_bind; [ | intros ? ]
  | |- touches _ (attempt _) => apply touches_attempt
  | |- touches _ (cache_store _ _) => apply touches_cache_store
  | |- touches _ (match ?x with _ => _ end) => destruct x
  | |- touches _ _ => intros ? ? ?; reflexivity
  end.

Lemma find_symbol_touches symbol symbols : touches symbol (find_symbol symbol symbols).
Proof.
  induction symbols as [| entry rest IH]; cbn [find_symbol].
  - intros s key Hne. reflexivity.
  - apply touches_bind; [ intros ? ? ?; reflexivity | intros name ].
    destruct (eq_str name symbol); [ | exact IH ].
    repeat touches_step.
Qed.

(** The fetch of [get_symbol_info], run on a miss, keeps the entries that
    are there: it stores nothing but the entry of [symbol]. *)
Lemma get_symbol_info_entries symbol : keeps_entries (get_symbol_info client symbol).
Proof.
  intros s key info Hkey. unfold get_symbol_info.
  unfold bind at 1. unfold cache_has at 1.
  destruct (bool_decide (is_Some (symbol_info_cache s !! symbol))) eqn:Hcached.
  - revert s key info Hkey Hcached.
    assert (H : keeps_entries (A := option symbol_info)
                  (fetched <- ret (Ok tt);;
                   match fetched with
                   | Ok _ => info <- cache_read symbol;; ret (Some info)
                   | Raise (BinanceAPIException code msg) =>
                       logging ERROR (FiltersError symbol (BinanceAPIException code msg));;
                       ret None
                   | Raise e => raise e
                   end)).
    { apply keeps_cache_entries. intros s. unfold bind, ret, cache_read. simpl.
      destruct (symbol_info_cache s !! symbol); reflexivity. }
    intros s key info Hkey _. now apply H.
  - apply bool_decide_eq_false in Hcached.
    assert (Hne : key <> symbol).
    { intros ->. apply Hcached. eauto. }
    assert (H : touches (A := option symbol_info) symbol
                  (fetched <- attempt
                     (logging INFO (FetchingFilters symbol);;
                      exchange_info <- invoke client futures_exchange_info;;
                      symbols <- lift (v <~ getitem exchange_info "symbols"; py_iter v);;
                      find_symbol symbol symbols);;
                   match fetched with
                   | Ok _ => info <- cache_read symbol;; ret (Some info)
                   | Raise (BinanceAPIException code msg) =>
                       logging ERROR (FiltersError symbol (BinanceAPIException code msg));;
                       ret None
                   | Raise e => raise e
                   end)).
    { apply touches_bind.
      - apply touches_attempt. repeat first [ apply find_symbol_touches | touches_step ].
      - intros fetched. destruct fetched as [[] | e].
        + apply touches_bind; [ | intros ?; intros ? ? ?; reflexivity ].
          intros s0 k0 _. unfold cache_read.
          destruct (symbol_info_cache s0 !! symbol); reflexivity.
        + destruct e; repeat touches_step. }
    cbv beta iota. rewrite (H s key Hne). exact Hkey.
Qed.

Ltac keeps_entries_step :=
  match goal with
  | |- keeps_entries (bind _ _) => apply keeps_entries_bind; [ | intros ? ]
  | |- keeps_entries (attempt _) => apply keeps_entries_attempt
  | |- keeps_entries (get_symbol_info _ _) => apply get_symbol_info_entries
  | |- keeps_entries (match ?x with _ => _ end) => destruct x
  | |- keeps_entries (let '(_, _) := ?x in _) => destruct x
  | |- keeps_entries _ => intros ? ? ? ?; assumption
  end.

(** What [get_symbol_info] returns is what the cache holds afterwards. *)
Lemma get_symbol_info_cached symbol s info s' :
  get_symbol_info client symbol s = (Ok (Some info), s') ->
  symbol_info_cache s' !! symbol = Some info.
Proof.
  unfold get_symbol_info. intros H.
  apply bind_inv in H as [(cached & sa & _ & H) | (e & _ & [=])].
  apply bind_inv in H as [(fetched & sb & _ & H) | (e & _ & [=])].
  destruct fetched as [[] | e].
  - apply bind_inv in H as [(found & sc & Hread & H) | (e & _ & [=])].
    unfold cache_read in Hread.
    destruct (symbol_info_cache sb !! symbol) as [cached_info |] eqn:Hsb; [ | discriminate ].
    inversion Hread; subst. inversion H; subst. exact Hsb.
  - destruct e; discriminate H.
Qed.

(** A symbol that is cached is answered from the cache: no call, no log
    entry, the state as it was. *)
Lemma get_symbol_info_hit symbol s info :
  symbol_info_cache s !! symbol = Some info ->
  get_symbol_info client symbol s = (Ok (Some info), s).
Proof.
  intros Hcached. unfold get_symbol_info, bind, cache_has, ret, cache_read.
  rewrite Hcached. rewrite bool_decide_eq_true_2 by eauto. cbn. now rewrite Hcached.
Qed.

(** X1. The filters of a symbol are fetched once.  After [get_symbol_info]
    has returned the filters of a symbol, every later call for that symbol,
    in any state that still holds the entry, returns the same filters
    without calling the exchange and leaves the state as it is. *)
Theorem get_symbol_info_fetches_once symbol s info s' later :
  get_symbol_info client symbol s = (Ok (Some info), s') ->
  symbol_info_cache later !! symbol = symbol_info_cache s' !! symbol ->
  get_symbol_info client symbol later = (Ok (Some info), later).
Proof.
  intros Hfirst Hsame. apply get_symbol_info_hit.
  rewrite Hsame. exact (get_symbol_info_cached _ _ _ _ Hfirst).
Qed.

(** X2. The cache never loses or changes an entry: whatever the request
    and whatever the exchange answers, every symbol that is cached before
    [webhook] runs is cached with the same filters afterwards. *)
Theorem webhook_keeps_cached_filters data s symbol info :
  symbol_info_cache s !! symbol = Some info ->
  symbol_info_cache (snd (webhook client WEBHOOK_SECRET data s)) !! symbol = Some info.
Proof.
  revert s symbol info. change (keeps_entries (webhook client WEBHOOK_SECRET data)).
  unfold webhook, directional_branch, open_handlers, open_position, prepare_order,
    submit_order, adjust_quantity, close_position_for_symbol, close_handlers.
  repeat keeps_entries_step.
Qed.

End Cache.

(** ** More on the fetch of the filters *)

Lemma next_filter_missing kind field filters :
  Forall (other_filter kind) filters ->
  next_filter kind field filters = Raise StopIteration.
Proof.
  induction 1 as [| f filters (t & Ht & Hne) _ IH]; [ reflexivity | ].
  cbn [next_filter]. rewrite Ht. cbn [and_then]. now rewrite Hne.
Qed.

Section Fetch.

Variable client : binance_client.
Variable WEBHOOK_SECRET : string.

(** The loop skips the entries of other symbols. *)
Lemma find_symbol_skips symbol before rest s :
  Forall (other_symbol symbol) before ->
  find_symbol symbol (before ++ rest) s = find_symbol symbol rest s.
Proof.
  induction 1 as [| entry before (name & Hname & Hne) _ IH]; [ reflexivity | ].
  cbn [app find_symbol]. unfold bind at 1, lift at 1. now rewrite Hname, Hne.
Qed.

(** The run of [get_symbol_info] on a miss, up to the loop. *)
Lemma get_symbol_info_miss symbol s reply entries :
  symbol_info_cache s !! symbol = None ->
  client (calls s) futures_exchange_info = Ok reply ->
  (v <~ getitem reply "symbols"; py_iter v) = Ok entries ->
  get_symbol_info client symbol s
  = (fetched <- attempt (find_symbol symbol entries);;
     match fetched with
     | Ok _ => info <- cache_read symbol;; ret (Some info)
     | Raise (BinanceAPIException code msg) =>
         logging ERROR (FiltersError symbol (BinanceAPIException code msg));;
         ret None
     | Raise e => raise e
     end)
      {| calls := calls s ++ [futures_exchange_info];
         symbol_info_cache := symbol_info_cache s;
         log := log s ++ [(INFO, FetchingFilters symbol)] |}.
Proof.
  intros Hcache Hreply Hentries.
  unfold get_symbol_info, bind, cache_has, attempt, invoke, logging, lift.
  rewrite Hcache. rewrite bool_decide_eq_false_2 by (intros [? [=]]).
  cbn [calls symbol_info_cache log fst snd]. now rewrite Hreply, Hentries.
Qed.

(** X3. On a miss, [get_symbol_info] takes the filters from the first
    entry of the instrument list whose symbol is the one asked for: the tick
    size of its PRICE_FILTER, the step size and the minimum quantity of its
    LOT_SIZE.  It returns them, stores them under the symbol, and has made
    one call, the instrument list. *)
Theorem get_symbol_info_reads_filters symbol s reply before entry after name tick step minq :
  symbol_info_cache s !! symbol = None ->
  client (calls s) futures_exchange_info = Ok reply ->
  (v <~ getitem reply "symbols"; py_iter v) = Ok (before ++ entry :: after) ->
  Forall (other_symbol symbol) before ->
  getitem entry "symbol" = Ok name ->
  eq_str name symbol = true ->
  filter_value entry "PRICE_FILTER" "tickSize" = Ok tick ->
  filter_value entry "LOT_SIZE" "stepSize" = Ok step ->
  filter_value entry "LOT_SIZE" "minQty" = Ok minq ->
  get_symbol_info client symbol s
  = (Ok (Some {| tickSize := tick; stepSize := step; minQty := minq |}),
     {| calls := calls s ++ [futures_exchange_info];
        symbol_info_cache :=
          <[symbol := {| tickSize := tick; stepSize := step; minQty := minq |}]>
            (symbol_info_cache s);
        log := log s ++ [(INFO, FetchingFilters symbol)] |}).
Proof.
  intros Hcache Hreply Hentries Hbefore Hname Heq Htick Hstep Hmin.
  rewrite (get_symbol_info_miss _ _ _ _ Hcache Hreply Hentries).
  rewrite bind_attempt, (find_symbol_skips _ _ _ _ Hbefore).
  cbn [find_symbol]. unfold bind, lift, cache_store, cache_read, ret.
  rewrite Hname, Heq, Htick, Hstep, Hmin. cbn [fst snd symbol_info_cache].
  now rewrite lookup_insert_eq.
Qed.

(** The same run when the entry of the symbol has no LOT_SIZE filter. *)
Lemma get_symbol_info_without_lot symbol s reply before entry after name tick raw filters :
  symbol_info_cache s !! symbol = None ->
  client (calls s) futures_exchange_info = Ok reply ->
  (v <~ getitem reply "symbols"; py_iter v) = Ok (before ++ entry :: after) ->
  Forall (other_symbol symbol) before ->
  getitem entry "symbol" = Ok name ->
  eq_str name symbol = true ->
  filter_value entry "PRICE_FILTER" "tickSize" = Ok tick ->
  getitem entry "filters" = Ok raw ->
  py_iter raw = Ok filters ->
  Forall (other_filter "LOT_SIZE") filters ->
  get_symbol_info client symbol s
  = (Raise StopIteration,
     {| calls := calls s ++ [futures_exchange_info];
        symbol_info_cache := symbol_info_cache s;
        log := log s ++ [(INFO, FetchingFilters symbol)] |}).
Proof.
  intros Hcache Hreply Hentries Hbefore Hname Heq Htick Hraw Hiter Hlot.
  assert (Hstep : filter_value entry "LOT_SIZE" "stepSize" = Raise StopIteration).
  { unfold filter_value. rewrite Hraw. cbn [and_then]. rewrite Hiter. cbn [and_then].
    now rewrite (next_filter_missing _ _ _ Hlot). }
  rewrite (get_symbol_info_miss _ _ _ _ Hcache Hreply Hentries).
  rewrite bind_attempt, (find_symbol_skips _ _ _ _ Hbefore).
  cbn [find_symbol]. unfold bind, lift, raise.
  now rewrite Hname, Heq, Htick, Hstep.
Qed.

(** X4. When the entry of the symbol in the instrument list has no
    LOT_SIZE filter, the search for the step size runs out
    ([StopIteration]): nothing is cached, the directional request is
    answered with the status 500 (not with the 400 of a symbol that is not
    listed), and the instrument list is its last call. *)
Theorem missing_lot_size_answers_500 items symbol action s detail s1 fields
    reply before entry after name tick raw filters :
  directional WEBHOOK_SECRET items symbol action ->
  close_position_for_symbol client symbol (received items s) = (Ok (true, detail), s1) ->
  open_fields items = Ok fields ->
  symbol_info_cache s1 !! symbol = None ->
  client (calls s1) futures_exchange_info = Ok reply ->
  (v <~ getitem reply "symbols"; py_iter v) = Ok (before ++ entry :: after) ->
  Forall (other_symbol symbol) before ->
  getitem entry "symbol" = Ok name ->
  eq_str name symbol = true ->
  filter_value entry "PRICE_FILTER" "tickSize" = Ok tick ->
  getitem entry "filters" = Ok raw ->
  py_iter raw = Ok filters ->
  Forall (other_filter "LOT_SIZE") filters ->
  webhook client WEBHOOK_SECRET (PDict items) s
  = (Ok {| payload := Error (ExceptionText StopIteration); status_code := 500 |},
     {| calls := calls s1 ++ [futures_exchange_info];
        symbol_info_cache := symbol_info_cache s1;
        log := log s1 ++ [(INFO, FetchingFilters symbol);
                          (ERROR, OpenUnexpectedError StopIteration)] |}).
Proof.
  intros Hdir Hclose Hfields Hcache Hreply Hentries Hbefore Hname Heq Htick Hraw Hiter Hlot.
  pose proof (get_symbol_info_without_lot _ _ _ _ _ _ _ _ _ _ Hcache Hreply Hentries
                Hbefore Hname Heq Htick Hraw Hiter Hlot) as Hinfo.
  rewrite (webhook_directional _ _ _ _ _ _ Hdir).
  rewrite (directional_close_succeeded _ _ _ _ _ _ _ Hclose).
  rewrite (open_position_raised _ _ _ _ _ _ _
             (prepare_order_info_raised _ _ _ _ _ _ _ _ Hfields Hinfo)).
  cbn [fst snd]. unfold open_handlers, bind, logging, respond, ret. cbn.
  now rewrite <- app_assoc.
Qed.

End Fetch.

(** ** More on the close step *)

Section CloseStep.

Variable client : binance_client.
Variable WEBHOOK_SECRET : string.

(** X5. The close step never raises and never retries.  It returns a
    verdict, and its calls are the position query, then at most one
    cancellation of the open orders, then at most one market order, all for
    its symbol; it leaves the cache of filters as it is.  It reports "no
    position" only after the query alone, an order id only after the market
    order, and failure exactly with the text of an exception. *)
Theorem close_position_shape symbol s :
  exists success detail,
    fst (close_position_for_symbol client symbol s) = Ok (success, detail) /\
    symbol_info_cache (snd (close_position_for_symbol client symbol s))
    = symbol_info_cache s /\
    (calls (snd (close_position_for_symbol client symbol s))
     = calls s ++ [futures_position_information symbol] \/
     calls (snd (close_position_for_symbol client symbol s))
     = calls s ++ [futures_position_information symbol;
                   futures_cancel_all_open_orders symbol] \/
     exists sd quantity,
       calls (snd (close_position_for_symbol client symbol s))
       = calls s ++ [futures_position_information symbol;
                     futures_cancel_all_open_orders symbol;
                     futures_create_order symbol sd MARKET quantity None None]) /\
    (detail = NoPositionToClose ->
     calls (snd (close_position_for_symbol client symbol s))
     = calls s ++ [futures_position_information symbol]) /\
    (forall orderId,
       detail = ClosedBy orderId ->
       exists sd quantity,
         calls (snd (close_position_for_symbol client symbol s))
         = calls s ++ [futures_position_information symbol;
                       futures_cancel_all_open_orders symbol;
                       futures_create_order symbol sd MARKET quantity None None]) /\
    (success = false <-> exists e, detail = ErrorText e).
Proof.
  unfold close_position_for_symbol, close_handlers.
  cbv [bind invoke lift logging ret attempt].
  repeat (cbn [fst snd calls symbol_info_cache log];
          match goal with
          | |- context [match ?x with _ => _ end] =>
              lazymatch x with
              | context [match _ with _ => _ end] => fail
              | _ => destruct x eqn:?
              end
          end);
    cbn [fst snd calls symbol_info_cache log];
    do 2 eexists; (split; [ reflexivity | ]); (split; [ reflexivity | ]);
    rewrite <- ?app_assoc; cbn [app];
    (split; [ eauto 6 | ]);
    (split; [ intros [=]; reflexivity | ]);
    (split; [ intros ? [=]; eauto | ]);
    (split; [ intros [=]; eauto | intros [? [=]]; reflexivity ]).
Qed.

(** X6. When the close step has found a position and cancelled the open
    orders, and the exchange refuses the closing market order, the verdict
    depends on the code: a [BinanceAPIException] with the code -2022 (the
    position is likely closed already) is reported as success, every other
    exception as failure with its text.  The refused order is the last call
    either way. *)
Theorem refused_closing_order symbol s positions entries position amount reply e :
  client (calls s) (futures_position_information symbol) = Ok positions ->
  py_iter positions = Ok entries ->
  next_position symbol entries = Ok position ->
  position <> PNone ->
  (amt <~ getitem position "positionAmt"; Float.of_pyval amt) = Ok amount ->
  client (calls s ++ [futures_position_information symbol])
    (futures_cancel_all_open_orders symbol) = Ok reply ->
  client (calls s ++ [futures_position_information symbol;
                      futures_cancel_all_open_orders symbol])
    (futures_create_order symbol (if (0 <? amount)%float then SELL else BUY) MARKET
       (abs amount) None None) = Raise e ->
  fst (close_position_for_symbol client symbol s)
  = Ok (match e with
        | BinanceAPIException code _ =>
            if code =? -2022 then (true, LikelyAlreadyClosed) else (false, ErrorText e)
        | _ => (false, ErrorText e)
        end) /\
  calls (snd (close_position_for_symbol client symbol s))
  = calls s ++ [futures_position_information symbol;
                futures_cancel_all_open_orders symbol;
                futures_create_order symbol (if (0 <? amount)%float then SELL else BUY)
                  MARKET (abs amount) None None].
Proof.
  intros Hquery Hiter Hnext Hsome Hamount Hcancel Horder.
  destruct (next_position_found _ _ _ Hnext Hsome) as (Htruthy & _).
  rewrite (close_position_open _ _ _ _ _ _ _ Hquery Hiter Hnext Htruthy Hamount).
  cbv zeta. rewrite bind_attempt.
  cbv [bind invoke lift logging ret]. cbn [calls]. rewrite Hcancel. cbn [calls].
  rewrite <- !app_assoc. cbn [app]. rewrite Horder. cbn [fst snd].
  destruct e as [ | | | | | | | code msg | ]; cbn; try (split; reflexivity).
  destruct (code =? -2022); cbn; split; reflexivity.
Qed.

(** X7. A CLOSE request runs the close step and nothing else: the state
    it leaves is the state the close step leaves, so that it never fetches
    the instrument list, changes the leverage or reads the mark price.  It
    is answered with the status 200 and the close step's detail when the
    verdict is success, and with the status 500 and that detail
    otherwise. *)
Theorem close_request items symbol s :
  authorized WEBHOOK_SECRET items = true ->
  required_fields (PDict items) = Ok (symbol, "CLOSE"%string) ->
  exists success detail,
    fst (close_position_for_symbol client symbol (received items s)) = Ok (success, detail) /\
    webhook client WEBHOOK_SECRET (PDict items) s
    = (Ok (if success
           then {| payload := CloseProcessed symbol detail; status_code := 200 |}
           else {| payload := Error (CloseDetail detail); status_code := 500 |}),
       snd (close_position_for_symbol client symbol (received items s))).
Proof.
  intros Hauth Hfields.
  destruct (close_position_returns client symbol (received items s)) as [[success detail] Hret].
  exists success, detail. split; [ exact Hret | ].
  unfold webhook. erewrite bind_ok by reflexivity. cbv beta.
  rewrite Hauth. change (negb true) with false. cbv iota.
  rewrite bind_attempt. unfold lift. cbn [fst snd]. rewrite Hfields. cbv iota beta.
  change (String.eqb "CLOSE" "CLOSE") with true. cbv iota.
  unfold bind. unfold received, logging in *. cbn [snd] in *.
  destruct (close_position_for_symbol client symbol _) as [r s1].
  simpl in Hret. subst r. now destruct success.
Qed.

End CloseStep.

(** ** More on the handler as a whole *)

(** [required_fields] raises for a missing key, or for a symbol or a side
    that is not a string. *)
Lemma required_fields_raises items e :
  required_fields (PDict items) = Raise e ->
  (e = KeyError "symbol" /\ dict_get "symbol" items = None) \/
  (e = KeyError "side" /\ dict_get "side" items = None) \/
  (e = AttributeError /\
   ((exists v, dict_get "symbol" items = Some v /\ forall text, v <> PStr text) \/
    (exists v, dict_get "side" items = Some v /\ forall text, v <> PStr text))).
Proof.
  unfold required_fields, getitem.
  destruct (dict_get "symbol" items) as [v |] eqn:Hsymbol; cbn [and_then].
  - destruct v; cbn [py_upper and_then];
      try (intros [= <-]; right; right; split; [ reflexivity | left ];
           eexists; split; [ reflexivity | discriminate ]).
    destruct (dict_get "side" items) as [w |] eqn:Hside; cbn [and_then].
    + destruct w; cbn [py_upper and_then];
        try (intros [= <-]; right; right; split; [ reflexivity | right ];
             eexists; split; [ reflexivity | discriminate ]).
      discriminate.
    + intros [= <-]. right; left. now split.
  - intros [= <-]. left. now split.
Qed.

(** What [required_fields] returns is in upper case, from two strings. *)
Lemma required_fields_returns items symbol action :
  required_fields (PDict items) = Ok (symbol, action) ->
  exists raw_symbol raw_side,
    dict_get "symbol" items = Some (PStr raw_symbol) /\ symbol = upper raw_symbol /\
    dict_get "side" items = Some (PStr raw_side) /\ action = upper raw_side.
Proof.
  unfold required_fields, getitem.
  destruct (dict_get "symbol" items) as [v |]; cbn [and_then]; [ | discriminate ].
  destruct v; cbn [py_upper and_then]; try discriminate.
  destruct (dict_get "side" items) as [w |]; cbn [and_then]; [ | discriminate ].
  destruct w; cbn [py_upper and_then]; try discriminate.
  intros [= <- <-]. eauto 6.
Qed.

Section Handler.

Variable client : binance_client.
Variable WEBHOOK_SECRET : string.

Lemma issues_bind_when {A B} P (m : M A) (k : A -> M B) :
  issues P m ->
  (forall a, (exists s, fst (m s) = Ok a) -> issues P (k a)) ->
  issues P (bind m k).
Proof.
  intros Hm Hk s. unfold bind.
  destruct (Hm s) as (new1 & E1 & F1).
  destruct (m s) as [[a | e] s1] eqn:Hrun; simpl in E1.
  - assert (Ha : exists s0, fst (m s0) = Ok a) by (exists s; now rewrite Hrun).
    destruct (Hk a Ha s1) as (new2 & E2 & F2).
    exists (new1 ++ new2). split.
    + now rewrite E2, E1, app_assoc.
    + now apply Forall_app.
  - exists new1. now split.
Qed.

Lemma close_position_about symbol :
  issues (about symbol) (close_position_for_symbol client symbol).
Proof.
  unfold close_position_for_symbol, close_handlers.
  repeat first [ reflexivity | issues_step ].
Qed.

Lemma open_position_about items symbol action :
  issues (about symbol) (open_position client items symbol action).
Proof.
  unfold open_position, prepare_order, submit_order, entry_order, trailing_stop_order.
  repeat first
    [ apply get_symbol_info_issues; exact I | apply adjust_quantity_issues
    | reflexivity | issues_step ].
Qed.

(** X8. Every call that a request makes names the request's symbol, in
    upper case: the handler never queries, cancels, sets the leverage of or
    orders another symbol (the instrument list names none). *)
Theorem calls_name_the_symbol items symbol action s :
  required_fields (PDict items) = Ok (symbol, action) ->
  (exists raw, dict_get "symbol" items = Some (PStr raw) /\ symbol = upper raw) /\
  exists new,
    calls (snd (webhook client WEBHOOK_SECRET (PDict items) s)) = calls s ++ new /\
    Forall (about symbol) new.
Proof.
  intros Hfields. split.
  { destruct (required_fields_returns _ _ _ Hfields) as (raw & _ & Hraw & -> & _). eauto. }
  revert s. change (issues (about symbol) (webhook client WEBHOOK_SECRET (PDict items))).
  unfold webhook. apply issues_bind; [ apply issues_logging | intros _ ].
  destruct (negb _); [ repeat issues_step | ].
  apply issues_bind_when; [ apply issues_attempt, issues_lift | ].
  intros fields [s Hrun]. rewrite attempt_run in Hrun. unfold lift in Hrun.
  cbn [fst] in Hrun. rewrite Hfields in Hrun. injection Hrun as <-.
  destruct (String.eqb action "CLOSE").
  - apply issues_bind; [ apply close_position_about | intros [[|] detail] ];
      apply issues_ret.
  - destruct (in_list action _); [ | apply issues_ret ].
    unfold directional_branch.
    apply issues_bind; [ apply close_position_about | intros [[|] detail] ]; cbn [negb].
    + apply issues_bind; [ apply issues_attempt, open_position_about | intros opened ].
      apply open_handlers_issues.
    + repeat issues_step.
Qed.

Lemma open_handlers_returns opened s :
  exists r, fst (open_handlers opened s) = Ok r.
Proof. destruct opened as [r | []]; cbn; eauto. Qed.

Lemma directional_branch_returns items symbol action s :
  exists r, fst (directional_branch client items symbol action s) = Ok r.
Proof.
  unfold directional_branch, bind.
  destruct (close_position_returns client symbol s) as [[success detail] Hret].
  destruct (close_position_for_symbol client symbol s) as [closed s1].
  simpl in Hret. subst closed. destruct success; cbn [negb].
  - rewrite attempt_run. apply open_handlers_returns.
  - cbn. eauto.
Qed.

(** X9. The handler answers every request but one kind: an exception
    leaves [webhook] only for an authorized JSON object whose [symbol] or
    [side] is present and is not a string; the exception is the
    [AttributeError] of [.upper()], and no call has been made. *)
Theorem handler_raises_only_attribute_error data s e :
  fst (webhook client WEBHOOK_SECRET data s) = Raise e ->
  e = AttributeError /\
  calls (snd (webhook client WEBHOOK_SECRET data s)) = calls s /\
  exists items,
    data = PDict items /\
    authorized WEBHOOK_SECRET items = true /\
    ((exists v, dict_get "symbol" items = Some v /\ forall text, v <> PStr text) \/
     (exists v, dict_get "side" items = Some v /\ forall text, v <> PStr text)).
Proof.
  destruct data as [ | | | | | | items]; try discriminate.
  unfold webhook. erewrite bind_ok by reflexivity. cbv beta.
  destruct (authorized WEBHOOK_SECRET items) eqn:Hauth; cbn [negb]; [ | discriminate ].
  rewrite bind_attempt. unfold lift. cbn [fst snd].
  destruct (required_fields (PDict items)) as [[symbol action] | e'] eqn:Hfields.
  - destruct (String.eqb action "CLOSE").
    + unfold bind.
      match goal with
      | |- context [close_position_for_symbol client symbol ?s0] =>
          destruct (close_position_returns client symbol s0) as [[success detail] Hret];
          destruct (close_position_for_symbol client symbol s0) as [closed s1]
      end.
      simpl in Hret. subst closed. destruct success; discriminate.
    + destruct (in_list action _); [ | discriminate ].
      match goal with
      | |- context [directional_branch client items symbol action ?s0] =>
          destruct (directional_branch_returns items symbol action s0) as [r Hret]
      end.
      rewrite Hret. discriminate.
  - destruct (required_fields_raises _ _ Hfields)
      as [(-> & _) | [(-> & _) | (-> & Hfield)]]; try discriminate.
    intros [= <-]. repeat split. exists items. auto.
Qed.

End Handler.

(** ** What the handler answers *)

Section Answers.

Variable client : binance_client.
Variable WEBHOOK_SECRET : string.

Lemma answers_ret {A} (Q : A -> Prop) a : Q a -> answers Q (ret a).
Proof. intros H s b [= <-]. exact H. Qed.

Lemma answers_raise {A} (Q : A -> Prop) e : answers Q (raise e).
Proof. intros s a [=]. Qed.

Lemma answers_respond (Q : response -> Prop) b code :
  Q {| payload := b; status_code := code |} -> answers Q (respond b code).
Proof. apply answers_ret. Qed.

Lemma answers_bind_with {A B} (R : A -> Prop) (Q : B -> Prop) (m : M A) (k : A -> M B) :
  answers R m -> (forall a, R a -> answers Q (k a)) -> answers Q (bind m k).
Proof.
  intros Hm Hk s b. unfold bind. specialize (Hm s).
  destruct (m s) as [[a | e] s1]; [ | discriminate ].
  apply Hk. now apply Hm.
Qed.

Lemma answers_bind {A B} (Q : B -> Prop) (m : M A) (k : A -> M B) :
  (forall a, answers Q (k a)) -> answers Q (bind m k).
Proof.
  intros Hk. apply answers_bind_with with (R := fun _ => True); [ easy | auto ].
Qed.

Lemma answers_attempt {A} (Q : A -> Prop) (m : M A) :
  answers Q m ->
  answers (fun r => match r with Ok a => Q a | Raise _ => True end) (attempt m).
Proof.
  intros Hm s r. rewrite attempt_run. cbn [fst]. intros [= <-].
  specialize (Hm s). destruct (fst (m s)); auto.
Qed.

Lemma answers_bind_respond {B} (Q : B -> Prop) b code (k : response -> M B) :
  answers Q (k {| payload := b; status_code := code |}) ->
  answers Q (bind (respond b code) k).
Proof. intros H s a. exact (H s a). Qed.

Ltac answers_step :=
  match goal with
  | |- answers _ (bind (respond _ _) _) => apply answers_bind_respond
  | |- answers _ (bind _ _) => apply answers_bind; intros ?
  | |- answers _ (ret _) => apply answers_ret
  | |- answers _ (respond _ _) => apply answers_respond
  | |- answers _ (raise _) => apply answers_raise
  | |- answers _ (match ?x with _ => _ end) => destruct x
  | |- answers _ (let '(_, _) := ?x in _) => destruct x
  end.

Lemma close_position_verdict symbol :
  answers verdict (close_position_for_symbol client symbol).
Proof.
  unfold close_position_for_symbol.
  eapply answers_bind_with.
  - apply answers_attempt with (Q := verdict). repeat first [ exact I | answers_step ].
  - intros [returned | e] Hreturned; unfold close_handlers.
    + now apply answers_ret.
    + destruct e; repeat first [ exact I | answers_step ].
Qed.

Lemma prepare_order_accounted items symbol action :
  answers (fun prepared => match prepared with inl r => accounted r | inr _ => True end)
    (prepare_order client items symbol action).
Proof.
  unfold prepare_order. repeat first [ exact I | reflexivity | answers_step ].
Qed.

Lemma open_position_accounted items symbol action :
  answers accounted (open_position client items symbol action).
Proof.
  unfold open_position.
  eapply answers_bind_with; [ apply prepare_order_accounted | ].
  intros [r | [[sd quantity] tsl]] Hr; [ now apply answers_ret | ].
  unfold submit_order. repeat first [ reflexivity | answers_step ].
Qed.

(** X10. Every answer of the handler is accounted for: the status is the
    one that the source pairs with the body (200 for a success, 401 for a
    wrong secret, 400 or 500 for the other errors), a CLOSE request that is
    answered with a success carries no error text and one that is answered
    with an error carries one, the exceptions of the opening that are
    answered with 400 are the [KeyError]s and [ValueError]s, and those
    answered with their text and 500 are all the others. *)
Theorem every_answer_is_accounted data s r :
  fst (webhook client WEBHOOK_SECRET data s) = Ok r -> accounted r.
Proof.
  revert s r. change (answers accounted (webhook client WEBHOOK_SECRET data)).
  unfold webhook.
  destruct data; try (apply answers_respond; reflexivity).
  apply answers_bind; intros _.
  destruct (negb _); [ repeat first [ reflexivity | answers_step ] | ].
  apply answers_bind; intros [[symbol action] | e].
  - destruct (String.eqb action "CLOSE") eqn:Hclose.
    + eapply answers_bind_with; [ apply close_position_verdict | ].
      intros [[|] []] Hverdict; try (destruct Hverdict);
        apply answers_respond; (split; [ reflexivity | ]);
        first [ intros ?; discriminate | eauto ].
    + fold directions. destruct (in_list action directions) eqn:Hdir.
      * unfold directional_branch. apply answers_bind. intros [[|] detail]; cbn [negb].
        -- eapply answers_bind_with;
             [ apply answers_attempt, open_position_accounted | ].
           intros [r | e] Hr; unfold open_handlers; [ now apply answers_ret | ].
           destruct e; repeat answers_step; cbn;
             repeat split; eauto; discriminate.
        -- repeat first [ reflexivity | answers_step ].
      * apply answers_respond. cbn. repeat split; [ | exact Hdir ].
        intros ->. discriminate.
  - destruct e; repeat answers_step; cbn; eauto.
Qed.

End Answers.

(** ** The opening of a position *)

Lemma calls_unchanged {A} (m : M A) :
  issues (fun _ => False) m -> forall s, calls (snd (m s)) = calls s.
Proof.
  intros H s. destruct (H s) as (new & E & F).
  destruct new as [| c new]; [ now rewrite E, app_nil_r | now inversion F ].
Qed.

Lemma open_fields_tsl items leverage usdt_amount tsl :
  open_fields items = Ok (leverage, usdt_amount, tsl) ->
  Float.of_pyval (default (PInt 0) (dict_get "tsl" items)) = Ok tsl.
Proof.
  unfold open_fields.
  destruct (leverage_of items) as [lv |]; [ | discriminate ].
  destruct (usdt_amount_of items) as [uv |]; [ | discriminate ].
  cbn [and_then].
  destruct (Float.of_pyval (default (PInt 0) (dict_get "tsl" items)));
    cbn [and_then]; congruence.
Qed.

Section Sizing.

Variable client : binance_client.
Variable WEBHOOK_SECRET : string.

Lemma invoke_inv c s r s' :
  invoke client c s = (r, s') ->
  client (calls s) c = r /\
  s' = {| calls := calls s ++ [c];
          symbol_info_cache := symbol_info_cache s;
          log := log s |}.
Proof. unfold invoke. intros H. now inversion H. Qed.

(** [get_symbol_info] calls the exchange once on a miss, and not at all
    on a hit, whatever comes of it. *)
Lemma get_symbol_info_calls symbol s :
  calls (snd (get_symbol_info client symbol s))
  = calls s ++ (if bool_decide (is_Some (symbol_info_cache s !! symbol))
                then [] else [futures_exchange_info]).
Proof.
  unfold get_symbol_info.
  rewrite (bind_ok _ _ s (bool_decide (is_Some (symbol_info_cache s !! symbol))) s)
    by reflexivity.
  destruct (bool_decide (is_Some (symbol_info_cache s !! symbol))).
  - rewrite (bind_ok _ _ s (Ok tt) s) by reflexivity.
    unfold bind, cache_read, ret.
    destruct (symbol_info_cache s !! symbol); cbn; now rewrite app_nil_r.
  - rewrite bind_attempt.
    match goal with
    | |- context [snd (?body s)] =>
        assert (Hbody : calls (snd (body s)) = calls s ++ [futures_exchange_info])
    end.
    { unfold bind at 1 2, logging, invoke. cbn [calls symbol_info_cache log].
      destruct (client (calls s) futures_exchange_info) as [reply | e]; [ | reflexivity ].
      unfold bind, lift.
      destruct (v <~ getitem reply "symbols"; py_iter v) as [symbols | e];
        [ | reflexivity ].
      now rewrite (calls_unchanged _ (find_symbol_issues _ symbol symbols)). }
    rewrite <- Hbody.
    destruct (fst _) as [[] | e]; [ | destruct e ];
      apply calls_unchanged; repeat issues_step.
Qed.

(** What [adjust_quantity] returns, and in which state. *)
Lemma adjust_quantity_inv quantity step_size min_qty s r s' :
  adjust_quantity quantity step_size min_qty s = (Ok r, s') ->
  exists precision n formatted,
    Float.neg_log10_round step_size = Ok precision /\
    (scaled <~ float_mul quantity (pow10 precision); Float.floor scaled) = Ok n /\
    int_div n (pow10 precision) = Ok formatted /\
    r = (if (formatted <? min_qty)%float then 0%float else formatted) /\
    s' = (if (formatted <? min_qty)%float
          then snd (logging ERROR (QuantityBelowMinimum formatted min_qty) s)
          else s).
Proof.
  unfold adjust_quantity. intros H.
  apply bind_inv in H as [(precision & sa & Hp & H) | (e & _ & [=])].
  apply lift_inv in Hp as [Hp ->].
  apply bind_inv in H as [(formatted & sb & Hf & H) | (e & _ & [=])].
  apply lift_inv in Hf as [Hf ->].
  exists precision.
  destruct (float_mul quantity (pow10 precision)) as [scaled |]; [ | discriminate ].
  cbn [and_then] in Hf |- *.
  destruct (Float.floor scaled) as [n |]; [ | discriminate ].
  cbn [and_then] in Hf. exists n, formatted.
  repeat (split; [ easy | ]).
  destruct (formatted <? min_qty)%float.
  - unfold bind, logging, ret in H. now inversion H.
  - unfold ret in H. now inversion H.
Qed.

(** X11. The entry order is sized from the cached filters.  When the
    [try] of a directional request reaches the entry order, it has set the
    leverage and then asked for the mark price of the symbol, after the
    instrument list if the symbol was not cached and after nothing else;
    the quantity is [floor (raw * 10^p) / 10^p] for the raw quantity
    [usdt * leverage / markPrice] and the precision [p] of the cached step
    size, and it is neither zero or less nor below the cached minimum. *)
Theorem order_is_sized_from_the_filters items symbol action s1 sd quantity tsl s2 :
  prepare_order client items symbol action s1 = (Ok (inr (sd, quantity, tsl)), s2) ->
  exists leverage usdt_amount info mark mark_price lev raw precision n,
    let fetch := if bool_decide (is_Some (symbol_info_cache s1 !! symbol))
                 then [] else [futures_exchange_info] in
    open_fields items = Ok (leverage, usdt_amount, tsl) /\
    symbol_info_cache s2 !! symbol = Some info /\
    calls s2 = calls s1 ++ fetch
               ++ [futures_change_leverage symbol leverage; futures_mark_price symbol] /\
    client (calls s1 ++ fetch ++ [futures_change_leverage symbol leverage])
      (futures_mark_price symbol) = Ok mark /\
    (v <~ getitem mark "markPrice"; Float.of_pyval v) = Ok mark_price /\
    Float.of_int leverage = Ok lev /\
    Float.truediv (usdt_amount * lev)%float mark_price = Ok raw /\
    Float.neg_log10_round (stepSize info) = Ok precision /\
    (scaled <~ float_mul raw (pow10 precision); Float.floor scaled) = Ok n /\
    int_div n (pow10 precision) = Ok quantity /\
    (quantity <=? 0)%float = false /\
    (quantity <? minQty info)%float = false.
Proof.
  unfold prepare_order. intros H.
  apply bind_inv in H as [(fields & sa & Hf & H) | (e & _ & [=])].
  apply lift_inv in Hf as [Hf ->]. destruct fields as [[leverage usdt_amount] tsl'].
  apply bind_inv in H as [(found & sb & Hinfo & H) | (e & _ & [=])].
  destruct found as [info |]; [ | discriminate H ].
  pose proof (get_symbol_info_calls symbol s1) as Hcalls.
  rewrite Hinfo in Hcalls. cbn [snd] in Hcalls.
  assert (Hcached : symbol_info_cache sb !! symbol = Some info).
  { revert Hinfo. unfold get_symbol_info. intros Hinfo.
    apply bind_inv in Hinfo as [(cached & sx & _ & Hinfo) | (e & _ & [=])].
    apply bind_inv in Hinfo as [(fetched & sy & _ & Hinfo) | (e & _ & [=])].
    destruct fetched as [[] | e]; [ | destruct e; discriminate Hinfo ].
    apply bind_inv in Hinfo as [(read & sz & Hread & Hinfo) | (e & _ & [=])].
    unfold cache_read in Hread.
    destruct (symbol_info_cache sy !! symbol) as [held |] eqn:Hsy; [ | discriminate ].
    inversion Hread; subst. inversion Hinfo; subst. exact Hsy. }
  apply bind_inv in H as [(changed & sc & Hlev & H) | (e & _ & [=])].
  apply invoke_inv in Hlev as [_ ->].
  apply bind_inv in H as [(mark & sd' & Hmark & H) | (e & _ & [=])].
  apply invoke_inv in Hmark as [Hmark ->]. cbn [calls symbol_info_cache log] in *.
  apply bind_inv in H as [(mark_price & se & Hprice & H) | (e & _ & [=])].
  apply lift_inv in Hprice as [Hprice ->].
  apply bind_inv in H as [(raw & sf & Hraw & H) | (e & _ & [=])].
  apply lift_inv in Hraw as [Hraw ->].
  destruct (Float.of_int leverage) as [lev |] eqn:Hof; [ | discriminate ].
  cbn [and_then] in Hraw.
  apply bind_inv in H as [(q & sg & Hq & H) | (e & _ & [=])].
  apply adjust_quantity_inv in Hq
    as (precision & n & formatted & Hp & Hn & Hformatted & Hr & Hs).
  destruct (q <=? 0)%float eqn:Hpositive.
  { apply bind_inv in H as [(? & sh & _ & H) | (e & _ & [=])].
    apply bind_inv in H as [(? & si & _ & H) | (e & _ & [=])].
    discriminate H. }
  unfold ret in H.
  assert (Hsd : sd = (if in_list action ["LONG"; "BUY"]%string then BUY else SELL)
                /\ quantity = q /\ tsl = tsl' /\ s2 = sg) by (now inversion H).
  destruct Hsd as (_ & -> & -> & ->).
  destruct (formatted <? minQty info)%float eqn:Hmin.
  { subst q. discriminate Hpositive. }
  subst q sg. cbn [calls symbol_info_cache].
  exists leverage, usdt_amount, info, mark, mark_price, lev, raw, precision, n.
  cbv zeta. rewrite Hcalls in Hmark |- *. rewrite <- !app_assoc in Hmark |- *.
  cbn [app]. repeat split; auto using app_assoc.
Qed.

(** X12. [adjust_quantity] never calls the exchange and never touches
    the cache.  When it returns, the result is either 0.0, or it is not
    below [min_qty] and the state is as it was; a result of 0.0 for a
    formatted quantity below [min_qty] is logged as an error.  When it
    raises, the state is as it was. *)
Theorem adjust_quantity_contract quantity step_size min_qty s :
  calls (snd (adjust_quantity quantity step_size min_qty s)) = calls s /\
  symbol_info_cache (snd (adjust_quantity quantity step_size min_qty s))
  = symbol_info_cache s /\
  match fst (adjust_quantity quantity step_size min_qty s) with
  | Ok r =>
      (r = 0%float /\
       exists formatted,
         (formatted <? min_qty)%float = true /\
         log (snd (adjust_quantity quantity step_size min_qty s))
         = log s ++ [(ERROR, QuantityBelowMinimum formatted min_qty)]) \/
      ((r <? min_qty)%float = false /\
       snd (adjust_quantity quantity step_size min_qty s) = s)
  | Raise e => snd (adjust_quantity quantity step_size min_qty s) = s
  end.
Proof.
  destruct (adjust_quantity quantity step_size min_qty s) as [[r | e] s'] eqn:Hrun;
    cbn [fst snd].
  - apply adjust_quantity_inv in Hrun
      as (precision & n & formatted & _ & _ & _ & -> & ->).
    destruct (formatted <? min_qty)%float eqn:Hmin.
    + repeat split. left. split; [ reflexivity | ]. now exists formatted.
    + repeat split. right. now split.
  - revert Hrun. unfold adjust_quantity, bind, lift.
    destruct (Float.neg_log10_round step_size) as [precision |];
      [ | intros [= _ <-]; now repeat split ].
    destruct (scaled <~ float_mul quantity (pow10 precision);
              n <~ Float.floor scaled; int_div n (pow10 precision))
      as [formatted |]; [ | intros [= _ <-]; now repeat split ].
    destruct (formatted <? min_qty)%float; discriminate.
Qed.

End Sizing.

(** ** The orders of a request *)

Section Orders.

Variable client : binance_client.
Variable WEBHOOK_SECRET : string.

Lemma close_position_permitted items symbol :
  issues (permitted items) (close_position_for_symbol client symbol).
Proof.
  unfold close_position_for_symbol, close_handlers.
  repeat first [ exact I | split; reflexivity | issues_step ].
Qed.

Lemma prepare_order_permitted items symbol action :
  issues (permitted items) (prepare_order client items symbol action).
Proof.
  unfold prepare_order.
  repeat first
    [ apply get_symbol_info_issues; exact I | apply adjust_quantity_issues
    | exact I | issues_step ].
Qed.

Lemma submit_order_permitted items symbol sd quantity tsl :
  Float.of_pyval (default (PInt 0) (dict_get "tsl" items)) = Ok tsl ->
  issues (permitted items) (submit_order client symbol sd quantity tsl).
Proof.
  intros Htsl. unfold submit_order, entry_order, trailing_stop_order.
  destruct (tsl_in_range tsl) eqn:Hrange;
    repeat first [ split; reflexivity | exists tsl; now repeat split | issues_step ].
Qed.

Lemma open_position_permitted items symbol action :
  issues (permitted items) (open_position client items symbol action).
Proof.
  unfold open_position.
  apply issues_bind_when; [ apply prepare_order_permitted | ].
  intros [r | [[sd quantity] tsl]] [s Hrun]; [ apply issues_ret | ].
  destruct (prepare_order client items symbol action s) as [prepared s2] eqn:Hprep.
  cbn [fst] in Hrun. subst prepared.
  destruct (prepare_order_submits _ _ _ _ _ _ _ _ _ Hprep)
    as (_ & (leverage & usdt_amount & Hfields) & _).
  apply submit_order_permitted. exact (open_fields_tsl _ _ _ _ Hfields).
Qed.

(** X13. Whatever the exchange answers, the orders of a request are of
    two kinds: market orders, which carry neither a callback rate nor a
    working type, and trailing stops, whose callback rate is the [tsl] of
    the request, a number between 0.1 and 5, and which work on the mark
    price.  A request without [tsl], or whose [tsl] is no number or lies
    outside the range, sends no trailing stop. *)
Theorem orders_are_permitted items s :
  exists new,
    calls (snd (webhook client WEBHOOK_SECRET (PDict items) s)) = calls s ++ new /\
    Forall (permitted items) new /\
    ((forall tsl,
        Float.of_pyval (default (PInt 0) (dict_get "tsl" items)) = Ok tsl ->
        tsl_in_range tsl = false) ->
     Forall (fun c => is_trailing_stop c = false) new) /\
    (dict_get "tsl" items = None ->
     Forall (fun c => is_trailing_stop c = false) new).
Proof.
  assert (H : issues (permitted items) (webhook client WEBHOOK_SECRET (PDict items))).
  { unfold webhook, directional_branch.
    repeat first
      [ apply close_position_permitted | apply open_position_permitted
      | apply open_handlers_issues | issues_step ]. }
  destruct (H s) as (new & Hnew & Hall). exists new.
  assert (Hnone : (forall tsl,
                     Float.of_pyval (default (PInt 0) (dict_get "tsl" items)) = Ok tsl ->
                     tsl_in_range tsl = false) ->
                  Forall (fun c => is_trailing_stop c = false) new).
  { intros Hout. eapply Forall_impl; [ | exact Hall ].
    intros [ | | | | | sym sd [] q rate working]; try reflexivity.
    intros (tsl & Htsl & Hrange & _). rewrite (Hout tsl Htsl) in Hrange. discriminate. }
  repeat split; auto.
  intros Habsent. apply Hnone. rewrite Habsent. cbn [default].
  intros tsl [= <-]. reflexivity.
Qed.

(** X14. The calls of the opening follow one script, whatever the
    exchange answers: the instrument list if the symbol is not cached,
    then the leverage, the mark price, the entry order and the trailing
    stop, each at most once and in this order, the two orders for the same
    quantity and on opposing sides, with the leverage and the percent of
    the request.  The opening stops somewhere along the script; it never
    skips a step to reach a later one. *)
Theorem opening_follows_the_script items symbol action s1 :
  exists new leverage quantity tsl,
    calls (snd (open_position client items symbol action s1)) = calls s1 ++ new /\
    new `prefix_of`
      opening_script (bool_decide (is_Some (symbol_info_cache s1 !! symbol)))
        symbol leverage (if in_list action ["LONG"; "BUY"]%string then BUY else SELL)
        quantity tsl /\
    (forall l u t, open_fields items = Ok (l, u, t) -> leverage = l /\ tsl = t).
Proof.
  unfold open_position, prepare_order, opening_script.
  unfold bind at 1 2. unfold lift at 1.
  destruct (open_fields items) as [[[leverage usdt_amount] tsl] | e].
  2:{ exists [], 0, 0%float, 0%float. cbn [snd]. split; [ now rewrite app_nil_r | ].
      split; [ apply prefix_nil | discriminate ]. }
  unfold bind at 1.
  pose proof (get_symbol_info_calls client symbol s1) as Hfetch.
  destruct (get_symbol_info client symbol s1) as [found sa]. cbn [snd] in Hfetch.
  set (fetch := if bool_decide (is_Some (symbol_info_cache s1 !! symbol))
                then [] else [futures_exchange_info]) in *.
  assert (Hshort : forall rest, fetch `prefix_of` fetch ++ rest).
  { intros rest. apply prefix_app_r. reflexivity. }
  assert (Hread : forall l u t,
             @Ok (Z * float * float) (leverage, usdt_amount, tsl) = Ok (l, u, t) ->
             leverage = l /\ tsl = t).
  { now intros l u t [= <- _ <-]. }
  destruct found as [[info |] | e].
  2:{ exists fetch, leverage, 0%float, tsl. cbn [snd].
      split; [ exact Hfetch | split; [ apply Hshort | exact Hread ] ]. }
  2:{ exists fetch, leverage, 0%float, tsl. cbn [snd].
      split; [ exact Hfetch | split; [ apply Hshort | exact Hread ] ]. }
  clear Hshort.
  unfold submit_order, adjust_quantity, entry_order, trailing_stop_order.
  cbv [bind invoke lift logging ret raise respond].
  repeat (cbn [fst snd calls symbol_info_cache log];
          match goal with
          | |- context [match ?x with _ => _ end] =>
              lazymatch x with
              | context [match _ with _ => _ end] => fail
              | _ => destruct x eqn:?
              end
          end);
    cbn [fst snd calls symbol_info_cache log];
    rewrite ?Hfetch; rewrite <- ?app_assoc; cbn [app];
    eexists _, leverage, _, tsl;
    (split; [ reflexivity | ]);
    (split; [ | exact Hread ]);
    apply prefix_app; eexists; cbn [app]; reflexivity.
  Unshelve. all: exact 0%float.
Qed.

End Orders.

(** ** What the opening rejects *)

Section Quantity.

Variable client : binance_client.
Variable WEBHOOK_SECRET : string.

Lemma submit_order_positive symbol sd quantity tsl :
  (quantity <=? 0)%float = false ->
  issues (fun c => match c with
                   | futures_create_order _ _ _ q _ _ => (q <=? 0)%float = false
                   | _ => True
                   end)
    (submit_order client symbol sd quantity tsl).
Proof.
  intros Hq. unfold submit_order, entry_order, trailing_stop_order.
  repeat first [ exact Hq | exact I | issues_step ].
Qed.

(** C7, as the code has it.  In the opening phase of a directional
    request (the close step has succeeded):
    - a [lev] or [usdt] field that is missing, or a string that is not a
      number, is answered with the status 400 and a message that names the
      missing key or the text that is not a number, with no call after the
      close step;
    - when the fields are read, the filters are known and the exchange has
      answered the leverage and the mark price, a quantity whose truncation
      to the step is below the minimum, or is not positive, is answered with
      the status 400; the calls after the close step are the instrument
      list (if the symbol was not cached), the leverage and the mark price,
      so that no order is created;
    - whatever the exchange answers, every order that the opening creates
      has a quantity that is positive. *)
Theorem opening_rejections :
  (forall items symbol action s detail s1 e,
     directional WEBHOOK_SECRET items symbol action ->
     close_position_for_symbol client symbol (received items s) = (Ok (true, detail), s1) ->
     unusable items "lev" e \/
     ((exists leverage, leverage_of items = Ok leverage) /\ unusable items "usdt" e) ->
     fst (webhook client WEBHOOK_SECRET (PDict items) s)
     = Ok {| payload := Error (InvalidOpenData e); status_code := 400 |} /\
     calls (snd (webhook client WEBHOOK_SECRET (PDict items) s)) = calls s1) /\
  (forall items symbol action s detail s1 leverage usdt_amount tsl info s2 changed mark
          mark_price lev raw precision n formatted,
     directional WEBHOOK_SECRET items symbol action ->
     close_position_for_symbol client symbol (received items s) = (Ok (true, detail), s1) ->
     open_fields items = Ok (leverage, usdt_amount, tsl) ->
     get_symbol_info client symbol s1 = (Ok (Some info), s2) ->
     client (calls s2) (futures_change_leverage symbol leverage) = Ok changed ->
     client (calls s2 ++ [futures_change_leverage symbol leverage])
       (futures_mark_price symbol) = Ok mark ->
     (v <~ getitem mark "markPrice"; Float.of_pyval v) = Ok mark_price ->
     Float.of_int leverage = Ok lev ->
     Float.truediv (usdt_amount * lev)%float mark_price = Ok raw ->
     Float.neg_log10_round (stepSize info) = Ok precision ->
     (scaled <~ float_mul raw (pow10 precision); Float.floor scaled) = Ok n ->
     int_div n (pow10 precision) = Ok formatted ->
     (formatted <? minQty info)%float = true \/ (formatted <=? 0)%float = true ->
     fst (webhook client WEBHOOK_SECRET (PDict items) s)
     = Ok {| payload := Error (QuantityTooSmall raw); status_code := 400 |} /\
     calls (snd (webhook client WEBHOOK_SECRET (PDict items) s))
     = calls s1
       ++ (if bool_decide (is_Some (symbol_info_cache s1 !! symbol))
           then [] else [futures_exchange_info])
       ++ [futures_change_leverage symbol leverage; futures_mark_price symbol]) /\
  (forall items symbol action s detail s1,
     directional WEBHOOK_SECRET items symbol action ->
     close_position_for_symbol client symbol (received items s) = (Ok (true, detail), s1) ->
     exists new,
       calls (snd (webhook client WEBHOOK_SECRET (PDict items) s)) = calls s1 ++ new /\
       Forall (fun c => match c with
                        | futures_create_order _ _ _ quantity _ _ =>
                            (quantity <=? 0)%float = false
                        | _ => True
                        end) new).
Proof.
  split; [ | split ].
  - intros items symbol action s detail s1 e Hdir Hclose [Hlev | [[leverage Hlev] Husdt]].
    + rewrite (directional_bad_fields _ _ _ _ _ _ _ _ _ Hdir Hclose (unusable_lev _ _ Hlev)).
      destruct Hlev as [(_ & ->) | (text & _ & _ & ->)]; split; reflexivity.
    + rewrite (directional_bad_fields _ _ _ _ _ _ _ _ _ Hdir Hclose
                 (unusable_usdt _ _ _ Hlev Husdt)).
      destruct Husdt as [(_ & ->) | (text & _ & _ & ->)]; split; reflexivity.
  - intros items symbol action s detail s1 leverage usdt_amount tsl info s2 changed mark
      mark_price lev raw precision n formatted
      Hdir Hclose Hfields Hinfo Hlev Hmark Hprice Hof Hraw Hp Hn Hformatted Hsmall.
    assert (Hadj : exists q sq,
               adjust_quantity raw (stepSize info) (minQty info)
                 {| calls := (calls s2 ++ [futures_change_leverage symbol leverage])
                             ++ [futures_mark_price symbol];
                    symbol_info_cache := symbol_info_cache s2;
                    log := log s2 |} = (Ok q, sq) /\
               (q <=? 0)%float = true /\
               calls sq = (calls s2 ++ [futures_change_leverage symbol leverage])
                          ++ [futures_mark_price symbol]).
    { match goal with
      | |- exists q sq, adjust_quantity _ _ _ ?st = _ /\ _ =>
          pose proof (adjust_quantity_threshold raw (stepSize info) (minQty info)
                        precision formatted st Hp) as Hfst;
          pose proof (calls_unchanged _
                        (adjust_quantity_issues _ raw (stepSize info) (minQty info)) st)
            as Hcalls;
          destruct (adjust_quantity raw (stepSize info) (minQty info) st) as [r sq]
      end.
      cbn [fst snd calls] in Hfst, Hcalls.
      rewrite Hfst.
      2:{ destruct (float_mul raw (pow10 precision)) as [scaled |]; [ | discriminate ].
          cbn [and_then] in Hn |- *. rewrite Hn. exact Hformatted. }
      eexists _, sq. split; [ reflexivity | ]. split; [ | exact Hcalls ].
      destruct (formatted <? minQty info)%float; [ reflexivity | ].
      destruct Hsmall; [ discriminate | assumption ]. }
    destruct Hadj as (q & sq & Hadj & Hq & Hcalls).
    assert (Hopen : open_position client items symbol action s1
                    = (Ok {| payload := Error (QuantityTooSmall raw); status_code := 400 |},
                       snd (logging ERROR (QuantityTooSmallLogged raw) sq))).
    { unfold open_position, prepare_order, bind, lift, invoke.
      rewrite Hfields, Hinfo. cbn [calls symbol_info_cache log].
      rewrite Hlev, Hmark, Hprice, Hof. cbn [and_then]. rewrite Hraw, Hadj, Hq.
      reflexivity. }
    rewrite (webhook_directional _ _ _ _ _ _ Hdir).
    rewrite (directional_close_succeeded _ _ _ _ _ _ _ Hclose).
    rewrite Hopen. cbn [fst snd open_handlers ret logging calls].
    split; [ reflexivity | ].
    rewrite Hcalls.
    pose proof (get_symbol_info_calls client symbol s1) as Hfetch.
    rewrite Hinfo in Hfetch. cbn [snd] in Hfetch. rewrite Hfetch.
    now rewrite <- !app_assoc.
  - intros items symbol action s detail s1 Hdir Hclose.
    rewrite (webhook_directional _ _ _ _ _ _ Hdir).
    rewrite (directional_close_succeeded _ _ _ _ _ _ _ Hclose).
    rewrite open_handlers_calls.
    revert s1 Hclose. intros s1 _. revert s1.
    match goal with
    | |- forall s1, exists new, _ /\ Forall ?P new =>
        change (issues P (open_position client items symbol action))
    end.
    unfold open_position. apply issues_bind_when.
    + eapply issues_weaken; [ | apply prepare_order_issues ].
      intros [ | | | | | ]; try trivial. discriminate.
    + intros [r | [[sd quantity] tsl]] [st Hrun]; [ apply issues_ret | ].
      destruct (prepare_order client items symbol action st) as [prepared s2] eqn:Hprep.
      cbn [fst] in Hrun. subst prepared.
      destruct (prepare_order_submits _ _ _ _ _ _ _ _ _ Hprep) as (_ & _ & Hq).
      apply submit_order_positive. exact Hq.
Qed.

End Quantity.

Section MarkPrice.

Variable client : binance_client.
Variable WEBHOOK_SECRET : string.

(** X15. A mark price of zero stops the opening.  When the exchange
    answers the mark price of a directional request with zero, the division
    of line 157 raises [ZeroDivisionError]: the request is answered with the
    status 500 and the text of the exception, the error is logged, and the
    mark price is the last call, so that no order is sent. *)
Theorem zero_mark_price_answers_500 items symbol action s detail s1
    leverage usdt_amount tsl info s2 changed mark mark_price lev :
  directional WEBHOOK_SECRET items symbol action ->
  close_position_for_symbol client symbol (received items s) = (Ok (true, detail), s1) ->
  open_fields items = Ok (leverage, usdt_amount, tsl) ->
  get_symbol_info client symbol s1 = (Ok (Some info), s2) ->
  client (calls s2) (futures_change_leverage symbol leverage) = Ok changed ->
  client (calls s2 ++ [futures_change_leverage symbol leverage])
    (futures_mark_price symbol) = Ok mark ->
  (v <~ getitem mark "markPrice"; Float.of_pyval v) = Ok mark_price ->
  (mark_price =? 0)%float = true ->
  Float.of_int leverage = Ok lev ->
  webhook client WEBHOOK_SECRET (PDict items) s
  = (Ok {| payload := Error (ExceptionText ZeroDivisionError); status_code := 500 |},
     {| calls := calls s2 ++ [futures_change_leverage symbol leverage;
                              futures_mark_price symbol];
        symbol_info_cache := symbol_info_cache s2;
        log := log s2 ++ [(ERROR, OpenUnexpectedError ZeroDivisionError)] |}).
Proof.
  intros Hdir Hclose Hfields Hinfo Hlev Hmark Hprice Hzero Hof.
  assert (Hopen : open_position client items symbol action s1
                  = (Raise ZeroDivisionError,
                     {| calls := (calls s2 ++ [futures_change_leverage symbol leverage])
                                 ++ [futures_mark_price symbol];
                        symbol_info_cache := symbol_info_cache s2;
                        log := log s2 |})).
  { unfold open_position, prepare_order, bind, lift, invoke.
    rewrite Hfields, Hinfo. cbn [calls symbol_info_cache log].
    rewrite Hlev, Hmark, Hprice, Hof. cbn [and_then].
    unfold Float.truediv. now rewrite Hzero. }
  rewrite (webhook_directional _ _ _ _ _ _ Hdir).
  rewrite (directional_close_succeeded _ _ _ _ _ _ _ Hclose).
  rewrite Hopen. cbn [fst snd]. unfold open_handlers, bind, logging, respond, ret. cbn.
  now rewrite <- app_assoc.
Qed.

End MarkPrice.

(** ** The log *)

Section Log.

Variable client : binance_client.
Variable WEBHOOK_SECRET : string.

Lemma logs_same {A} (m : M A) : (forall s, log (snd (m s)) = log s) -> logs m.
Proof. intros H s. exists []. now rewrite H, app_nil_r. Qed.

Lemma logs_logging l msg : logs (logging l msg).
Proof. intros s. now exists [(l, msg)]. Qed.

Lemma logs_bind {A B} (m : M A) (k : A -> M B) :
  logs m -> (forall a, logs (k a)) -> logs (bind m k).
Proof.
  intros Hm Hk s. unfold bind. destruct (Hm s) as (new1 & E1).
  destruct (m s) as [[a | e] s1]; cbn [snd] in *.
  - destruct (Hk a s1) as (new2 & E2). exists (new1 ++ new2).
    now rewrite E2, E1, app_assoc.
  - now exists new1.
Qed.

Lemma logs_attempt {A} (m : M A) : logs m -> logs (attempt m).
Proof. intros H s. rewrite attempt_run. exact (H s). Qed.

Ltac logs_step :=
  match goal with
  | |- logs (bind _ _) => apply logs_bind; [ | intros ? ]
  | |- logs (attempt _) => apply logs_attempt
  | |- logs (logging _ _) => apply logs_logging
  | |- logs (match ?x with _ => _ end) => destruct x
  | |- logs (let '(_, _) := ?x in _) => destruct x
  | |- logs (cache_read _) =>
      let st := fresh "st" in
      apply logs_same; intros st; unfold cache_read;
      destruct (symbol_info_cache st !! _); reflexivity
  | |- logs _ => apply logs_same; reflexivity
  end.

Lemma find_symbol_logs symbol symbols : logs (find_symbol symbol symbols).
Proof.
  induction symbols as [| entry symbols IH]; cbn [find_symbol]; [ logs_step | ].
  logs_step; [ logs_step | ]. destruct (eq_str _ symbol); [ | exact IH ].
  repeat logs_step.
Qed.

Lemma close_position_logs symbol : logs (close_position_for_symbol client symbol).
Proof.
  unfold close_position_for_symbol, close_handlers. repeat logs_step.
Qed.

Lemma directional_branch_logs items symbol action :
  logs (directional_branch client items symbol action).
Proof.
  unfold directional_branch, open_handlers, open_position, prepare_order,
    submit_order, adjust_quantity, get_symbol_info.
  repeat first [ apply close_position_logs | apply find_symbol_logs | logs_step ].
Qed.

(** X16. The log only grows, and every JSON object that is posted is
    logged in full, secret included, before it is authorized: the first
    entry that a request adds is the object received.  A request with a
    wrong secret adds the warning and changes nothing else; a body that is
    no JSON object leaves the whole state as it was. *)
Theorem request_is_logged_first data s :
  (exists new, log (snd (webhook client WEBHOOK_SECRET data s)) = log s ++ new) /\
  (forall items,
     data = PDict items ->
     (exists rest,
        log (snd (webhook client WEBHOOK_SECRET data s))
        = log s ++ (INFO, WebhookReceived (PDict items)) :: rest) /\
     (authorized WEBHOOK_SECRET items = false ->
      snd (webhook client WEBHOOK_SECRET data s)
      = {| calls := calls s;
           symbol_info_cache := symbol_info_cache s;
           log := log s ++ [(INFO, WebhookReceived (PDict items));
                            (WARNING, UnauthorizedAccess)] |})) /\
  ((forall items, data <> PDict items) -> snd (webhook client WEBHOOK_SECRET data s) = s).
Proof.
  assert (Hdict : forall items,
             exists rest,
               log (snd (webhook client WEBHOOK_SECRET (PDict items) s))
               = log s ++ (INFO, WebhookReceived (PDict items)) :: rest).
  { intros items. unfold webhook. erewrite bind_ok by reflexivity. cbv beta.
    match goal with
    | |- exists rest, log (snd (?m ?st)) = _ =>
        assert (H : logs m);
        [ | destruct (H st) as (rest & Hlog); exists rest; rewrite Hlog ]
    end.
    { repeat first
        [ apply close_position_logs | apply directional_branch_logs | logs_step ]. }
    cbn [logging snd log]. now rewrite <- app_assoc. }
  split; [ | split ].
  - destruct data; try (exists []; cbn; now rewrite app_nil_r).
    destruct (Hdict items) as (rest & Hlog). eauto.
  - intros items ->. split; [ apply Hdict | ].
    intros Hauth. unfold webhook, bind, logging, respond, ret. rewrite Hauth.
    cbn. now rewrite <- app_assoc.
  - intros Hnot. destruct data; try reflexivity. now destruct (Hnot items).
Qed.

End Log.

(** ** The further theorems at work on the scripted exchange *)

Section MoreWitnesses.

Import Example.

(** C7, as the code has it, at three requests: one without [lev]; one of
    1.2 USDT at leverage 1 and a mark price of 50000, whose quantity of
    0.000024 truncates to zero; and one of 100 USDT at leverage 10, whose
    two orders are for 0.02. *)
Lemma opening_rejections_witness :
  (fst (webhook (exchange flat) secret (PDict long_signal_without_lev) fresh)
   = Ok {| payload := Error (InvalidOpenData (KeyError "lev")); status_code := 400 |} /\
   calls (snd (webhook (exchange flat) secret (PDict long_signal_without_lev) fresh))
   = calls (after_close flat long_signal_without_lev)) /\
  (fst (webhook (exchange flat) secret (PDict small_long_signal) fresh)
   = Ok {| payload := Error (QuantityTooSmall 0x1.92a737110e454p-16); status_code := 400 |} /\
   calls (snd (webhook (exchange flat) secret (PDict small_long_signal) fresh))
   = calls (after_close flat small_long_signal)
     ++ (if bool_decide (is_Some (symbol_info_cache (after_close flat small_long_signal)
                                    !! "BTCUSDT"%string))
         then [] else [futures_exchange_info])
     ++ [futures_change_leverage "BTCUSDT" 1; futures_mark_price "BTCUSDT"]) /\
  (exists new,
     calls (snd (webhook (exchange flat) secret (PDict long_signal) fresh))
     = calls (after_close flat long_signal) ++ new /\
     Forall (fun c => match c with
                      | futures_create_order _ _ _ quantity _ _ =>
                          (quantity <=? 0)%float = false
                      | _ => True
                      end) new).
Proof.
  destruct (opening_rejections (exchange flat) secret) as (Hfields & Hsmall & Hpositive).
  split; [ | split ].
  - apply (Hfields long_signal_without_lev "BTCUSDT" "LONG" fresh NoPositionToClose
             (after_close flat long_signal_without_lev) (KeyError "lev")).
    + apply long_signal_directional.
    + vm_compute. reflexivity.
    + left. left. split; reflexivity.
  - apply (Hsmall small_long_signal "BTCUSDT" "LONG" fresh NoPositionToClose
             (after_close flat small_long_signal)
             1 0x1.3333333333333p+0%float 0%float btc_filters
             (snd (get_symbol_info (exchange flat) "BTCUSDT"
                     (after_close flat small_long_signal)))
             (PDict [("leverage"%string, PInt 1)])
             (PDict [("markPrice"%string, PStr "50000")])
             50000%float 1%float 0x1.92a737110e454p-16%float 3 0 0%float).
    + apply long_signal_directional.
    + vm_compute. reflexivity.
    + vm_compute. reflexivity.
    + vm_compute. reflexivity.
    + reflexivity.
    + reflexivity.
    + vm_compute. reflexivity.
    + vm_compute. reflexivity.
    + vm_compute. reflexivity.
    + vm_compute. reflexivity.
    + vm_compute. reflexivity.
    + vm_compute. reflexivity.
    + left. reflexivity.
  - apply (Hpositive long_signal "BTCUSDT" "LONG" fresh NoPositionToClose
             (after_close flat long_signal)).
    + apply long_signal_directional.
    + vm_compute. reflexivity.
Defined.

(** X1 at a process that has served a request for BTCUSDT. *)
Lemma get_symbol_info_fetches_once_witness :
  get_symbol_info (exchange flat) "BTCUSDT" warm = (Ok (Some btc_filters), warm).
Proof.
  apply (get_symbol_info_fetches_once (exchange flat) "BTCUSDT" fresh btc_filters
           (snd (get_symbol_info (exchange flat) "BTCUSDT" fresh)) warm).
  - vm_compute. reflexivity.
  - vm_compute. reflexivity.
Defined.

(** X2 at a request for another symbol, which the instrument list does
    not have. *)
Lemma webhook_keeps_cached_filters_witness :
  symbol_info_cache (snd (webhook (exchange flat) secret (PDict unlisted_signal) warm))
    !! "BTCUSDT"%string = Some btc_filters.
Proof.
  apply (webhook_keeps_cached_filters (exchange flat) secret (PDict unlisted_signal) warm
           "BTCUSDT" btc_filters).
  vm_compute. reflexivity.
Defined.

(** X3 at the first fetch of BTCUSDT, the second entry of the list. *)
Lemma get_symbol_info_reads_filters_witness :
  get_symbol_info (exchange flat) "BTCUSDT" fresh
  = (Ok (Some btc_filters),
     {| calls := calls fresh ++ [futures_exchange_info];
        symbol_info_cache := <["BTCUSDT"%string := btc_filters]> (symbol_info_cache fresh);
        log := log fresh ++ [(INFO, FetchingFilters "BTCUSDT")] |}).
Proof.
  apply (get_symbol_info_reads_filters (exchange flat) "BTCUSDT" fresh
           (lot "0.001" "0.001") [eth_entry] btc_entry [] (PStr "BTCUSDT")
           0x1.999999999999ap-4 0x1.0624dd2f1a9fcp-10 0x1.0624dd2f1a9fcp-10).
  - reflexivity.
  - reflexivity.
  - reflexivity.
  - repeat constructor. exists (PStr "ETHUSDT"). split; reflexivity.
  - reflexivity.
  - reflexivity.
  - vm_compute. reflexivity.
  - vm_compute. reflexivity.
  - vm_compute. reflexivity.
Defined.

(** X4 at a LONG request for BTCUSDT. *)
Lemma missing_lot_size_answers_500_witness :
  webhook (exchange no_lot_size) secret (PDict long_signal) fresh
  = (Ok {| payload := Error (ExceptionText StopIteration); status_code := 500 |},
     {| calls := calls (after_close no_lot_size long_signal) ++ [futures_exchange_info];
        symbol_info_cache := symbol_info_cache (after_close no_lot_size long_signal);
        log := log (after_close no_lot_size long_signal)
               ++ [(INFO, FetchingFilters "BTCUSDT");
                   (ERROR, OpenUnexpectedError StopIteration)] |}).
Proof.
  apply (missing_lot_size_answers_500 (exchange no_lot_size) secret long_signal
           "BTCUSDT" "LONG" fresh NoPositionToClose (after_close no_lot_size long_signal)
           (10, 100%float, 1.5%float)
           (PDict [("symbols"%string, PList [eth_entry; btc_entry_without_lot])])
           [eth_entry] btc_entry_without_lot [] (PStr "BTCUSDT") 0x1.999999999999ap-4
           (PList [price_filter]) [price_filter]).
  - apply long_signal_directional.
  - vm_compute. reflexivity.
  - vm_compute. reflexivity.
  - vm_compute. reflexivity.
  - reflexivity.
  - reflexivity.
  - repeat constructor. exists (PStr "ETHUSDT"). split; reflexivity.
  - reflexivity.
  - reflexivity.
  - vm_compute. reflexivity.
  - reflexivity.
  - reflexivity.
  - repeat constructor. exists (PStr "PRICE_FILTER"). split; reflexivity.
Defined.

(** X6 at a long position of 1.5 whose closing order is refused with the
    code -2022. *)
Lemma refused_closing_order_witness :
  fst (close_position_for_symbol (refusing (-2022)) "BTCUSDT" fresh)
  = Ok (true, LikelyAlreadyClosed) /\
  calls (snd (close_position_for_symbol (refusing (-2022)) "BTCUSDT" fresh))
  = calls fresh ++ [futures_position_information "BTCUSDT";
                    futures_cancel_all_open_orders "BTCUSDT";
                    futures_create_order "BTCUSDT" SELL MARKET 1.5 None None].
Proof.
  apply (refused_closing_order (refusing (-2022)) "BTCUSDT" fresh (position "1.5")
           [PDict [("symbol"%string, PStr "BTCUSDT"); ("positionAmt"%string, PStr "1.5")]]
           (PDict [("symbol"%string, PStr "BTCUSDT"); ("positionAmt"%string, PStr "1.5")])
           1.5%float (PDict []) (BinanceAPIException (-2022) "rejected")).
  - reflexivity.
  - reflexivity.
  - vm_compute. reflexivity.
  - discriminate.
  - vm_compute. reflexivity.
  - reflexivity.
  - reflexivity.
Defined.

(** X7 at a CLOSE request for a long position of 1.5. *)
Lemma close_request_witness :
  exists success detail,
    fst (close_position_for_symbol (exchange long) "BTCUSDT" (received close_signal fresh))
    = Ok (success, detail) /\
    webhook (exchange long) secret (PDict close_signal) fresh
    = (Ok (if success
           then {| payload := CloseProcessed "BTCUSDT" detail; status_code := 200 |}
           else {| payload := Error (CloseDetail detail); status_code := 500 |}),
       snd (close_position_for_symbol (exchange long) "BTCUSDT"
              (received close_signal fresh))).
Proof.
  apply (close_request (exchange long) secret close_signal "BTCUSDT" fresh).
  - reflexivity.
  - reflexivity.
Defined.

(** X8 at a LONG request for [btcusdt]. *)
Lemma calls_name_the_symbol_witness :
  (exists raw,
     dict_get "symbol" long_signal = Some (PStr raw) /\ "BTCUSDT"%string = upper raw) /\
  exists new,
    calls (snd (webhook (exchange flat) secret (PDict long_signal) fresh))
    = calls fresh ++ new /\
    Forall (about "BTCUSDT") new.
Proof.
  apply (calls_name_the_symbol (exchange flat) secret long_signal "BTCUSDT" "LONG" fresh).
  reflexivity.
Defined.

(** X9 at a request whose symbol is the number 5. *)
Lemma handler_raises_only_attribute_error_witness :
  AttributeError = AttributeError /\
  calls (snd (webhook (exchange flat) secret (PDict numeric_symbol_signal) fresh))
  = calls fresh /\
  exists items,
    PDict numeric_symbol_signal = PDict items /\
    authorized secret items = true /\
    ((exists v, dict_get "symbol" items = Some v /\ forall text, v <> PStr text) \/
     (exists v, dict_get "side" items = Some v /\ forall text, v <> PStr text)).
Proof.
  apply (handler_raises_only_attribute_error (exchange flat) secret
           (PDict numeric_symbol_signal) fresh AttributeError).
  vm_compute. reflexivity.
Defined.

(** X10 at the answer to a request whose trailing stop is rejected. *)
Lemma every_answer_is_accounted_witness :
  accounted {| payload := Error (ExceptionText (BinanceAPIException (-2021) "rejected"));
               status_code := 500 |}.
Proof.
  apply (every_answer_is_accounted (exchange stop_rejected) secret (PDict long_signal) fresh).
  vm_compute. reflexivity.
Defined.

(** X11 at a LONG request of 100 USDT at leverage 10 and a mark price of
    50000: the quantity is 0.02. *)
Lemma order_is_sized_from_the_filters_witness :
  exists leverage usdt_amount info mark mark_price lev raw precision n,
    let fetch :=
      if bool_decide (is_Some (symbol_info_cache (after_close flat long_signal)
                                 !! "BTCUSDT"%string))
      then [] else [futures_exchange_info] in
    open_fields long_signal = Ok (leverage, usdt_amount, 1.5%float) /\
    symbol_info_cache (snd (prepared flat long_signal "LONG")) !! "BTCUSDT"%string
    = Some info /\
    calls (snd (prepared flat long_signal "LONG"))
    = calls (after_close flat long_signal) ++ fetch
      ++ [futures_change_leverage "BTCUSDT" leverage; futures_mark_price "BTCUSDT"] /\
    exchange flat
      (calls (after_close flat long_signal) ++ fetch
       ++ [futures_change_leverage "BTCUSDT" leverage])
      (futures_mark_price "BTCUSDT") = Ok mark /\
    (v <~ getitem mark "markPrice"; Float.of_pyval v) = Ok mark_price /\
    Float.of_int leverage = Ok lev /\
    Float.truediv (usdt_amount * lev)%float mark_price = Ok raw /\
    Float.neg_log10_round (stepSize info) = Ok precision /\
    (scaled <~ float_mul raw (pow10 precision); Float.floor scaled) = Ok n /\
    int_div n (pow10 precision) = Ok 0x1.47ae147ae147bp-6%float /\
    (0x1.47ae147ae147bp-6 <=? 0)%float = false /\
    (0x1.47ae147ae147bp-6 <? minQty info)%float = false.
Proof.
  apply (order_is_sized_from_the_filters (exchange flat) long_signal "BTCUSDT" "LONG"
           (after_close flat long_signal) BUY 0x1.47ae147ae147bp-6 1.5
           (snd (prepared flat long_signal "LONG"))).
  vm_compute. reflexivity.
Defined.

(** X15 at a LONG request when the mark price is "0". *)
Lemma zero_mark_price_answers_500_witness :
  webhook (exchange zero_price) secret (PDict long_signal) fresh
  = (Ok {| payload := Error (ExceptionText ZeroDivisionError); status_code := 500 |},
     {| calls := calls (snd (get_symbol_info (exchange zero_price) "BTCUSDT"
                               (after_close zero_price long_signal)))
                 ++ [futures_change_leverage "BTCUSDT" 10; futures_mark_price "BTCUSDT"];
        symbol_info_cache :=
          symbol_info_cache (snd (get_symbol_info (exchange zero_price) "BTCUSDT"
                                    (after_close zero_price long_signal)));
        log := log (snd (get_symbol_info (exchange zero_price) "BTCUSDT"
                           (after_close zero_price long_signal)))
               ++ [(ERROR, OpenUnexpectedError ZeroDivisionError)] |}).
Proof.
  apply (zero_mark_price_answers_500 (exchange zero_price) secret long_signal
           "BTCUSDT" "LONG" fresh NoPositionToClose (after_close zero_price long_signal)
           10 100%float 1.5%float btc_filters
           (snd (get_symbol_info (exchange zero_price) "BTCUSDT"
                   (after_close zero_price long_signal)))
           (PDict [("leverage"%string, PInt 10)]) (PDict [("markPrice"%string, PStr "0")])
           0%float 10%float).
  - apply long_signal_directional.
  - vm_compute. reflexivity.
  - vm_compute. reflexivity.
  - vm_compute. reflexivity.
  - reflexivity.
  - reflexivity.
  - vm_compute. reflexivity.
  - reflexivity.
  - vm_compute. reflexivity.
Defined.

End MoreWitnesses.
